(** * ci-framework: change detection and tiered quality gates

    A shallow embedding of [framework/actions/change_detection.py] and
    [framework/actions/quality_gates.py], followed by the properties the
    specification states about them.

    Conventions.  Python [str] is [string], the UTF-8 bytes of the text
    (paths, commands and patterns are compared, searched and cut at bytes,
    which agrees with the code on whole characters); a [dict] whose
    iteration order matters (pattern tables, classifications, command
    results) is an association list with unique keys kept in insertion
    order; the
    dependency graph is a [gmap] from paths to nodes and a Python [set] of
    paths is a [gset].  A Python [int] is [Z]. *)

From Stdlib Require Import ZArith QArith String Ascii List Lia Permutation.
From stdpp Require Import base option list gmap sets strings pretty sorting.

#[local] Set Warnings "-clear-no-such-hyp".

Local Open Scope string_scope.
Local Open Scope list_scope.

(* ===================================================================== *)
(** * Python string and dict primitives used by the two modules           *)
(* ===================================================================== *)

Module Py.

(** [s.startswith(p)] *)
Definition startswith (s p : string) : bool := String.prefix p s.

(** [s[n:]] for [0 <= n] *)
Fixpoint drop_str (n : nat) (s : string) : string :=
  match n, s with
  | O, _ => s
  | S _, EmptyString => EmptyString
  | S n', String _ s' => drop_str n' s'
  end.

(** [s[:n]] for [0 <= n] *)
Fixpoint take_str (n : nat) (s : string) : string :=
  match n, s with
  | O, _ => EmptyString
  | S _, EmptyString => EmptyString
  | S n', String c s' => String c (take_str n' s')
  end.

(** [s[:-n]] for [n > 0] *)
Definition drop_end (n : nat) (s : string) : string :=
  take_str (String.length s - n) s.

(** [s.endswith(p)] *)
Definition endswith (s p : string) : bool :=
  (String.length p <=? String.length s)%nat
  && String.eqb (drop_str (String.length s - String.length p) s) p.

(** [needle in hay] on strings *)
Fixpoint contains (needle hay : string) : bool :=
  String.prefix needle hay
  || match hay with
     | EmptyString => false
     | String _ hay' => contains needle hay'
     end.

(** [s.replace(old, new)] for a non-empty [old]: non-overlapping
    occurrences, leftmost first.  [skip] counts the characters of a
    matched occurrence that are still to be consumed. *)
Fixpoint replace_go (old new : string) (skip : nat) (s : string) : string :=
  match s with
  | EmptyString => EmptyString
  | String c s' =>
      match skip with
      | S k => replace_go old new k s'
      | O =>
          if String.prefix old s
          then new ++ replace_go old new (String.length old - 1) s'
          else String c (replace_go old new O s')
      end
  end.
Definition replace (s old new : string) : string := replace_go old new O s.

(** [c.isspace()] on the ASCII range. *)
Definition is_space (c : ascii) : bool :=
  let n := nat_of_ascii c in
  ((9 <=? n) && (n <=? 13) || (28 <=? n) && (n <=? 32))%nat.

(** [s.split()]: the maximal runs of non-whitespace characters.  [cur]
    is the run being read, reversed. *)
Fixpoint split_go (cur : option string) (s : string) : list string :=
  match s with
  | EmptyString => option_list (String.rev <$> cur)
  | String c s' =>
      if is_space c
      then option_list (String.rev <$> cur) ++ split_go None s'
      else split_go (Some (String c (default "" cur))) s'
  end.
Definition split (s : string) : list string := split_go None s.

(** [xs[-1]]; [None] is Python's [IndexError]. *)
Definition last_item {A} (xs : list A) : option A := last xs.

(** ASCII part of [str.lower()]. *)
Definition lower_char (c : ascii) : ascii :=
  let n := nat_of_ascii c in
  if ((65 <=? n) && (n <=? 90))%nat then ascii_of_nat (n + 32) else c.
Fixpoint lower (s : string) : string :=
  match s with
  | EmptyString => EmptyString
  | String c s' => String (lower_char c) (lower s')
  end.

(** [s.rfind(".")] as the offset of the last dot, if any. *)
Fixpoint rfind_dot (s : string) : option nat :=
  match s with
  | EmptyString => None
  | String c s' =>
      match rfind_dot s' with
      | Some i => Some (S i)
      | None => if Ascii.eqb c "." then Some O else None
      end
  end.

(** Components of a POSIX path as [pathlib] parses it: split on ["/"],
    empty and ["."] components dropped. *)
Fixpoint path_parts_go (cur : string) (s : string) : list string :=
  match s with
  | EmptyString => [String.rev cur]
  | String c s' =>
      if Ascii.eqb c "/" then String.rev cur :: path_parts_go "" s'
      else path_parts_go (String c cur) s'
  end.
Definition path_parts (s : string) : list string :=
  List.filter (fun p => negb (String.eqb p "" || String.eqb p "."))
              (path_parts_go "" s).

(** [Path(s).name] *)
Definition path_name (s : string) : string :=
  match last (path_parts s) with Some n => n | None => "" end.

(** [Path(s).suffix] *)
Definition path_suffix (s : string) : string :=
  let name := path_name s in
  match rfind_dot name with
  | Some i =>
      if ((0 <? i) && (i <? String.length name - 1))%nat
      then drop_str i name else ""
  | None => ""
  end.

(** [Path(s).stem] *)
Definition path_stem (s : string) : string :=
  let name := path_name s in
  match rfind_dot name with
  | Some i =>
      if ((0 <? i) && (i <? String.length name - 1))%nat
      then take_str i name else name
  | None => name
  end.

(** [fnmatch.fnmatch(name, pat)] on a POSIX system (no case folding).
    The pattern language modelled is the one the default tables use:
    ["*"] matches any run of characters (slashes included), ["?"] any
    single character (one byte: the paths meant are ASCII), every other
    character itself.  Bracket expressions are not modelled: a ["["] is
    read as itself; no default pattern contains one. *)
Fixpoint fnmatch_go (pat : list ascii) (name : list ascii) : bool :=
  match pat with
  | [] => match name with [] => true | _ => false end
  | p :: pat' =>
      if Ascii.eqb p "*" then
        (fix star (name : list ascii) : bool :=
           fnmatch_go pat' name
           || match name with
              | [] => false
              | _ :: name' => star name'
              end) name
      else
        match name with
        | [] => false
        | c :: name' =>
            (Ascii.eqb p "?" || Ascii.eqb p c) && fnmatch_go pat' name'
        end
  end.
Definition fnmatch (name pat : string) : bool :=
  fnmatch_go (list_ascii_of_string pat) (list_ascii_of_string name).

(** ** Insertion-ordered dictionaries *)

Definition dict (V : Type) : Type := list (string * V).

Fixpoint dict_get {V} (d : dict V) (k : string) : option V :=
  match d with
  | [] => None
  | (k', v) :: d' => if String.eqb k' k then Some v else dict_get d' k
  end.

(** [d[k] = v]: replaces in place, or appends a new key at the end. *)
Fixpoint dict_set {V} (d : dict V) (k : string) (v : V) : dict V :=
  match d with
  | [] => [(k, v)]
  | (k', v') :: d' =>
      if String.eqb k' k then (k', v) :: d' else (k', v') :: dict_set d' k v
  end.

(** [d.update(e)] *)
Definition dict_update {V} (d e : dict V) : dict V :=
  fold_left (fun acc kv => dict_set acc (fst kv) (snd kv)) e d.

Definition dict_keys {V} (d : dict V) : list string := List.map fst d.
Definition dict_values {V} (d : dict V) : list V := List.map snd d.

(** [d[k].append(x)]; [None] is Python's [KeyError]. *)
Definition dict_append {A} (d : dict (list A)) (k : string) (x : A)
  : option (dict (list A)) :=
  match dict_get d k with
  | Some xs => Some (dict_set d k (xs ++ [x]))
  | None => None
  end.

(** [len(d.get(k, []))] *)
Definition dict_len_at {A} (d : dict (list A)) (k : string) : nat :=
  match dict_get d k with Some xs => List.length xs | None => O end.

(** [int(q)]: truncation towards zero. *)
Definition int_of_Q (q : Q) : Z := Z.quot (Qnum q) (Z.pos (Qden q)).

(** [sum(bs)] over a list of booleans. *)
Definition sum_bools (bs : list bool) : Z :=
  fold_left (fun acc (b : bool) => (acc + if b then 1 else 0)%Z) bs 0%Z.

End Py.

(* ===================================================================== *)
(** * change_detection.py                                                 *)
(* ===================================================================== *)

Module FilePatternMatcher.
Import Py.

Definition DEFAULT_PATTERNS : dict (list string) :=
  [ ("docs", ["docs/**"; "*.md"; "*.rst"; "*.txt"; "README*"; "CHANGELOG*";
              "LICENSE*"]);
    ("config", ["*.yml"; "*.yaml"; "*.toml"; "*.json"; ".github/**"; "*.cfg";
                "*.ini"; ".pre-commit-config.yaml"; "tox.ini"; "setup.cfg"]);
    ("tests", ["tests/**"; "**/test_*.py"; "**/*_test.py"; "**/*_tests.py";
               "**/conftest.py"; "test_*.py"; "*_test.py"]);
    ("source", ["src/**"; "**/*.py"; "**/*.js"; "**/*.ts"; "framework/**";
                "lib/**"]);
    ("dependencies", ["requirements*.txt"; "pyproject.toml"; "package.json";
                      "Pipfile*"; "poetry.lock"; "package-lock.json";
                      "yarn.lock"; "Cargo.toml"]);
    ("ci", [".github/workflows/**"; ".github/actions/**"; "*.yml"; "*.yaml";
            ".gitlab-ci.yml"]);
    ("build", ["Dockerfile*"; "docker-compose*.yml"; "Makefile"; "setup.py";
               "setup.cfg"; "CMakeLists.txt"; "build.gradle"; "pom.xml"]) ].

(** [__init__]: the instance's pattern table. *)
Definition init (custom_patterns : option (dict (list string)))
  : dict (list string) :=
  match custom_patterns with
  | Some (c :: cs) => dict_update DEFAULT_PATTERNS (c :: cs)
  | _ => DEFAULT_PATTERNS
  end.

Definition _matches_pattern (file pattern : string) : bool :=
  if fnmatch file pattern then true
  else if fnmatch ("/" ++ file) ("/" ++ pattern) then true
  else if endswith pattern "/**" && startswith file (drop_end 3 pattern)
       then true
  else false.

Definition extension_map : dict string :=
  [ (".py", "source"); (".js", "source"); (".ts", "source");
    (".jsx", "source"); (".tsx", "source"); (".go", "source");
    (".rs", "source"); (".java", "source"); (".cpp", "source");
    (".c", "source"); (".h", "source"); (".md", "docs"); (".rst", "docs");
    (".txt", "docs"); (".yml", "config"); (".yaml", "config");
    (".toml", "config"); (".json", "config"); (".ini", "config");
    (".cfg", "config") ].

Definition _infer_from_extension (file : string) : option string :=
  dict_get extension_map (lower (path_suffix file)).

(** The two nested [for] loops with their [break]s: the first category,
    in table order, one of whose patterns matches. *)
Fixpoint first_match (patterns : dict (list string)) (file : string)
  : option string :=
  match patterns with
  | [] => None
  | (category, pats) :: rest =>
      if existsb (_matches_pattern file) pats then Some category
      else first_match rest file
  end.

(** One iteration of the loop over [files]. *)
Definition classify_one (patterns : dict (list string))
    (classifications : dict (list string)) (file : string)
  : option (dict (list string)) :=
  match first_match patterns file with
  | Some category => dict_append classifications category file
  | None =>
      match _infer_from_extension file with
      | Some ext_category => dict_append classifications ext_category file
      | None => Some classifications  (* logged as unclassified *)
      end
  end.

Fixpoint classify_loop (patterns : dict (list string))
    (classifications : dict (list string)) (files : list string)
  : option (dict (list string)) :=
  match files with
  | [] => Some classifications
  | file :: files' =>
      match classify_one patterns classifications file with
      | Some c' => classify_loop patterns c' files'
      | None => None
      end
  end.

(** [classify_files]; [None] stands for a [KeyError] raised by
    [classifications[ext_category]]. *)
Definition classify_files (patterns : dict (list string))
    (files : list string) : option (dict (list string)) :=
  classify_loop patterns
    (List.map (fun category => (category, [])) (dict_keys patterns)) files.

End FilePatternMatcher.


Module OptimizationEngine.
Import Py.

(** The instance: the two toggles given to [__init__]. *)
Record t := {
  enable_test_optimization : bool;
  enable_job_skipping : bool
}.

(** Both toggles default to [True]. *)
Definition default_engine : t :=
  {| enable_test_optimization := true; enable_job_skipping := true |}.

(** [self.job_time_estimates], the same table for every instance. *)
Definition job_time_estimates : dict Z :=
  [ ("tests", 120%Z); ("security", 180%Z); ("docs", 60%Z); ("lint", 30%Z);
    ("build", 90%Z) ].

(** [self.job_time_estimates[k]] for a key of the table above. *)
Definition estimate (k : string) : Z :=
  default 0%Z (dict_get job_time_estimates k).

(** The dictionary returned by [_analyze_change_patterns]. *)
Record ChangeAnalysis := {
  has_source : bool;
  has_tests : bool;
  has_docs : bool;
  has_config : bool;
  has_dependencies : bool;
  has_ci : bool;
  has_build : bool;
  docs_only : bool;
  config_only : bool;
  tests_only : bool;
  ci_only : bool
}.

(** Python's [any] on a list of booleans. *)
Definition any (bs : list bool) : bool := existsb (fun b => b) bs.

Definition _analyze_change_patterns (classifications : dict (list string))
  : ChangeAnalysis :=
  let has_source := (0 <? dict_len_at classifications "source")%nat in
  let has_tests := (0 <? dict_len_at classifications "tests")%nat in
  let has_docs := (0 <? dict_len_at classifications "docs")%nat in
  let has_config := (0 <? dict_len_at classifications "config")%nat in
  let has_dependencies :=
    (0 <? dict_len_at classifications "dependencies")%nat in
  let has_ci := (0 <? dict_len_at classifications "ci")%nat in
  let has_build := (0 <? dict_len_at classifications "build")%nat in
  {| has_source := has_source;
     has_tests := has_tests;
     has_docs := has_docs;
     has_config := has_config;
     has_dependencies := has_dependencies;
     has_ci := has_ci;
     has_build := has_build;
     docs_only :=
       has_docs
       && negb (any [has_source; has_tests; has_dependencies; has_build]);
     config_only :=
       has_config
       && negb (any [has_source; has_tests; has_dependencies; has_docs]);
     tests_only := has_tests && negb (any [has_source; has_dependencies]);
     ci_only :=
       has_ci
       && negb (any [has_source; has_tests; has_dependencies; has_docs]) |}.

(** The dictionary returned by [_calculate_skip_recommendations]. *)
Record SkipRecommendations := {
  rec_tests : bool;
  rec_security : bool;
  rec_docs : bool;
  rec_lint : bool;
  rec_reasoning : dict string
}.

Definition _calculate_skip_recommendations (self : t)
    (analysis : ChangeAnalysis) : SkipRecommendations :=
  let skip_tests :=
    negb (has_source analysis) && negb (has_tests analysis)
    && negb (has_dependencies analysis) && enable_test_optimization self in
  let skip_security :=
    (docs_only analysis
     || (has_config analysis && negb (has_dependencies analysis)
         && negb (has_source analysis)))
    && enable_job_skipping self in
  let skip_docs := negb (has_docs analysis) && enable_job_skipping self in
  let skip_lint := docs_only analysis && enable_job_skipping self in
  {| rec_tests := skip_tests;
     rec_security := skip_security;
     rec_docs := skip_docs;
     rec_lint := skip_lint;
     rec_reasoning :=
       [ ("tests", if skip_tests
                   then "No source, test, or dependency changes"
                   else "Source/test/dependency changes detected");
         ("security", if skip_security
                      then "Only docs/config changes (no dependencies)"
                      else "Source/dependency changes require security scan");
         ("docs", if skip_docs then "No documentation changes"
                  else "Documentation changes detected");
         ("lint", if skip_lint then "Only documentation changes"
                  else "Source/config changes require linting") ] |}.

(** [int((skipped_jobs / total_jobs) * 100)].  The quotient is a multiple
    of one quarter, which a binary float holds exactly, so the float
    arithmetic of the source is the rational arithmetic written here. *)
Definition _calculate_optimization_score (recs : SkipRecommendations) : Z :=
  let total_jobs := 4%Z in
  let skipped_jobs :=
    sum_bools [rec_tests recs; rec_security recs; rec_docs recs;
               rec_lint recs] in
  int_of_Q ((inject_Z skipped_jobs / inject_Z total_jobs) * inject_Z 100)%Q.

Definition _calculate_time_savings (recs : SkipRecommendations) : Z :=
  let time_savings := 0%Z in
  let time_savings :=
    if rec_tests recs then (time_savings + estimate "tests")%Z
    else time_savings in
  let time_savings :=
    if rec_security recs then (time_savings + estimate "security")%Z
    else time_savings in
  let time_savings :=
    if rec_docs recs then (time_savings + estimate "docs")%Z
    else time_savings in
  let time_savings :=
    if rec_lint recs then (time_savings + estimate "lint")%Z
    else time_savings in
  time_savings.

(** The dictionary returned by [calculate_optimization]. *)
Record OptimizationResult := {
  skip_tests : bool;
  skip_security : bool;
  skip_docs : bool;
  skip_lint : bool;
  optimization_score : Z;
  time_savings : Z;
  change_analysis : option ChangeAnalysis;
  affected_tests : list string;
  reasoning : dict string
}.

Definition _empty_optimization_result : OptimizationResult :=
  {| skip_tests := false;
     skip_security := false;
     skip_docs := false;
     skip_lint := false;
     optimization_score := 0;
     time_savings := 0;
     change_analysis := None;
     affected_tests := [];
     reasoning := [("message", "No changes detected")] |}.

(** [sum(len(files) for files in classifications.values())] *)
Definition total_files (classifications : dict (list string)) : nat :=
  fold_left (fun acc files => (acc + List.length files)%nat)
            (dict_values classifications) O.

Definition calculate_optimization (self : t)
    (classifications : dict (list string)) (affected : list string)
  : OptimizationResult :=
  if (total_files classifications =? 0)%nat then _empty_optimization_result
  else
    let change_analysis := _analyze_change_patterns classifications in
    let skip_recommendations :=
      _calculate_skip_recommendations self change_analysis in
    let optimization_score :=
      _calculate_optimization_score skip_recommendations in
    let time_savings := _calculate_time_savings skip_recommendations in
    {| skip_tests := rec_tests skip_recommendations;
       skip_security := rec_security skip_recommendations;
       skip_docs := rec_docs skip_recommendations;
       skip_lint := rec_lint skip_recommendations;
       optimization_score := optimization_score;
       time_savings := time_savings;
       change_analysis := Some change_analysis;
       affected_tests := affected;
       reasoning := rec_reasoning skip_recommendations |}.

End OptimizationEngine.

Module DependencyAnalyzer.
Import Py.

Record DependencyNode := {
  module_path : string;
  imports : gset string;
  imported_by : gset string;
  test_files : gset string;
  is_test : bool
}.

(** [self.dependency_graph].  Python iterates a dict in insertion order
    and a set in hash order; here both are walked in the order
    [map_to_list] and [elements] give, and every value computed from such
    a walk below is a set. *)
Abbreviation graph := (gmap string DependencyNode).

(** [other_node.imported_by.add(file_path)] on the node stored at
    [other_file]. *)
Definition add_imported_by (other_file file_path : string) (g : graph)
  : graph :=
  alter (fun n => {| module_path := module_path n;
                     imports := imports n;
                     imported_by := {[file_path]} ∪ imported_by n;
                     test_files := test_files n;
                     is_test := is_test n |}) other_file g.

Definition _import_matches_file (import_name file_path : string) : bool :=
  let module_name := replace (replace file_path "/" ".") ".py" "" in
  let module_name :=
    if endswith module_name ".__init__" then drop_end 9 module_name
    else module_name in
  String.eqb import_name module_name
  || startswith import_name (module_name ++ ".").

(** The three nested loops of [_build_reverse_dependencies].  Only
    [imported_by] fields change while the loops run, so the keys and the
    [imports] walked are those of the graph at entry. *)
Definition _build_reverse_dependencies (g : graph) : graph :=
  foldl (fun acc '(file_path, node) =>
    foldl (fun acc imported_module =>
      foldl (fun acc other_file =>
               if _import_matches_file imported_module other_file
               then add_imported_by other_file file_path acc
               else acc)
            acc (map_to_list g).*1)
      acc (elements (imports node)))
    g (map_to_list g).

Definition _is_test_file (file_path : string) : bool :=
  let file_name := path_name file_path in
  startswith file_name "test_"
  || endswith file_name "_test.py"
  || endswith file_name "_tests.py"
  || String.eqb file_name "conftest.py"
  || contains "tests/" file_path
  || contains "/test/" file_path.

Definition _test_matches_module (test_file module_file : string) : bool :=
  let test_name := path_stem test_file in
  let module_name := path_stem module_file in
  let test_name :=
    if startswith test_name "test_" then drop_str 5 test_name
    else if endswith test_name "_test" then drop_end 5 test_name
    else if endswith test_name "_tests" then drop_end 6 test_name
    else test_name in
  String.eqb test_name module_name.

(** [module_node.test_files.add(test_file)] on the node stored at
    [module_file]. *)
Definition add_test_file (module_file test_file : string) (g : graph)
  : graph :=
  alter (fun n => {| module_path := module_path n;
                     imports := imports n;
                     imported_by := imported_by n;
                     test_files := {[test_file]} ∪ test_files n;
                     is_test := is_test n |}) module_file g.

(** The two nested loops of [_associate_test_files]; only [test_files]
    fields change while they run. *)
Definition _associate_test_files (g : graph) : graph :=
  foldl (fun acc '(test_file, test_node) =>
    if negb (is_test test_node) then acc
    else
      foldl (fun acc '(module_file, module_node) =>
               if is_test module_node then acc
               else if bool_decide (module_file ∈ imports test_node)
                       || _test_matches_module test_file module_file
               then add_test_file module_file test_file acc
               else acc)
            acc (map_to_list g))
    g (map_to_list g).

(** [build_dependency_graph].  [analyze_file] is
    [_analyze_file_dependencies] read off the project tree: the local
    imports of a file, or [None] for a path that is not a file there.
    [self_graph] is [self.dependency_graph] at entry, empty for a new
    analyzer.  Nodes are stored as the workers complete; the order does
    not show in the map. *)
Definition build_dependency_graph (analyze_file : string → option (gset string))
    (self_graph : graph) (source_files : list string) : graph :=
  let nodes :=
    foldl (fun acc file =>
             if endswith file ".py" then
               match analyze_file file with
               | Some imports =>
                   <[file := {| module_path := file;
                                imports := imports;
                                imported_by := ∅;
                                test_files := ∅;
                                is_test := _is_test_file file |}]> acc
               | None => acc
               end
             else acc)
          self_graph source_files in
  _associate_test_files (_build_reverse_dependencies nodes).

(** State of the traversal in [get_affected_modules]. *)
Record Traversal := {
  affected : gset string;
  queue : list string;
  visited : gset string
}.

(** The [for dependent in ...imported_by] loop. *)
Definition add_dependents (dependents : list string)
    (affected : gset string) (queue : list string)
  : gset string * list string :=
  foldl (fun '(affected, queue) dependent =>
           if decide (dependent ∈ affected) then (affected, queue)
           else ({[dependent]} ∪ affected, queue ++ [dependent]))
        (affected, queue) dependents.

(** The [while queue] loop; each unit of [fuel] pays for one test of the
    loop condition, and [None] means the fuel ran out. *)
Fixpoint traverse (fuel : nat) (g : graph) (st : Traversal)
  : option (gset string) :=
  match fuel with
  | O => None
  | S fuel' =>
      match queue st with
      | [] => Some (affected st)
      | current :: rest =>
          if decide (current ∈ visited st)
          then traverse fuel' g {| affected := affected st;
                                   queue := rest;
                                   visited := visited st |}
          else
            let visited' := {[current]} ∪ visited st in
            match g !! current with
            | Some node =>
                let '(affected', queue') :=
                  add_dependents (elements (imported_by node))
                                 (affected st) rest in
                traverse fuel' g {| affected := affected';
                                    queue := queue';
                                    visited := visited' |}
            | None =>
                traverse fuel' g {| affected := affected st;
                                    queue := rest;
                                    visited := visited' |}
            end
      end
  end.

(** The first loop: the changed files that are nodes of the graph. *)
Definition direct_changes (g : graph) (changed_files : list string)
  : gset string :=
  foldl (fun affected file =>
           if decide (is_Some (g !! file)) then {[file]} ∪ affected
           else affected)
        ∅ changed_files.

Definition get_affected_modules (fuel : nat) (g : graph)
    (changed_files : list string) : option (gset string) :=
  let affected := direct_changes g changed_files in
  traverse fuel g {| affected := affected;
                     queue := elements affected;
                     visited := ∅ |}.

(** Every path the traversal can ever put in [affected]: the nodes and
    the members of their [imported_by] sets. *)
Definition graph_universe (g : graph) : gset string :=
  dom g ∪ ⋃ ((imported_by ∘ snd) <$> map_to_list g).

End DependencyAnalyzer.

(* ===================================================================== *)
(** * quality_gates.py                                                    *)
(* ===================================================================== *)

(** The dataclass [QualityResult].  The fields [dependencies],
    [detected_patterns], [config] and [execution_time] carry no decision of
    [execute_tier] and are left out. *)
Module QualityResult.
Record t := {
  success : bool;
  tier : string;
  executed_checks : list string;
  failed_checks : list string;
  successful_checks : list string;
  failure_reason : option string;
  error_details : option string;
  failed_fast : bool;
  timeout_seconds : option Z;
  partial_success : bool;
  environment : option string;
  compatibility_check : bool
}.

(** The dataclass defaults. *)
Definition default : t :=
  {| success := false; tier := ""; executed_checks := [];
     failed_checks := []; successful_checks := []; failure_reason := None;
     error_details := None; failed_fast := false; timeout_seconds := None;
     partial_success := false; environment := None;
     compatibility_check := false |}.

(** Attribute assignments [result.f = v]. *)
Definition set_success (v : bool) (r : t) : t :=
  {| success := v; tier := tier r; executed_checks := executed_checks r;
     failed_checks := failed_checks r;
     successful_checks := successful_checks r;
     failure_reason := failure_reason r; error_details := error_details r;
     failed_fast := failed_fast r; timeout_seconds := timeout_seconds r;
     partial_success := partial_success r; environment := environment r;
     compatibility_check := compatibility_check r |}.
Definition set_executed_checks (v : list string) (r : t) : t :=
  {| success := success r; tier := tier r; executed_checks := v;
     failed_checks := failed_checks r;
     successful_checks := successful_checks r;
     failure_reason := failure_reason r; error_details := error_details r;
     failed_fast := failed_fast r; timeout_seconds := timeout_seconds r;
     partial_success := partial_success r; environment := environment r;
     compatibility_check := compatibility_check r |}.
Definition set_failed_checks (v : list string) (r : t) : t :=
  {| success := success r; tier := tier r;
     executed_checks := executed_checks r; failed_checks := v;
     successful_checks := successful_checks r;
     failure_reason := failure_reason r; error_details := error_details r;
     failed_fast := failed_fast r; timeout_seconds := timeout_seconds r;
     partial_success := partial_success r; environment := environment r;
     compatibility_check := compatibility_check r |}.
Definition set_successful_checks (v : list string) (r : t) : t :=
  {| success := success r; tier := tier r;
     executed_checks := executed_checks r;
     failed_checks := failed_checks r; successful_checks := v;
     failure_reason := failure_reason r; error_details := error_details r;
     failed_fast := failed_fast r; timeout_seconds := timeout_seconds r;
     partial_success := partial_success r; environment := environment r;
     compatibility_check := compatibility_check r |}.
Definition set_failure_reason (v : option string) (r : t) : t :=
  {| success := success r; tier := tier r;
     executed_checks := executed_checks r;
     failed_checks := failed_checks r;
     successful_checks := successful_checks r; failure_reason := v;
     error_details := error_details r; failed_fast := failed_fast r;
     timeout_seconds := timeout_seconds r;
     partial_success := partial_success r; environment := environment r;
     compatibility_check := compatibility_check r |}.
Definition set_error_details (v : option string) (r : t) : t :=
  {| success := success r; tier := tier r;
     executed_checks := executed_checks r;
     failed_checks := failed_checks r;
     successful_checks := successful_checks r;
     failure_reason := failure_reason r; error_details := v;
     failed_fast := failed_fast r; timeout_seconds := timeout_seconds r;
     partial_success := partial_success r; environment := environment r;
     compatibility_check := compatibility_check r |}.
Definition set_failed_fast (v : bool) (r : t) : t :=
  {| success := success r; tier := tier r;
     executed_checks := executed_checks r;
     failed_checks := failed_checks r;
     successful_checks := successful_checks r;
     failure_reason := failure_reason r; error_details := error_details r;
     failed_fast := v; timeout_seconds := timeout_seconds r;
     partial_success := partial_success r; environment := environment r;
     compatibility_check := compatibility_check r |}.
Definition set_timeout_seconds (v : option Z) (r : t) : t :=
  {| success := success r; tier := tier r;
     executed_checks := executed_checks r;
     failed_checks := failed_checks r;
     successful_checks := successful_checks r;
     failure_reason := failure_reason r; error_details := error_details r;
     failed_fast := failed_fast r; timeout_seconds := v;
     partial_success := partial_success r; environment := environment r;
     compatibility_check := compatibility_check r |}.
Definition set_partial_success (v : bool) (r : t) : t :=
  {| success := success r; tier := tier r;
     executed_checks := executed_checks r;
     failed_checks := failed_checks r;
     successful_checks := successful_checks r;
     failure_reason := failure_reason r; error_details := error_details r;
     failed_fast := failed_fast r; timeout_seconds := timeout_seconds r;
     partial_success := v; environment := environment r;
     compatibility_check := compatibility_check r |}.
End QualityResult.

(** The dataclass [PackageManager]. *)
Module PackageManager.
Record t := {
  name : string;
  quality_command : string;
  test_command : string;
  environment_support : bool;
  detected_files : list string
}.
End PackageManager.

(** The dictionary [_execute_command] returns.  [timeout] is the truth of
    [d.get("timeout")] and [error] the value of the optional key
    ["error"]. *)
Module CommandResult.
Record t := {
  success : bool;
  stdout : string;
  stderr : string;
  returncode : Z;
  timeout : bool;
  error : option string
}.
End CommandResult.

Module QualityGatesAction.
Import Py.

(** Exceptions as the handlers of [execute_tier] tell them apart:
    [subprocess.TimeoutExpired], or any other [Exception] with its
    [str(e)]. *)
Inductive exn :=
| TimeoutExpired
| Error (msg : string).

Inductive outcome (A : Type) :=
| Returned (a : A)
| Raised (e : exn).
Arguments Returned {A} a.
Arguments Raised {A} e.

(** What the child process of one command does under its deadline. *)
Inductive process_outcome :=
| Exited (returncode : Z) (stdout stderr : string)
| TimedOut
| SpawnFailed (msg : string).

(** Everything outside the program that [execute_tier] observes:
    the text of [pyproject.toml] ([None] when the file is missing or
    cannot be read), the behaviour of each command, the order in which
    the worker pool completes submitted commands (smaller rank first),
    whether creating the pool or writing the reports raises, and
    whether the set-up of the result object raises.  The set-up is what
    [execute_tier] does before its [try] statement and before the dry-run
    return: [_detect_project_patterns] and [detect_package_manager].  The
    first reads the parsed [pyproject.toml] without a guard, so that a
    file such as [tool = 1] makes the test ["pixi" in config["tool"]]
    raise a [TypeError]; both probe the project directory. *)
Record World := {
  pyproject_toml : option string;
  run : string → process_outcome;
  completion_rank : string → nat;
  pool_fault : option exn;
  reports_fault : option exn;
  setup_fault : option exn
}.

Definition detect_package_manager (w : World) : PackageManager.t :=
  let pip :=
    {| PackageManager.name := "pip";
       PackageManager.quality_command :=
         "python -m pytest && python -m ruff check";
       PackageManager.test_command := "python -m pytest";
       PackageManager.environment_support := false;
       PackageManager.detected_files := [] |} in
  match pyproject_toml w with
  | Some content =>
      if contains "[tool.pixi" content then
        {| PackageManager.name := "pixi";
           PackageManager.quality_command := "pixi run -e quality";
           PackageManager.test_command := "pixi run test";
           PackageManager.environment_support := true;
           PackageManager.detected_files := ["pyproject.toml"] |}
      else if contains "[tool.poetry]" content then
        {| PackageManager.name := "poetry";
           PackageManager.quality_command :=
             "poetry run pytest && poetry run ruff check";
           PackageManager.test_command := "poetry run pytest";
           PackageManager.environment_support := true;
           PackageManager.detected_files :=
             ["pyproject.toml"; "poetry.lock"] |}
      else if contains "[tool.hatch" content then
        {| PackageManager.name := "hatch";
           PackageManager.quality_command := "hatch run quality:test";
           PackageManager.test_command := "hatch run test";
           PackageManager.environment_support := true;
           PackageManager.detected_files := ["pyproject.toml"] |}
      else pip
  | None => pip
  end.

Definition base_commands : dict (list string) :=
  [ ("essential", ["test"; "lint"; "typecheck"]);
    ("extended", ["test"; "lint"; "typecheck"; "security-scan"]);
    ("full", ["test"; "lint"; "typecheck"; "security-scan"; "check-all"]) ].

(** [base_commands.get(tier, base_commands["essential"])] *)
Definition tier_checks (tier : string) : list string :=
  match dict_get base_commands tier with
  | Some commands => commands
  | None => ["test"; "lint"; "typecheck"]
  end.

Definition _get_tier_commands (tier : string) (manager : PackageManager.t)
  : list string :=
  let commands := tier_checks tier in
  if String.eqb (PackageManager.name manager) "pixi"
  then List.map (fun cmd => "pixi run " +:+ cmd) commands
  else if String.eqb (PackageManager.name manager) "poetry"
  then List.map (fun cmd => "poetry run " +:+ cmd) commands
  else if String.eqb (PackageManager.name manager) "hatch"
  then List.map (fun cmd => "hatch run " +:+ cmd) commands
  else List.map (fun cmd => "python -m " +:+ cmd) commands.

(** [_execute_command].  [log] is the list of commands handed to the
    process primitive so far, oldest first. *)
Definition _execute_command (w : World) (cmd : string) (timeout : Z)
    (log : list string) : CommandResult.t * list string :=
  (match run w cmd with
   | Exited rc out err =>
       {| CommandResult.success := (rc =? 0)%Z;
          CommandResult.stdout := out;
          CommandResult.stderr := err;
          CommandResult.returncode := rc;
          CommandResult.timeout := false;
          CommandResult.error := None |}
   | TimedOut =>
       {| CommandResult.success := false;
          CommandResult.stdout := "";
          CommandResult.stderr :=
            "Command timed out after " +:+ pretty timeout +:+ " seconds";
          CommandResult.returncode := (-1)%Z;
          CommandResult.timeout := true;
          CommandResult.error := None |}
   | SpawnFailed msg =>
       {| CommandResult.success := false;
          CommandResult.stdout := "";
          CommandResult.stderr := msg;
          CommandResult.returncode := (-1)%Z;
          CommandResult.timeout := false;
          CommandResult.error := Some msg |}
   end, log ++ [cmd]).

(** [cmd.split()[-1]]; [None] is the [IndexError] of a blank command. *)
Definition last_word (cmd : string) : option string := last_item (split cmd).

(** [cmd.split()[-1] if " " in cmd else cmd] *)
Definition command_name (cmd : string) : option string :=
  if contains " " cmd then last_word cmd else Some cmd.

(** ["F821" in stderr or "E9" in stderr] *)
Definition critical_violation (stderr : string) : bool :=
  contains "F821" stderr || contains "E9" stderr.

(** [as_completed]: the submitted commands in completion order. *)
Definition completes_before (w : World) (a b : string) : Prop :=
  (completion_rank w a ≤ completion_rank w b)%nat.
#[global] Instance completes_before_dec (w : World)
  : RelDecision (completes_before w) :=
  fun a b => decide (completion_rank w a ≤ completion_rank w b)%nat.
Definition as_completed (w : World) (commands : list string) : list string :=
  merge_sort (completes_before w) commands.

(** The collecting loop of [_execute_commands_parallel].  The [except]
    branch around [future.result()] is never entered, because
    [_execute_command] turns every exception into a result. *)
Fixpoint collect_completed (w : World) (completed : list string)
    (timeout : Z) (results : dict CommandResult.t)
  : outcome (dict CommandResult.t) :=
  match completed with
  | [] => Returned results
  | cmd :: rest =>
      let result := fst (_execute_command w cmd timeout []) in
      match command_name cmd with
      | None => Raised (Error "list index out of range")
      | Some cmd_name =>
          collect_completed w rest timeout (dict_set results cmd_name result)
      end
  end.

(** [_execute_commands_parallel]; every submitted command is run, and
    the log records them in submission order. *)
Definition _execute_commands_parallel (w : World) (commands : list string)
    (timeout : Z) (log : list string)
  : outcome (dict CommandResult.t) * list string :=
  match pool_fault w with
  | Some e => (Raised e, log)
  | None =>
      (collect_completed w (as_completed w commands) timeout [],
       log ++ commands)
  end.

(** The loop of [_execute_commands_sequential], from the dictionary
    [results] built so far. *)
Fixpoint sequential_loop (w : World) (commands : list string) (timeout : Z)
    (fail_fast : bool) (results : dict CommandResult.t) (log : list string)
  : outcome (dict CommandResult.t) * list string :=
  match commands with
  | [] => (Returned results, log)
  | cmd :: rest =>
      match command_name cmd with
      | None => (Raised (Error "list index out of range"), log)
      | Some cmd_name =>
          let '(result, log) := _execute_command w cmd timeout log in
          let results := dict_set results cmd_name result in
          if negb (CommandResult.success result) && fail_fast
             && critical_violation (CommandResult.stderr result)
          then (Returned results, log)
          else sequential_loop w rest timeout fail_fast results log
      end
  end.

Definition _execute_commands_sequential (w : World) (commands : list string)
    (timeout : Z) (fail_fast : bool) (log : list string)
  : outcome (dict CommandResult.t) * list string :=
  sequential_loop w commands timeout fail_fast [] log.

(** The [if parallel: ... else: ...] of [execute_tier]; the sequential
    branch leaves [fail_fast] at its default [True]. *)
Definition execute_commands (w : World) (parallel : bool)
    (commands : list string) (timeout : Z)
  : outcome (dict CommandResult.t) * list string :=
  if parallel then _execute_commands_parallel w commands timeout []
  else _execute_commands_sequential w commands timeout true [].

(** Variables live across the result-analysis loop. *)
Record Analysis := {
  result : QualityResult.t;
  failed : list string;
  successful : list string;
  failed_command_details : list string
}.

(** The [for cmd_name, cmd_result in command_results.items()] loop. *)
Fixpoint analyze (items : dict CommandResult.t) (a : Analysis) : Analysis :=
  match items with
  | [] => a
  | (cmd_name, cmd_result) :: rest =>
      if CommandResult.success cmd_result then
        analyze rest
          {| result := result a;
             failed := failed a;
             successful := successful a ++ [cmd_name];
             failed_command_details := failed_command_details a |}
      else
        let failed' := failed a ++ [cmd_name] in
        let details' :=
          failed_command_details a
          ++ [cmd_name +:+ ": " +:+ CommandResult.stderr cmd_result] in
        if critical_violation (CommandResult.stderr cmd_result) then
          {| result :=
               QualityResult.set_failed_fast true
                 (QualityResult.set_error_details
                    (Some (CommandResult.stderr cmd_result))
                    (QualityResult.set_failure_reason
                       (Some "critical_lint_violations") (result a)));
             failed := failed';
             successful := successful a;
             failed_command_details := details' |}
        else if CommandResult.timeout cmd_result then
          {| result :=
               QualityResult.set_error_details
                 (Some ("Command " +:+ cmd_name +:+ " timed out"))
                 (QualityResult.set_failure_reason (Some "timeout")
                    (result a));
             failed := failed';
             successful := successful a;
             failed_command_details := details' |}
        else
          analyze rest
            {| result := result a;
               failed := failed';
               successful := successful a;
               failed_command_details := details' |}
  end.

(** Truth value of an optional string: [None] and [""] are false. *)
Definition truthy (s : option string) : bool :=
  match s with
  | Some s => negb (String.eqb s "")
  | None => false
  end.

(** [len(xs) > 0] *)
Definition nonempty {A} (xs : list A) : bool :=
  match xs with [] => false | _ => true end.

(** The body of the [try] statement.  It returns the [result] object as
    it stands when the body is left, the exception that left it (if
    any), and the log. *)
Definition try_body (w : World) (tier : string) (parallel : bool)
    (commands : list string) (timeout : Z) (result0 : QualityResult.t)
  : QualityResult.t * option exn * list string :=
  match execute_commands w parallel commands timeout with
  | (Raised e, log) => (result0, Some e, log)
  | (Returned command_results, log) =>
      let a :=
        analyze command_results
          {| result := result0; failed := []; successful := [];
             failed_command_details := [] |} in
      let failed_checks := failed a in
      let successful_checks := successful a in
      let r := result a in
      let r :=
        if nonempty failed_checks
           && negb (truthy (QualityResult.error_details r))
        then QualityResult.set_error_details
               (Some (String.concat "; " (failed_command_details a))) r
        else r in
      let r := QualityResult.set_failed_checks failed_checks r in
      let r := QualityResult.set_successful_checks successful_checks r in
      let r := QualityResult.set_success (negb (nonempty failed_checks)) r in
      let r :=
        QualityResult.set_partial_success
          (nonempty successful_checks && nonempty failed_checks) r in
      if String.eqb tier "full" && QualityResult.success r then
        match reports_fault w with
        | Some e => (r, Some e, log)
        | None => (r, None, log)
        end
      else (r, None, log)
  end.

(** The [if timeout is None] statement. *)
Definition effective_timeout (timeouts : dict Z) (timeout : option Z) : Z :=
  match timeout with
  | Some t => t
  | None => default 120%Z (dict_get timeouts "test")
  end.

(** [self.config.timeouts] after the overrides are applied. *)
Definition apply_overrides (self_timeouts : dict Z)
    (timeouts_override : option (dict Z)) : dict Z :=
  match timeouts_override with
  | Some o => dict_update self_timeouts o
  | None => self_timeouts
  end.

(** [[cmd.split()[-1] for cmd in commands]] *)
Definition check_names (commands : list string) : option (list string) :=
  mapM last_word commands.

(** [execute_tier].  [self_timeouts] is [self.config.timeouts] at entry
    and [timeouts_override] the ["timeouts"] entry of a non-empty
    [config_overrides], if there is one.  The second component is the
    log of commands run.  The result object is created with
    [detected_patterns=self._detect_project_patterns(project_dir)] and
    the package manager is detected before the [try] statement and
    before the dry-run return, so an exception of these calls leaves
    [execute_tier]. *)
Definition execute_tier (self_timeouts : dict Z) (w : World) (tier : string)
    (timeout : option Z) (parallel : bool)
    (timeouts_override : option (dict Z)) (dry_run : bool)
  : outcome QualityResult.t * list string :=
  let timeouts := apply_overrides self_timeouts timeouts_override in
  match setup_fault w with
  | Some e => (Raised e, [])
  | None =>
  let manager := detect_package_manager w in
  let result :=
    {| QualityResult.success := false;
       QualityResult.tier := tier;
       QualityResult.executed_checks := [];
       QualityResult.failed_checks := [];
       QualityResult.successful_checks := [];
       QualityResult.failure_reason := None;
       QualityResult.error_details := None;
       QualityResult.failed_fast := false;
       QualityResult.timeout_seconds := None;
       QualityResult.partial_success := false;
       QualityResult.environment :=
         Some (PackageManager.name manager +:+ "-" +:+ tier);
       QualityResult.compatibility_check := true |} in
  if dry_run then (Returned (QualityResult.set_success true result), [])
  else
    let commands := _get_tier_commands tier manager in
    match check_names commands with
    | None => (Raised (Error "list index out of range"), [])
    | Some names =>
        let result := QualityResult.set_executed_checks names result in
        let timeout := effective_timeout timeouts timeout in
        let result :=
          QualityResult.set_timeout_seconds (Some timeout) result in
        match try_body w tier parallel commands timeout result with
        | (r, None, log) => (Returned r, log)
        | (r, Some TimeoutExpired, log) =>
            (Returned
               (QualityResult.set_error_details
                  (Some ("Overall execution timed out after "
                         +:+ pretty timeout +:+ " seconds"))
                  (QualityResult.set_failure_reason (Some "timeout")
                     (QualityResult.set_success false r))), log)
        | (r, Some (Error msg), log) =>
            (Returned
               (QualityResult.set_error_details (Some msg)
                  (QualityResult.set_failure_reason (Some "execution_error")
                     (QualityResult.set_success false r))), log)
        end
    end
  end.

(** The default of [QualityConfig.timeouts]. *)
Definition default_timeouts : dict Z :=
  [ ("test", 120%Z); ("lint", 60%Z); ("typecheck", 90%Z);
    ("security", 180%Z) ].

End QualityGatesAction.


(** [DependencyAnalyzer.get_affected_tests], the caller of
    [get_affected_modules]. *)
Module ImpactAnalysis.
Import Py DependencyAnalyzer.

(** The first loop: the changed files that are test files by name. *)
Definition changed_tests (changed_files : list string) : gset string :=
  foldl (fun affected_tests file =>
           if _is_test_file file then {[file]} ∪ affected_tests
           else affected_tests)
        ∅ changed_files.

(** The second loop: the [test_files] of every affected module that is a
    node. *)
Definition add_module_tests (g : graph) (affected_modules : gset string)
    (affected_tests : gset string) : gset string :=
  foldl (fun affected_tests module =>
           match g !! module with
           | Some node => affected_tests ∪ test_files node
           | None => affected_tests
           end)
        affected_tests (elements affected_modules).

(** The third loop: the test nodes whose [imports] set meets the affected
    modules. *)
Definition add_importing_tests (g : graph) (affected_modules : gset string)
    (affected_tests : gset string) : gset string :=
  foldl (fun affected_tests '(test_file, node) =>
           if is_test node
              && bool_decide (imports node ∩ affected_modules ≠ ∅)
           then {[test_file]} ∪ affected_tests
           else affected_tests)
        affected_tests (map_to_list g).

(** [get_affected_tests]; the fuel is that of [get_affected_modules]. *)
Definition get_affected_tests (fuel : nat) (g : graph)
    (changed_files : list string) : option (gset string) :=
  let affected_tests := changed_tests changed_files in
  match get_affected_modules fuel g changed_files with
  | None => None
  | Some affected_modules =>
      let affected_tests :=
        add_module_tests g affected_modules affected_tests in
      Some (add_importing_tests g affected_modules affected_tests)
  end.

End ImpactAnalysis.

(* ===================================================================== *)
(** * change_detection.py: MonorepoHandler                                *)
(* ===================================================================== *)

Module MonorepoHandler.
Import Py.

(** The value stored under ["dependencies"]: the names joined with
    [", "] for a package found by [_analyze_package], the list itself for
    an npm workspace. *)
Inductive dependencies :=
| Joined (names : string)
| Listed (names : list string).

(** An entry of [self.packages].  Every entry [detect_packages] makes
    has a ["path"]; ["dependencies"] is read with a default. *)
Record package_info := {
  path : string;
  deps : option dependencies
}.

(** [package_name in package_info.get("dependencies", [])]: a substring
    test on a joined string, membership in a list. *)
Definition mentions (package_name : string) (d : option dependencies) : bool :=
  match d with
  | Some (Joined names) => contains package_name names
  | Some (Listed names) => bool_decide (package_name ∈ names)
  | None => false
  end.

Fixpoint _get_file_package (packages : dict package_info) (file_path : string)
  : option string :=
  match packages with
  | [] => None
  | (package_name, package_info) :: rest =>
      if startswith file_path (path package_info +:+ "/")
      then Some package_name
      else _get_file_package rest file_path
  end.

Definition _get_dependent_packages (packages : dict package_info)
    (package_name : string) : gset string :=
  match dict_get packages package_name with
  | None => ∅
  | Some _ =>
      foldl (fun dependents '(other_package, package_info) =>
               if negb (String.eqb other_package package_name)
                  && mentions package_name (deps package_info)
               then {[other_package]} ∪ dependents
               else dependents)
            ∅ packages
  end.

(** [get_affected_packages]; the returned list holds the elements of
    [affected_with_deps] in hash order, here the set itself.  A package
    named [""] fails the test [if package]. *)
Definition get_affected_packages (packages : dict package_info)
    (changed_files : list string) : gset string :=
  let affected_packages :=
    foldl (fun affected_packages file =>
             match _get_file_package packages file with
             | Some package =>
                 if String.eqb package "" then affected_packages
                 else {[package]} ∪ affected_packages
             | None => affected_packages
             end)
          ∅ changed_files in
  foldl (fun affected_with_deps package =>
           affected_with_deps ∪ _get_dependent_packages packages package)
        affected_packages (elements affected_packages).

End MonorepoHandler.

(* ===================================================================== *)
(** * quality_gates.py: cleanup                                           *)
(* ===================================================================== *)

Module Cleanup.

Inductive signal := SIGTERM | SIGKILL.

(** [process.poll()]: [None], a return code, or an exception. *)
Inductive poll_outcome :=
| StillRunning
| HasExited
| PollRaised.

(** The two statements [os.killpg(os.getpgid(process.pid), signal.SIGTERM)]
    and [process.wait(timeout=5)]: both return, the first raises, or the
    signal is delivered and the wait raises. *)
Inductive terminate_outcome :=
| Terminated
| NotDelivered
| WaitExpired.

(** What the operating system does with each registered process, named
    by its [Popen] object; [kill] tells whether the [SIGKILL] of the
    inner [try] is delivered or raises.  [_execute_command] registers a
    process once; were one listed twice, its second visit is taken to go
    as the first. *)
Record Processes := {
  poll : nat → poll_outcome;
  terminate : nat → terminate_outcome;
  kill : nat → bool
}.

(** [xs.remove(x)] for an [x] that is in [xs]: the first occurrence
    goes. *)
Fixpoint remove_first (x : nat) (xs : list nat) : list nat :=
  match xs with
  | [] => []
  | y :: ys => if bool_decide (y = x) then ys else y :: remove_first x ys
  end.

(** The [except] clause: one [SIGKILL], whose failure is ignored. *)
Definition force_kill (os : Processes) (process : nat)
    (signals : list (nat * signal)) : list (nat * signal) :=
  if kill os process then signals ++ [(process, SIGKILL)] else signals.

(** One iteration of the loop; the state is [self._running_processes]
    and the signals delivered so far, oldest first. *)
Definition cleanup_one (os : Processes)
    (st : list nat * list (nat * signal)) (process : nat)
  : list nat * list (nat * signal) :=
  let '(running_processes, signals) := st in
  let signals :=
    match poll os process with
    | HasExited => signals
    | StillRunning =>
        match terminate os process with
        | Terminated => signals ++ [(process, SIGTERM)]
        | NotDelivered => force_kill os process signals
        | WaitExpired =>
            force_kill os process (signals ++ [(process, SIGTERM)])
        end
    | PollRaised => force_kill os process signals
    end in
  (if bool_decide (process ∈ running_processes)
   then remove_first process running_processes
   else running_processes,
   signals).

(** [cleanup]: the loop walks the copy [self._running_processes[:]]
    while its body removes from the list itself. *)
Definition cleanup (os : Processes) (running_processes : list nat)
  : list nat * list (nat * signal) :=
  foldl (cleanup_one os) (running_processes, []) running_processes.

End Cleanup.

(* ===================================================================== *)
(** * change_detection.py: ChangeDetectionAction                          *)
(* ===================================================================== *)

Module ChangeDetectionAction.
Import Py.

(** The exceptions the [try] block of [execute] can see: the
    [KeyError] of [classify_files], or an exception of the package
    detection or of the report writer with its [str(e)]. *)
Inductive exn :=
| KeyError
| Raised (msg : string).

(** [subprocess.run] of [git diff --name-only]: it returns with a return
    code and [result.stdout], or raises. *)
Inductive git_outcome :=
| GitExited (returncode : Z) (stdout : string)
| GitRaised.

(** What [execute] observes of the project: the outcome of [git diff],
    the local imports of each file ([None] for a path that is not a file
    of the project), what [detect_packages] returns or raises, and
    whether writing the reports raises. *)
Record World := {
  git_diff : git_outcome;
  analyze_file : string → option (gset string);
  detect_packages : string + dict MonorepoHandler.package_info;
  reports_fault : option string
}.

(** The instance: the settings given to [__init__] that [execute]
    reads, the patterns [_load_custom_patterns] returned, and the graph
    its analyzer holds at entry (empty for a new instance). *)
Record t := {
  detection_level : string;
  monorepo_mode : bool;
  custom_patterns : option (dict (list string));
  optimization_engine : OptimizationEngine.t;
  reports_dir : string;
  dependency_graph : DependencyAnalyzer.graph
}.

(** The dataclass [ChangeAnalysisResult] without [execution_time];
    [failure] is the exception whose [str(e)] is [failure_reason]. *)
Record ChangeAnalysisResult := {
  success : bool;
  changed_files : list string;
  classifications : dict (list string);
  change_categories : string;
  affected_packages : list string;
  affected_tests : list string;
  dependency_impact : Z;
  skip_tests : bool;
  skip_security : bool;
  skip_docs : bool;
  skip_lint : bool;
  optimization_score : Z;
  time_savings : Z;
  reports_path : string;
  failure : option exn
}.

Definition newline : ascii := "010"%char.

(** [s.split(sep)] for a one-character [sep]. *)
Fixpoint split_on (sep : ascii) (s : string) : list string :=
  match s with
  | EmptyString => [EmptyString]
  | String c s' =>
      if Ascii.eqb c sep then EmptyString :: split_on sep s'
      else match split_on sep s' with
           | [] => [String c EmptyString]
           | piece :: pieces => String c piece :: pieces
           end
  end.

(** [c.isspace()] for the white-space characters above U+007F, on
    their UTF-8 bytes: U+0085 and U+00A0 take two bytes (C2 85, C2 A0);
    U+1680 (E1 9A 80), U+2000 to U+200A (E2 80 80 to E2 80 8A), U+2028,
    U+2029 and U+202F (E2 80 A8, A9, AF), U+205F (E2 81 9F) and U+3000
    (E3 80 80) take three.  There is no other. *)
Definition space2 (c1 c2 : ascii) : bool :=
  let n1 := nat_of_ascii c1 in
  let n2 := nat_of_ascii c2 in
  ((n1 =? 194) && ((n2 =? 133) || (n2 =? 160)))%nat.

Definition space3 (c1 c2 c3 : ascii) : bool :=
  let n1 := nat_of_ascii c1 in
  let n2 := nat_of_ascii c2 in
  let n3 := nat_of_ascii c3 in
  ((n1 =? 225) && (n2 =? 154) && (n3 =? 128)
   || (n1 =? 226) && (n2 =? 128)
      && ((128 <=? n3) && (n3 <=? 138)
          || (n3 =? 168) || (n3 =? 169) || (n3 =? 175))
   || (n1 =? 226) && (n2 =? 129) && (n3 =? 159)
   || (n1 =? 227) && (n2 =? 128) && (n3 =? 128))%nat.

(** The string is one white-space character. *)
Definition is_whitespace (s : string) : bool :=
  match s with
  | String c1 EmptyString => is_space c1
  | String c1 (String c2 EmptyString) => space2 c1 c2
  | String c1 (String c2 (String c3 EmptyString)) => space3 c1 c2 c3
  | _ => false
  end.

(** [s.lstrip()]: the leading white-space characters go. *)
Fixpoint lstrip (s : string) : string :=
  match s with
  | EmptyString => EmptyString
  | String c1 s1 =>
      if is_space c1 then lstrip s1
      else
        match s1 with
        | EmptyString => s
        | String c2 s2 =>
            if space2 c1 c2 then lstrip s2
            else
              match s2 with
              | EmptyString => s
              | String c3 s3 => if space3 c1 c2 c3 then lstrip s3 else s
              end
        end
  end.

(** [s.rstrip()]: the trailing white-space characters go.  What is
    left of the tail never ends in a white-space character, so with one
    more character in front the string ends in one only if the whole of
    it is one. *)
Fixpoint rstrip (s : string) : string :=
  match s with
  | EmptyString => EmptyString
  | String c s' =>
      let r := rstrip s' in
      if is_whitespace (String c r) then EmptyString else String c r
  end.

(** [s.strip()] *)
Definition strip (s : string) : string := rstrip (lstrip s).

(** [_get_changed_files] *)
Definition _get_changed_files (w : World) : list string :=
  match git_diff w with
  | GitExited returncode stdout =>
      if negb (returncode =? 0)%Z then []
      else
        List.map strip
          (List.filter (fun f => negb (String.eqb (strip f) ""))
                       (split_on newline stdout))
  | GitRaised => []
  end.

(** The dependency analysis of [execute]: the affected tests and the
    dependency impact.  [None] means a traversal ran out of the fuel
    given to it here, the size of the graph's universe plus one. *)
Definition dependency_analysis (self : t) (w : World)
    (classifications : dict (list string)) (changed_files : list string)
  : option (list string * Z) :=
  if bool_decide (detection_level self ∈ ["standard"; "comprehensive"]) then
    match default [] (dict_get classifications "source") with
    | [] => Some ([], 0%Z)
    | source_files =>
        let g :=
          DependencyAnalyzer.build_dependency_graph (analyze_file w)
            (dependency_graph self) source_files in
        let fuel := S (size (DependencyAnalyzer.graph_universe g)) in
        match ImpactAnalysis.get_affected_tests fuel g changed_files,
              DependencyAnalyzer.get_affected_modules fuel g changed_files with
        | Some affected_tests_set, Some affected_modules =>
            Some (elements affected_tests_set,
                  Z.of_nat (size affected_modules))
        | _, _ => None
        end
    end
  else Some ([], 0%Z).

(** The monorepo analysis of [execute]. *)
Definition monorepo_analysis (self : t) (w : World)
    (changed_files : list string) : list string + exn :=
  if monorepo_mode self then
    match detect_packages w with
    | inl msg => inr (Raised msg)
    | inr packages =>
        inl (elements
               (MonorepoHandler.get_affected_packages packages changed_files))
    end
  else inl [].

(** [",".join([cat for cat, files in classifications.items() if files])] *)
Definition join_categories (classifications : dict (list string)) : string :=
  String.concat ","
    (dict_keys (List.filter (fun item => match snd item with
                                         | [] => false
                                         | _ => true
                                         end)
                            classifications)).

(** The [ChangeAnalysisResult] the [try] block builds from the
    optimization result. *)
Definition create_result (self : t) (changed_files : list string)
    (classifications : dict (list string))
    (affected_packages affected_tests : list string) (dependency_impact : Z)
  : ChangeAnalysisResult :=
  let optimization_result :=
    OptimizationEngine.calculate_optimization
      (optimization_engine self) classifications affected_tests in
  {| success := true;
     changed_files := changed_files;
     classifications := classifications;
     change_categories := join_categories classifications;
     affected_packages := affected_packages;
     affected_tests := affected_tests;
     dependency_impact := dependency_impact;
     skip_tests := OptimizationEngine.skip_tests optimization_result;
     skip_security := OptimizationEngine.skip_security optimization_result;
     skip_docs := OptimizationEngine.skip_docs optimization_result;
     skip_lint := OptimizationEngine.skip_lint optimization_result;
     optimization_score :=
       OptimizationEngine.optimization_score optimization_result;
     time_savings := OptimizationEngine.time_savings optimization_result;
     reports_path := reports_dir self;
     failure := None |}.

(** The [try] block of [execute] after the test [if not changed_files]:
    the result it returns or the exception that leaves it. *)
Definition analyse (self : t) (w : World) (changed_files : list string)
  : option (ChangeAnalysisResult + exn) :=
  match FilePatternMatcher.classify_files
          (FilePatternMatcher.init (custom_patterns self)) changed_files with
  | None => Some (inr KeyError)
  | Some classifications =>
      match dependency_analysis self w classifications changed_files with
      | None => None
      | Some (affected_tests, dependency_impact) =>
          match monorepo_analysis self w changed_files with
          | inr e => Some (inr e)
          | inl affected_packages =>
              let result :=
                create_result self changed_files classifications
                  affected_packages affected_tests dependency_impact in
              match reports_fault w with
              | Some msg => Some (inr (Raised msg))
              | None => Some (inl result)
              end
          end
      end
  end.

(** The result of the [except] clause, and [_create_empty_result]. *)
Definition no_recommendation (self : t) (success : bool) (failure : option exn)
  : ChangeAnalysisResult :=
  {| success := success;
     changed_files := [];
     classifications := [];
     change_categories := "";
     affected_packages := [];
     affected_tests := [];
     dependency_impact := 0;
     skip_tests := false;
     skip_security := false;
     skip_docs := false;
     skip_lint := false;
     optimization_score := 0;
     time_savings := 0;
     reports_path := reports_dir self;
     failure := failure |}.

Definition _create_empty_result (self : t) : ChangeAnalysisResult :=
  no_recommendation self true None.

(** [execute]; [None] only if a traversal ran out of fuel. *)
Definition execute (self : t) (w : World) : option ChangeAnalysisResult :=
  match _get_changed_files w with
  | [] => Some (_create_empty_result self)
  | changed_files =>
      match analyse self w changed_files with
      | None => None
      | Some (inl result) => Some result
      | Some (inr e) => Some (no_recommendation self false (Some e))
      end
  end.

End ChangeDetectionAction.

(* ===================================================================== *)
(** * Vocabulary of the statements                                        *)
(* ===================================================================== *)

Module Vocabulary.
Import Py.

(** The category [classify_files] files a path under: the first category
    with a matching pattern, else the one inferred from the extension. *)
Definition assigned (patterns : dict (list string)) (file : string)
  : option string :=
  match FilePatternMatcher.first_match patterns file with
  | Some category => Some category
  | None => FilePatternMatcher._infer_from_extension file
  end.

(** What the loop of [classify_files] maintains: the categories are
    those of the pattern table, and every file sits under the category
    it is assigned. *)
Definition classified (patterns : dict (list string))
    (cls : dict (list string)) : Prop :=
  dict_keys cls = dict_keys patterns
  ∧ ∀ k xs f, dict_get cls k = Some xs → f ∈ xs → assigned patterns f = Some k.

(** The members of [imported_by] of node [x], if it is one, lie in [S]. *)
Definition closed_at (g : DependencyAnalyzer.graph) (x : string)
    (S : gset string) : Prop :=
  ∀ node, g !! x = Some node → DependencyAnalyzer.imported_by node ⊆ S.

(** What the [while] loop of [get_affected_modules] maintains: an
    affected path is still queued or has had its dependents added, and
    every visited path has had them added. *)
Definition traversal_inv (g : DependencyAnalyzer.graph)
    (st : DependencyAnalyzer.Traversal) : Prop :=
  (∀ x, x ∈ DependencyAnalyzer.affected st →
        x ∈ DependencyAnalyzer.queue st
        ∨ closed_at g x (DependencyAnalyzer.affected st))
  ∧ (∀ x, x ∈ DependencyAnalyzer.visited st →
          closed_at g x (DependencyAnalyzer.affected st)).

(** Loop variant: queued paths, plus paths not yet affected. *)
Definition traversal_measure (g : DependencyAnalyzer.graph)
    (st : DependencyAnalyzer.Traversal) : nat :=
  length (DependencyAnalyzer.queue st)
  + (size (DependencyAnalyzer.graph_universe g)
     - size (DependencyAnalyzer.affected st)).

(** Every [imported_by] member is a node, and the nodes are [D]. *)
Definition reverse_closed (D : gset string) (g : DependencyAnalyzer.graph)
  : Prop :=
  dom g = D
  ∧ ∀ p n, g !! p = Some n → DependencyAnalyzer.imported_by n ⊆ D.

(** [d.get(k, [])] *)
Definition files_of (classifications : dict (list string)) (k : string)
  : list string :=
  default [] (dict_get classifications k).

(** Number of [True] among a list of flags. *)
Definition count_true (bs : list bool) : Z :=
  Z.of_nat (List.length (List.filter (fun b : bool => b) bs)).

(** The import table of the three-file cycle: a imports b, b imports c,
    c imports a. *)
Definition cycle_imports (file : string) : option (gset string) :=
  if String.eqb file "a.py" then Some {["b"]}
  else if String.eqb file "b.py" then Some {["c"]}
  else if String.eqb file "c.py" then Some {["a"]}
  else None.

(** The graph a new analyzer builds for that project. *)
Definition cycle_graph : DependencyAnalyzer.graph :=
  DependencyAnalyzer.build_dependency_graph cycle_imports ∅
    ["a.py"; "b.py"; "c.py"].

(** The result dictionary [_execute_command] gives for [cmd]. *)
Definition result_of (w : QualityGatesAction.World) (timeout : Z)
    (cmd : string) : CommandResult.t :=
  fst (QualityGatesAction._execute_command w cmd timeout []).

(** [cmd] fails and its stderr carries a zero-tolerance signature. *)
Definition fails_critically (r : CommandResult.t) : bool :=
  negb (CommandResult.success r)
  && QualityGatesAction.critical_violation (CommandResult.stderr r).

(** The commands of [commands] up to and including the first one that
    fails critically. *)
Fixpoint executed_prefix (w : QualityGatesAction.World) (timeout : Z)
    (commands : list string) : list string :=
  match commands with
  | [] => []
  | cmd :: rest =>
      if fails_critically (result_of w timeout cmd) then [cmd]
      else cmd :: executed_prefix w timeout rest
  end.

(** The key under which the result of [cmd] is stored. *)
Definition check_of (cmd : string) : string :=
  default cmd (QualityGatesAction.command_name cmd).

(** The entry a run of [cmd] adds to the result dictionary. *)
Definition entry (w : QualityGatesAction.World) (timeout : Z) (cmd : string)
  : string * CommandResult.t :=
  (check_of cmd, result_of w timeout cmd).

(** The commands of a tier as [execute_tier] resolves them. *)
Definition tier_commands (w : QualityGatesAction.World) (tier : string)
  : list string :=
  QualityGatesAction._get_tier_commands tier
    (QualityGatesAction.detect_package_manager w).

(** The per-command timeout [execute_tier] settles on. *)
Definition tier_timeout (self_timeouts : dict Z) (timeout : option Z)
    (timeouts_override : option (dict Z)) : Z :=
  QualityGatesAction.effective_timeout
    (QualityGatesAction.apply_overrides self_timeouts timeouts_override)
    timeout.

(** The [result] object when [execute_tier] enters its [try] block. *)
Definition initial_result (w : QualityGatesAction.World) (tier : string)
    (timeout : Z) : QualityResult.t :=
  {| QualityResult.success := false;
     QualityResult.tier := tier;
     QualityResult.executed_checks := QualityGatesAction.tier_checks tier;
     QualityResult.failed_checks := [];
     QualityResult.successful_checks := [];
     QualityResult.failure_reason := None;
     QualityResult.error_details := None;
     QualityResult.failed_fast := false;
     QualityResult.timeout_seconds := Some timeout;
     QualityResult.partial_success := false;
     QualityResult.environment :=
       Some (PackageManager.name (QualityGatesAction.detect_package_manager w)
             +:+ "-" +:+ tier);
     QualityResult.compatibility_check := true |}.

(** The analysis loop's variables before its first iteration. *)
Definition analysis_start (r : QualityResult.t) : QualityGatesAction.Analysis :=
  {| QualityGatesAction.result := r;
     QualityGatesAction.failed := [];
     QualityGatesAction.successful := [];
     QualityGatesAction.failed_command_details := [] |}.

(** A pip project whose lint command fails with an undefined-name
    error while every other command succeeds. *)
Definition lint_violation_world : QualityGatesAction.World :=
  {| QualityGatesAction.pyproject_toml := None;
     QualityGatesAction.run := fun cmd =>
       if String.eqb cmd "python -m lint"
       then QualityGatesAction.Exited 1 "" "F821 undefined name 'x'"
       else QualityGatesAction.Exited 0 "ok" "";
     QualityGatesAction.completion_rank := fun _ => O;
     QualityGatesAction.pool_fault := None;
     QualityGatesAction.reports_fault := None;
     QualityGatesAction.setup_fault := None |}.

(** A pip project whose test command runs into the deadline while every
    other command succeeds. *)
Definition test_timeout_world : QualityGatesAction.World :=
  {| QualityGatesAction.pyproject_toml := None;
     QualityGatesAction.run := fun cmd =>
       if String.eqb cmd "python -m test" then QualityGatesAction.TimedOut
       else QualityGatesAction.Exited 0 "ok" "";
     QualityGatesAction.completion_rank := fun _ => O;
     QualityGatesAction.pool_fault := None;
     QualityGatesAction.reports_fault := None;
     QualityGatesAction.setup_fault := None |}.



(** A project whose [pyproject.toml] is the valid TOML file [tool = 1]:
    every command would succeed, but [_detect_project_patterns] raises on
    the test ["pixi" in config["tool"]]. *)
Definition malformed_pyproject_world : QualityGatesAction.World :=
  {| QualityGatesAction.pyproject_toml := Some "tool = 1";
     QualityGatesAction.run := fun _ => QualityGatesAction.Exited 0 "ok" "";
     QualityGatesAction.completion_rank := fun _ => O;
     QualityGatesAction.pool_fault := None;
     QualityGatesAction.reports_fault := None;
     QualityGatesAction.setup_fault :=
       Some (QualityGatesAction.Error
               "argument of type 'int' is not iterable") |}.


(** The decimal digits and the minus sign. *)
Definition numeral_chars : list ascii :=
  ["0"; "1"; "2"; "3"; "4"; "5"; "6"; "7"; "8"; "9"; "-"]%char.

End Vocabulary.

(* ===================================================================== *)
(** * Declarative descriptions of what the code computes                  *)
(* ===================================================================== *)

Module Statements.
Import Py.

(** The transitive blast radius of a change: the changed files that are
    nodes of the graph, and every path in the [imported_by] set of an
    impacted node. *)
Inductive impacted (g : DependencyAnalyzer.graph) (changed : list string)
  : string → Prop :=
| impacted_changed file :
    file ∈ changed → is_Some (g !! file) → impacted g changed file
| impacted_dependent x node d :
    impacted g changed x → g !! x = Some node →
    d ∈ DependencyAnalyzer.imported_by node → impacted g changed d.

(** [get_affected_modules] with fuel that always suffices. *)
Definition affected_modules (g : DependencyAnalyzer.graph)
    (changed : list string) : option (gset string) :=
  DependencyAnalyzer.get_affected_modules
    (S (size (DependencyAnalyzer.graph_universe g))) g changed.

(** [x] is in the [imported_by] set of the node stored at [k]. *)
Definition imported_by_at (g : DependencyAnalyzer.graph) (k x : string) : Prop :=
  ∃ n, g !! k = Some n ∧ x ∈ DependencyAnalyzer.imported_by n.

(** [x] is in the [test_files] set of the node stored at [k]. *)
Definition test_file_at (g : DependencyAnalyzer.graph) (k x : string) : Prop :=
  ∃ n, g !! k = Some n ∧ x ∈ DependencyAnalyzer.test_files n.

(** File [x] is a node one of whose imports names the module of [k]. *)
Definition imports_module_of (g : DependencyAnalyzer.graph) (x k : string)
  : Prop :=
  ∃ nx imp,
    g !! x = Some nx ∧ imp ∈ DependencyAnalyzer.imports nx
    ∧ DependencyAnalyzer._import_matches_file imp k = true.

(** Two graphs have the same nodes with the same [imports] and [is_test]. *)
Definition same_nodes (g g' : DependencyAnalyzer.graph) : Prop :=
  ∀ p, (DependencyAnalyzer.imports <$> g' !! p)
       = (DependencyAnalyzer.imports <$> g !! p)
       ∧ (DependencyAnalyzer.is_test <$> g' !! p)
         = (DependencyAnalyzer.is_test <$> g !! p).

(** File [x] is a test node and [k] a non-test node that [x] imports by
    path or matches by name. *)
Definition tests_module (g : DependencyAnalyzer.graph) (x k : string) : Prop :=
  ∃ nt nk,
    g !! x = Some nt ∧ DependencyAnalyzer.is_test nt = true
    ∧ g !! k = Some nk ∧ DependencyAnalyzer.is_test nk = false
    ∧ (k ∈ DependencyAnalyzer.imports nt
       ∨ DependencyAnalyzer._test_matches_module x k = true).

(** The graph a new analyzer builds. *)
Definition built_graph (analyze_file : string → option (gset string))
    (source_files : list string) : DependencyAnalyzer.graph :=
  DependencyAnalyzer.build_dependency_graph analyze_file ∅ source_files.

(** No character of [pat] is special to [fnmatch]. *)
Definition wildcard_free (pat : string) : bool :=
  forallb (fun c => negb (Ascii.eqb c "*" || Ascii.eqb c "?" || Ascii.eqb c "["))
          (list_ascii_of_string pat).

(** The files of [files] that [classify_files] puts under category [k]. *)
Definition filed_under (patterns : dict (list string)) (k : string)
    (files : list string) : list string :=
  List.filter (fun f => bool_decide (Vocabulary.assigned patterns f = Some k))
              files.

(** After the files [seen], every category holds the files assigned to
    it, in input order. *)
Definition filed (patterns : dict (list string)) (seen : list string)
    (cls : dict (list string)) : Prop :=
  dict_keys cls = dict_keys patterns
  ∧ ∀ k, k ∈ dict_keys patterns →
         dict_get cls k = Some (filed_under patterns k seen).

(** The [except] clauses of [execute_tier] applied to the [result] object
    [r] and the exception [e] that left the [try] body, if any. *)
Definition handled (timeout : Z) (r : QualityResult.t)
    (e : option QualityGatesAction.exn) : QualityResult.t :=
  match e with
  | None => r
  | Some QualityGatesAction.TimeoutExpired =>
      QualityResult.set_error_details
        (Some ("Overall execution timed out after "
               +:+ pretty timeout +:+ " seconds"))
        (QualityResult.set_failure_reason (Some "timeout")
           (QualityResult.set_success false r))
  | Some (QualityGatesAction.Error msg) =>
      QualityResult.set_error_details (Some msg)
        (QualityResult.set_failure_reason (Some "execution_error")
           (QualityResult.set_success false r))
  end.

(** The result ends the analysis loop: a failure with a zero-tolerance
    signature or a timeout. *)
Definition breaks (r : CommandResult.t) : bool :=
  negb (CommandResult.success r)
  && (QualityGatesAction.critical_violation (CommandResult.stderr r)
      || CommandResult.timeout r).

(** The keys of the entries of [items] that succeeded, in order. *)
Definition passed (items : dict CommandResult.t) : list string :=
  dict_keys (List.filter (fun item => CommandResult.success (snd item)) items).

(** The keys of the entries of [items] that failed, in order. *)
Definition flunked (items : dict CommandResult.t) : list string :=
  dict_keys (List.filter (fun item => negb (CommandResult.success (snd item)))
                         items).

(** The lines ["name: stderr"] of the entries of [items] that failed. *)
Definition failure_lines (items : dict CommandResult.t) : list string :=
  List.map (fun item => fst item +:+ ": " +:+ CommandResult.stderr (snd item))
           (List.filter (fun item => negb (CommandResult.success (snd item)))
                        items).

(** The commands whose results a non-dry run of a tier analyses: in
    completion order when parallel, up to the first critical failure when
    sequential. *)
Definition analysed_commands (w : QualityGatesAction.World) (parallel : bool)
    (commands : list string) (timeout : Z) : list string :=
  if parallel then QualityGatesAction.as_completed w commands
  else Vocabulary.executed_prefix w timeout commands.

(** The analysis of a non-dry run of a tier. *)
Definition tier_analysis (w : QualityGatesAction.World) (tier : string)
    (parallel : bool) (timeout : Z) : QualityGatesAction.Analysis :=
  QualityGatesAction.analyze
    (List.map (Vocabulary.entry w timeout)
              (analysed_commands w parallel (Vocabulary.tier_commands w tier)
                                 timeout))
    (Vocabulary.analysis_start (Vocabulary.initial_result w tier timeout)).

(** [package] holds one of the changed files: it is the first entry of
    [packages] whose path, followed by a slash, starts the file's path. *)
Definition holds_change (packages : dict MonorepoHandler.package_info)
    (changed : list string) (package : string) : Prop :=
  package ≠ ""
  ∧ ∃ file, file ∈ changed
            ∧ MonorepoHandler._get_file_package packages file = Some package.

(** [other] is another entry of [packages] whose dependencies mention
    [package]. *)
Definition depends_on (packages : dict MonorepoHandler.package_info)
    (other package : string) : Prop :=
  other ≠ package
  ∧ ∃ info, (other, info) ∈ packages
            ∧ MonorepoHandler.mentions package (MonorepoHandler.deps info) = true.

(** The signals one iteration of [cleanup] delivers for [process]. *)
Definition signals_for (os : Cleanup.Processes) (process : nat)
  : list (nat * Cleanup.signal) :=
  snd (Cleanup.cleanup_one os ([], []) process).

(** The string begins with a white-space character. *)
Definition starts_with_whitespace (s : string) : bool :=
  match s with
  | EmptyString => false
  | String c1 s1 =>
      Py.is_space c1
      || match s1 with
         | EmptyString => false
         | String c2 s2 =>
             ChangeDetectionAction.space2 c1 c2
             || match s2 with
                | EmptyString => false
                | String c3 _ => ChangeDetectionAction.space3 c1 c2 c3
                end
         end
  end.

(** A path as [git diff --name-only] prints it: not empty, free of
    line breaks, with no white space at either end. *)
Definition tidy (f : string) : Prop :=
  f ≠ ""
  ∧ ChangeDetectionAction.strip f = f
  ∧ ChangeDetectionAction.newline ∉ list_ascii_of_string f.

(** The output of [git diff --name-only] for [names]: one per line. *)
Fixpoint printed (names : list string) : string :=
  match names with
  | [] => ""
  | name :: rest =>
      name +:+ String ChangeDetectionAction.newline (printed rest)
  end.

(** The package detection (in monorepo mode) or the report writer
    raises. *)
Definition io_fault (self : ChangeDetectionAction.t)
    (w : ChangeDetectionAction.World) : Prop :=
  (ChangeDetectionAction.monorepo_mode self = true
   ∧ ∃ msg, ChangeDetectionAction.detect_packages w = inl msg)
  ∨ is_Some (ChangeDetectionAction.reports_fault w).

(** [execute] runs its dependency analysis: the level asks for it and
    some changed file is filed under ["source"]. *)
Definition analysis_runs (self : ChangeDetectionAction.t)
    (changed_files : list string) : Prop :=
  ChangeDetectionAction.detection_level self ∈ ["standard"; "comprehensive"]
  ∧ filed_under (FilePatternMatcher.init
                   (ChangeDetectionAction.custom_patterns self))
                "source" changed_files ≠ [].

(** A new action with the default settings: standard level, no monorepo
    mode, no custom patterns, both optimizations enabled. *)
Definition new_action : ChangeDetectionAction.t :=
  {| ChangeDetectionAction.detection_level := "standard";
     ChangeDetectionAction.monorepo_mode := false;
     ChangeDetectionAction.custom_patterns := None;
     ChangeDetectionAction.optimization_engine :=
       OptimizationEngine.default_engine;
     ChangeDetectionAction.reports_dir := "change-reports";
     ChangeDetectionAction.dependency_graph := ∅ |}.

(** A project in which git prints [names], every path is a file without
    local imports, and nothing raises. *)
Definition git_prints (names : list string) : ChangeDetectionAction.World :=
  {| ChangeDetectionAction.git_diff :=
       ChangeDetectionAction.GitExited 0 (printed names);
     ChangeDetectionAction.analyze_file := fun _ => Some ∅;
     ChangeDetectionAction.detect_packages := inr [];
     ChangeDetectionAction.reports_fault := None |}.

End Statements.

(* ===================================================================== *)
(** * Properties                                                          *)
(* ===================================================================== *)

Import Py.

(** ** Dictionaries *)

Section DictFacts.
Context {V : Type}.
Implicit Types (d : dict V) (k : string) (v : V).

Lemma dict_get_set d k k' v :
  dict_get (dict_set d k v) k' = if String.eqb k k' then Some v else dict_get d k'.
Proof.
  induction d as [|[k0 v0] d IH]; simpl.
  - destruct (String.eqb k k'); reflexivity.
  - destruct (String.eqb k0 k) eqn:E0; simpl.
    + apply String.eqb_eq in E0; subst k0.
      destruct (String.eqb k k'); reflexivity.
    + destruct (String.eqb k0 k') eqn:E1.
      * apply String.eqb_eq in E1; subst k0.
        rewrite String.eqb_sym, E0. reflexivity.
      * exact IH.
Qed.

Lemma dict_get_Some_keys d k v : dict_get d k = Some v → k ∈ dict_keys d.
Proof.
  induction d as [|[k0 v0] d IH]; simpl; [discriminate|].
  destruct (String.eqb k0 k) eqn:E.
  - apply String.eqb_eq in E; subst. intros _. apply list_elem_of_here.
  - intros H. apply list_elem_of_further, IH, H.
Qed.

Lemma dict_get_Some_values d k v : dict_get d k = Some v → v ∈ dict_values d.
Proof.
  induction d as [|[k0 v0] d IH]; simpl; [discriminate|].
  destruct (String.eqb k0 k).
  - intros [= ->]. apply list_elem_of_here.
  - intros H. apply list_elem_of_further, IH, H.
Qed.

Lemma dict_keys_get d k : k ∈ dict_keys d → is_Some (dict_get d k).
Proof.
  induction d as [|[k0 v0] d IH]; simpl.
  - intros H. inversion H.
  - destruct (String.eqb k0 k) eqn:E; [eauto|].
    intros H. apply IH. inversion H; subst; [|assumption].
    rewrite String.eqb_refl in E. discriminate.
Qed.

Lemma dict_keys_set_present d k v :
  k ∈ dict_keys d → dict_keys (dict_set d k v) = dict_keys d.
Proof.
  induction d as [|[k0 v0] d IH]; simpl.
  - intros H. inversion H.
  - destruct (String.eqb k0 k) eqn:E; simpl; [reflexivity|].
    intros H. f_equal. apply IH. inversion H; subst; [|assumption].
    rewrite String.eqb_refl in E. discriminate.
Qed.

Lemma dict_set_fresh d k v :
  k ∉ dict_keys d → dict_set d k v = d ++ [(k, v)].
Proof.
  induction d as [|[k0 v0] d IH]; simpl; [reflexivity|].
  intros H. destruct (String.eqb k0 k) eqn:E.
  - apply String.eqb_eq in E; subst. exfalso. apply H, list_elem_of_here.
  - f_equal. apply IH. intros Hin. apply H, list_elem_of_further, Hin.
Qed.

Lemma dict_keys_set_incl d k v x :
  x ∈ dict_keys (dict_set d k v) → x = k ∨ x ∈ dict_keys d.
Proof.
  induction d as [|[k0 v0] d IH]; simpl.
  - intros H. inversion H; subst; [left; reflexivity|].
    match goal with H' : _ ∈ [] |- _ => inversion H' end.
  - destruct (String.eqb k0 k) eqn:E; simpl.
    + intros H. right. exact H.
    + intros H. inversion H; subst.
      * right. apply list_elem_of_here.
      * destruct (IH ltac:(assumption)) as [->|Hin]; [left; reflexivity|].
        right. apply list_elem_of_further, Hin.
Qed.
End DictFacts.

(** ** Classification *)

Lemma first_match_key (patterns : dict (list string)) file c :
  FilePatternMatcher.first_match patterns file = Some c → c ∈ dict_keys patterns.
Proof.
  induction patterns as [|[k pats] rest IH]; simpl; [discriminate|].
  destruct (existsb _ pats).
  - intros [= ->]. apply list_elem_of_here.
  - intros H. apply list_elem_of_further, IH, H.
Qed.

Section Classification.
Import FilePatternMatcher Vocabulary.

Variable patterns : dict (list string).
Local Abbreviation classified := (Vocabulary.classified patterns).
Hypothesis extension_categories_present :
  ∀ file c, _infer_from_extension file = Some c → c ∈ dict_keys patterns.

Lemma assigned_key file c : assigned patterns file = Some c → c ∈ dict_keys patterns.
Proof.
  unfold assigned. destruct (first_match patterns file) eqn:E.
  - intros [= ->]. eapply first_match_key, E.
  - apply extension_categories_present.
Qed.

Lemma classify_one_assigned cls file :
  classify_one patterns cls file =
    match assigned patterns file with
    | Some c => dict_append cls c file
    | None => Some cls
    end.
Proof.
  unfold classify_one, assigned.
  destruct (first_match patterns file); [reflexivity|].
  destruct (_infer_from_extension file); reflexivity.
Qed.

Lemma classified_init :
  classified (List.map (fun category => (category, [])) (dict_keys patterns)).
Proof.
  split.
  - unfold dict_keys. rewrite List.map_map. simpl. apply List.map_id.
  - intros k xs f Hget Hin.
    apply dict_get_Some_values in Hget. unfold dict_values in Hget.
    rewrite List.map_map in Hget. simpl in Hget.
    apply list_elem_of_In, List.in_map_iff in Hget as (? & <- & _).
    inversion Hin.
Qed.

Lemma classify_one_classified cls file :
  classified cls →
  ∃ cls', classify_one patterns cls file = Some cls' ∧ classified cls'.
Proof.
  intros [Hkeys Hfiles]. rewrite classify_one_assigned.
  destruct (assigned patterns file) as [c|] eqn:Ha.
  - assert (Hc : c ∈ dict_keys cls) by (rewrite Hkeys; eapply assigned_key, Ha).
    destruct (dict_keys_get _ _ Hc) as [xs Hxs].
    unfold dict_append. rewrite Hxs. eexists. split; [reflexivity|]. split.
    + rewrite dict_keys_set_present by assumption. exact Hkeys.
    + intros k ys f. rewrite dict_get_set.
      destruct (String.eqb c k) eqn:E.
      * apply String.eqb_eq in E; subst k. intros [= <-] Hin.
        apply elem_of_app in Hin as [Hin|Hin]; [eapply Hfiles; eauto|].
        apply list_elem_of_singleton in Hin. subst f. exact Ha.
      * apply Hfiles.
  - eexists. split; [reflexivity|]. split; assumption.
Qed.

Lemma classify_loop_classified files : ∀ cls,
  classified cls →
  ∃ cls', classify_loop patterns cls files = Some cls' ∧ classified cls'.
Proof.
  induction files as [|file files IH]; intros cls Hcls; simpl.
  - eauto.
  - destruct (classify_one_classified cls file Hcls) as (cls1 & -> & H1).
    apply IH, H1.
Qed.

Lemma classify_files_classified files :
  ∃ cls, classify_files patterns files = Some cls ∧ classified cls.
Proof. apply classify_loop_classified, classified_init. Qed.
End Classification.

Lemma default_extension_categories file c :
  FilePatternMatcher._infer_from_extension file = Some c →
  c ∈ dict_keys FilePatternMatcher.DEFAULT_PATTERNS.
Proof.
  unfold FilePatternMatcher._infer_from_extension. intros H.
  apply dict_get_Some_values in H.
  assert (Hall : Forall (fun v => v ∈ dict_keys FilePatternMatcher.DEFAULT_PATTERNS)
                        (dict_values FilePatternMatcher.extension_map)).
  { vm_compute. repeat constructor. }
  eapply Forall_forall in Hall; eauto.
Qed.

Lemma existsb_false_elem {A} (f : A → bool) (l : list A) (x : A) :
  existsb f l = false → x ∈ l → f x = false.
Proof.
  intros H Hin. destruct (f x) eqn:E; [|reflexivity].
  rewrite <- H. symmetry. apply existsb_exists.
  exists x. split; [apply list_elem_of_In, Hin | exact E].
Qed.

Lemma assigned_dependencies_is_pattern_match file :
  Vocabulary.assigned FilePatternMatcher.DEFAULT_PATTERNS file = Some "dependencies" →
  FilePatternMatcher.first_match FilePatternMatcher.DEFAULT_PATTERNS file
    = Some "dependencies".
Proof.
  unfold Vocabulary.assigned.
  destruct (FilePatternMatcher.first_match _ file); [trivial|].
  unfold FilePatternMatcher._infer_from_extension. intros H.
  apply dict_get_Some_values in H.
  assert (Hall : Forall (fun v => v ≠ "dependencies")
                        (dict_values FilePatternMatcher.extension_map)).
  { vm_compute. repeat constructor; discriminate. }
  eapply Forall_forall in Hall; eauto. contradiction.
Qed.

Lemma first_match_dependencies_earlier file :
  FilePatternMatcher.first_match FilePatternMatcher.DEFAULT_PATTERNS file
    = Some "dependencies" →
  ∀ category, category ∈ ["docs"; "config"; "tests"; "source"] →
    existsb (FilePatternMatcher._matches_pattern file)
            (Vocabulary.files_of FilePatternMatcher.DEFAULT_PATTERNS category)
    = false.
Proof.
  unfold FilePatternMatcher.DEFAULT_PATTERNS.
  cbn [FilePatternMatcher.first_match].
  destruct (existsb _ _) eqn:Edocs; [discriminate|].
  destruct (existsb _ _) eqn:Econfig in |- *; [discriminate|].
  destruct (existsb _ _) eqn:Etests in |- *; [discriminate|].
  destruct (existsb _ _) eqn:Esource in |- *; [discriminate|].
  intros _ category Hin.
  set_unfold in Hin. destruct Hin as [->|[->|[->|[->|[]]]]].
  - exact Edocs.
  - exact Econfig.
  - exact Etests.
  - exact Esource.
Qed.

(** C10: classification is first-match-wins over the default category
    order, so a file that [classify_files] puts under "dependencies"
    matches no pattern of the four earlier categories (docs, config,
    tests, source); in particular pyproject.toml is filed under config and
    requirements.txt under docs, has_dependencies is false for either
    change set and skip_tests is then true. *)
Theorem C10_earlier_categories_shadow_dependencies :
  (∀ files,
     ∃ cls, FilePatternMatcher.classify_files FilePatternMatcher.DEFAULT_PATTERNS files
            = Some cls
       ∧ ∀ file category pattern,
           file ∈ Vocabulary.files_of cls "dependencies" →
           category ∈ ["docs"; "config"; "tests"; "source"] →
           pattern ∈ Vocabulary.files_of FilePatternMatcher.DEFAULT_PATTERNS category →
           FilePatternMatcher._matches_pattern file pattern = false)
  ∧ FilePatternMatcher.classify_files FilePatternMatcher.DEFAULT_PATTERNS
      ["pyproject.toml"]
    = Some [("docs", []); ("config", ["pyproject.toml"]); ("tests", []);
            ("source", []); ("dependencies", []); ("ci", []); ("build", [])]
  ∧ FilePatternMatcher.classify_files FilePatternMatcher.DEFAULT_PATTERNS
      ["requirements.txt"]
    = Some [("docs", ["requirements.txt"]); ("config", []); ("tests", []);
            ("source", []); ("dependencies", []); ("ci", []); ("build", [])]
  ∧ FilePatternMatcher._matches_pattern "pyproject.toml" "pyproject.toml" = true
  ∧ FilePatternMatcher._matches_pattern "requirements.txt" "requirements*.txt" = true
  ∧ ∀ file, file ∈ ["pyproject.toml"; "requirements.txt"] →
      ∃ cls, FilePatternMatcher.classify_files FilePatternMatcher.DEFAULT_PATTERNS [file]
             = Some cls
        ∧ OptimizationEngine.has_dependencies
            (OptimizationEngine._analyze_change_patterns cls) = false
        ∧ OptimizationEngine.skip_tests
            (OptimizationEngine.calculate_optimization
               OptimizationEngine.default_engine cls []) = true.
Proof.
  split; [|split; [|split; [|split; [|split]]]].
  - intros files.
    destruct (classify_files_classified FilePatternMatcher.DEFAULT_PATTERNS
                default_extension_categories files) as (cls & Hcls & _ & Hfiles).
    exists cls. split; [exact Hcls|].
    intros file category pattern Hfile Hcat Hpat.
    unfold Vocabulary.files_of in Hfile at 1.
    destruct (dict_get cls "dependencies") as [xs|] eqn:Hget;
      [|inversion Hfile].
    specialize (Hfiles _ _ _ Hget Hfile).
    apply assigned_dependencies_is_pattern_match in Hfiles.
    eapply existsb_false_elem; [|exact Hpat].
    apply first_match_dependencies_earlier; assumption.
  - vm_compute. reflexivity.
  - vm_compute. reflexivity.
  - vm_compute. reflexivity.
  - vm_compute. reflexivity.
  - intros file Hin.
    set_unfold in Hin. destruct Hin as [->|[->|[]]];
      eexists; repeat split; vm_compute; reflexivity.
Qed.

(** A pyproject.toml-only change: filed under config, tests skipped. *)
Lemma C10_witness_pyproject :
  "pyproject.toml" ∈ ["pyproject.toml"; "requirements.txt"]
  ∧ ∃ cls, FilePatternMatcher.classify_files FilePatternMatcher.DEFAULT_PATTERNS
             ["pyproject.toml"] = Some cls
      ∧ OptimizationEngine.has_dependencies
          (OptimizationEngine._analyze_change_patterns cls) = false
      ∧ OptimizationEngine.skip_tests
          (OptimizationEngine.calculate_optimization
             OptimizationEngine.default_engine cls []) = true.
Proof.
  split; [apply list_elem_of_here|].
  apply (proj2 (proj2 (proj2 (proj2 (proj2
           C10_earlier_categories_shadow_dependencies))))).
  apply list_elem_of_here.
Defined.

(** C8: for the change list ["README.md"] with the default patterns and
    both toggles on, README.md is filed under docs and every other category
    is empty, docs_only holds, tests, lint and security are skipped, docs
    are not, and the optimization score is 75. *)
Theorem C8_readme_only_change :
  ∃ cls analysis,
    FilePatternMatcher.classify_files (FilePatternMatcher.init None) ["README.md"]
      = Some cls
    ∧ cls = [("docs", ["README.md"]); ("config", []); ("tests", []);
             ("source", []); ("dependencies", []); ("ci", []); ("build", [])]
    ∧ OptimizationEngine.change_analysis
        (OptimizationEngine.calculate_optimization
           OptimizationEngine.default_engine cls []) = Some analysis
    ∧ OptimizationEngine.docs_only analysis = true
    ∧ OptimizationEngine.skip_tests
        (OptimizationEngine.calculate_optimization
           OptimizationEngine.default_engine cls []) = true
    ∧ OptimizationEngine.skip_lint
        (OptimizationEngine.calculate_optimization
           OptimizationEngine.default_engine cls []) = true
    ∧ OptimizationEngine.skip_security
        (OptimizationEngine.calculate_optimization
           OptimizationEngine.default_engine cls []) = true
    ∧ OptimizationEngine.skip_docs
        (OptimizationEngine.calculate_optimization
           OptimizationEngine.default_engine cls []) = false
    ∧ OptimizationEngine.optimization_score
        (OptimizationEngine.calculate_optimization
           OptimizationEngine.default_engine cls []) = 75%Z.
Proof.
  eexists. eexists.
  split; [vm_compute; reflexivity|].
  split; [reflexivity|].
  split; [vm_compute; reflexivity|].
  repeat split; vm_compute; reflexivity.
Qed.

(** ** Optimization score and time savings *)

(** C7: for every non-empty classification the optimization score is 25
    times the number of true skip flags, hence between 0 and 100, and the
    time savings are the sum over the true flags of tests=120,
    security=180, docs=60 and lint=30 seconds. *)
Theorem C7_score_and_time_savings
    (self : OptimizationEngine.t) (classifications : dict (list string))
    (affected_tests : list string) :
  OptimizationEngine.total_files classifications ≠ O →
  let r := OptimizationEngine.calculate_optimization self classifications
             affected_tests in
  OptimizationEngine.optimization_score r
    = (25 * Vocabulary.count_true
              [OptimizationEngine.skip_tests r; OptimizationEngine.skip_security r;
               OptimizationEngine.skip_docs r; OptimizationEngine.skip_lint r])%Z
  ∧ (0 ≤ OptimizationEngine.optimization_score r ≤ 100)%Z
  ∧ OptimizationEngine.time_savings r
    = ((if OptimizationEngine.skip_tests r then 120 else 0)
       + (if OptimizationEngine.skip_security r then 180 else 0)
       + (if OptimizationEngine.skip_docs r then 60 else 0)
       + (if OptimizationEngine.skip_lint r then 30 else 0))%Z.
Proof.
  intros Hne r. subst r. unfold OptimizationEngine.calculate_optimization.
  destruct (Nat.eqb_spec (OptimizationEngine.total_files classifications) 0)
    as [E|_]; [contradiction|].
  generalize (OptimizationEngine._calculate_skip_recommendations self
                (OptimizationEngine._analyze_change_patterns classifications)).
  intros [ts sc dc ln why]. cbn [OptimizationEngine.optimization_score
    OptimizationEngine.time_savings OptimizationEngine.skip_tests
    OptimizationEngine.skip_security OptimizationEngine.skip_docs
    OptimizationEngine.skip_lint].
  destruct ts, sc, dc, ln; vm_compute; repeat split; congruence.
Qed.

(** A config-only change under the default engine. *)
Lemma C7_witness :
  let cls := [("docs", []); ("config", ["ci.yml"])] in
  let r := OptimizationEngine.calculate_optimization
             OptimizationEngine.default_engine cls [] in
  OptimizationEngine.total_files cls ≠ O
  ∧ OptimizationEngine.optimization_score r
    = (25 * Vocabulary.count_true
              [OptimizationEngine.skip_tests r; OptimizationEngine.skip_security r;
               OptimizationEngine.skip_docs r; OptimizationEngine.skip_lint r])%Z
  ∧ (0 ≤ OptimizationEngine.optimization_score r ≤ 100)%Z
  ∧ OptimizationEngine.time_savings r
    = ((if OptimizationEngine.skip_tests r then 120 else 0)
       + (if OptimizationEngine.skip_security r then 180 else 0)
       + (if OptimizationEngine.skip_docs r then 60 else 0)
       + (if OptimizationEngine.skip_lint r then 30 else 0))%Z.
Proof.
  intros cls r.
  assert (Hne : OptimizationEngine.total_files cls ≠ O) by (vm_compute; lia).
  split; [exact Hne|].
  exact (C7_score_and_time_savings OptimizationEngine.default_engine cls [] Hne).
Defined.

(** ** Traversal of the reverse-dependency graph *)

Section Traversal.
Import DependencyAnalyzer.

Variable g : graph.
Local Abbreviation closed_at := (Vocabulary.closed_at g).
Local Abbreviation traversal_inv := (Vocabulary.traversal_inv g).
Local Abbreviation traversal_measure := (Vocabulary.traversal_measure g).

Lemma imported_by_universe p node :
  g !! p = Some node → imported_by node ⊆ graph_universe g.
Proof.
  intros Hp d Hd. unfold graph_universe.
  apply elem_of_union_r, elem_of_union_list.
  exists (imported_by node). split; [|exact Hd].
  apply list_elem_of_fmap. exists (p, node). split; [reflexivity|].
  apply elem_of_map_to_list. exact Hp.
Qed.

Lemma dom_universe : dom g ⊆ graph_universe g.
Proof. unfold graph_universe. set_solver. Qed.

Lemma direct_changes_acc changed : ∀ (acc : gset string) x,
  x ∈ foldl (fun affected file =>
               if decide (is_Some (g !! file)) then {[file]} ∪ affected
               else affected) acc changed
  ↔ x ∈ acc ∨ (x ∈ changed ∧ is_Some (g !! x)).
Proof.
  induction changed as [|file changed IH]; intros acc x; simpl.
  - set_solver.
  - rewrite IH. destruct (decide (is_Some (g !! file))) as [Hs|Hn].
    + set_solver.
    + split; [set_solver|].
      intros [?|[Hin Hsome]]; [auto|].
      apply elem_of_cons in Hin as [->|Hin]; [contradiction|auto].
Qed.

Lemma direct_changes_spec changed x :
  x ∈ direct_changes g changed ↔ x ∈ changed ∧ is_Some (g !! x).
Proof. unfold direct_changes. rewrite direct_changes_acc. set_solver. Qed.

Lemma add_dependents_spec ds : ∀ aff q aff' q',
  add_dependents ds aff q = (aff', q') →
  aff' = aff ∪ list_to_set ds
  ∧ (∀ x, x ∈ q → x ∈ q')
  ∧ (∀ x, x ∈ aff' → x ∈ aff ∨ x ∈ q')
  ∧ size aff' + length q = size aff + length q'.
Proof.
  unfold add_dependents.
  induction ds as [|d ds IH]; intros aff q aff' q'; simpl.
  - intros [= <- <-]. repeat split; [set_solver|auto|auto].
  - destruct (decide (d ∈ aff)) as [Hin|Hout]; intros H.
    + destruct (IH _ _ _ _ H) as (-> & Hq & Hnew & Hsize).
      repeat split; [set_solver|exact Hq|exact Hnew|exact Hsize].
    + destruct (IH _ _ _ _ H) as (-> & Hq & Hnew & Hsize).
      repeat split.
      * set_solver.
      * intros x Hx. apply Hq. set_solver.
      * intros x Hx. destruct (Hnew x Hx) as [Hx'|Hx']; [|auto].
        apply elem_of_union in Hx' as [Hx'|Hx']; [|auto].
        right. apply Hq. set_solver.
      * assert (Hd : size ({[d]} ∪ aff) = S (size aff)).
        { rewrite size_union by set_solver. rewrite size_singleton.
          reflexivity. }
        rewrite Hd, length_app in Hsize. simpl in Hsize. lia.
Qed.

Lemma closed_at_mono x S S' : S ⊆ S' → closed_at x S → closed_at x S'.
Proof. intros Hsub Hc node Hnode. specialize (Hc node Hnode). set_solver. Qed.

Lemma traverse_sound fuel : ∀ st r,
  traverse fuel g st = Some r →
  traversal_inv st →
  affected st ⊆ r ∧ ∀ x, x ∈ r → closed_at x r.
Proof.
  induction fuel as [|fuel IH]; intros [aff q vis] r; simpl; [discriminate|].
  destruct q as [|current rest].
  - intros [= <-] [Hq _]. simpl in *. split; [reflexivity|].
    intros x Hx. destruct (Hq x Hx) as [Hin|Hc]; [inversion Hin|exact Hc].
  - destruct (decide (current ∈ vis)) as [Hvis|Hnew].
    + intros Hrun [Hq Hv]. simpl in *.
      apply (IH _ _ Hrun). split; simpl; [|exact Hv].
      intros x Hx. destruct (Hq x Hx) as [Hin|Hc]; [|auto].
      apply elem_of_cons in Hin as [->|Hin]; [right; auto|left; exact Hin].
    + destruct (g !! current) as [node|] eqn:Hnode.
      * destruct (add_dependents _ aff rest) as [aff' q'] eqn:Hadd.
        intros Hrun [Hq Hv]. simpl in *.
        destruct (add_dependents_spec _ _ _ _ _ Hadd)
          as (Haff & Hrest & Hfresh & _).
        assert (Hsub : aff ⊆ aff') by (rewrite Haff; set_solver).
        assert (Hcur : closed_at current aff').
        { intros node' Hnode'. rewrite Hnode in Hnode'.
          injection Hnode' as <-. rewrite Haff.
          intros d Hd. apply elem_of_union_r, elem_of_list_to_set,
            elem_of_elements, Hd. }
        destruct (IH _ _ Hrun) as [Hres Hclosed].
        { split; simpl.
          - intros x Hx. destruct (Hfresh x Hx) as [Hold|Hqueued]; [|auto].
            destruct (Hq x Hold) as [Hin|Hc].
            + apply elem_of_cons in Hin as [->|Hin]; [auto|].
              left. apply Hrest, Hin.
            + right. eapply closed_at_mono; eauto.
          - intros x Hx. apply elem_of_union in Hx as [Hx|Hx].
            + apply elem_of_singleton in Hx. subst x. exact Hcur.
            + eapply closed_at_mono; eauto. }
        simpl in Hres. split; [set_solver|exact Hclosed].
      * intros Hrun [Hq Hv]. simpl in *.
        apply (IH _ _ Hrun). split; simpl.
        -- intros x Hx. destruct (Hq x Hx) as [Hin|Hc]; [|auto].
           apply elem_of_cons in Hin as [->|Hin]; [|auto].
           right. intros node' Hnode'. rewrite Hnode in Hnode'. discriminate.
        -- intros x Hx. apply elem_of_union in Hx as [Hx|Hx]; [|auto].
           apply elem_of_singleton in Hx. subst x.
           intros node' Hnode'. rewrite Hnode in Hnode'. discriminate.
Qed.

Lemma traverse_terminates fuel : ∀ st,
  affected st ⊆ graph_universe g →
  traversal_measure st < fuel →
  is_Some (traverse fuel g st).
Proof.
  unfold Vocabulary.traversal_measure.
  induction fuel as [|fuel IH]; intros [aff q vis]; simpl; [lia|].
  intros Hsub Hfuel. destruct q as [|current rest]; [eauto|].
  simpl in Hfuel.
  destruct (decide (current ∈ vis)) as [Hvis|Hnew].
  - apply IH; simpl; [exact Hsub|lia].
  - destruct (g !! current) as [node|] eqn:Hnode.
    + destruct (add_dependents _ aff rest) as [aff' q'] eqn:Hadd.
      destruct (add_dependents_spec _ _ _ _ _ Hadd) as (Haff & _ & _ & Hsize).
      assert (Hsub' : aff' ⊆ graph_universe g).
      { rewrite Haff. pose proof (imported_by_universe _ _ Hnode).
        set_solver. }
      pose proof (subseteq_size _ _ Hsub).
      pose proof (subseteq_size _ _ Hsub').
      apply IH; simpl; [exact Hsub'|lia].
    + apply IH; simpl; [exact Hsub|lia].
Qed.

(** More fuel never changes a result. *)
Lemma traverse_more_fuel fuel : ∀ st r k,
  traverse fuel g st = Some r → traverse (fuel + k) g st = Some r.
Proof.
  induction fuel as [|fuel IH]; intros [aff q vis] r k; simpl; [discriminate|].
  destruct q as [|current rest]; [trivial|].
  destruct (decide (current ∈ vis)); [apply IH|].
  destruct (g !! current) as [node|]; [|apply IH].
  destruct (add_dependents _ aff rest) as [aff' q']. apply IH.
Qed.

Lemma direct_changes_universe changed :
  direct_changes g changed ⊆ graph_universe g.
Proof.
  intros x Hx. apply direct_changes_spec in Hx as [_ Hx].
  apply dom_universe, elem_of_dom, Hx.
Qed.

Lemma get_affected_modules_terminates changed k :
  is_Some (get_affected_modules (S (size (graph_universe g)) + k) g changed).
Proof.
  unfold get_affected_modules. apply traverse_terminates; simpl.
  - apply direct_changes_universe.
  - unfold Vocabulary.traversal_measure. simpl.
    pose proof (subseteq_size _ _ (direct_changes_universe changed)).
    change (length (elements (direct_changes g changed)))
      with (size (direct_changes g changed)).
    lia.
Qed.

Lemma get_affected_modules_sound fuel changed r :
  get_affected_modules fuel g changed = Some r →
  (∀ file, file ∈ changed → file ∈ dom g → file ∈ r)
  ∧ (∀ x node d, x ∈ r → g !! x = Some node → d ∈ imported_by node → d ∈ r).
Proof.
  unfold get_affected_modules. intros Hrun.
  apply traverse_sound in Hrun as [Hseed Hclosed]; simpl in *.
  - split.
    + intros file Hin Hdom. apply Hseed, direct_changes_spec.
      split; [exact Hin|apply elem_of_dom, Hdom].
    + intros x node d Hx Hnode Hd. exact (Hclosed x Hx node Hnode d Hd).
  - split; simpl; [|set_solver].
    intros x Hx. left. apply elem_of_elements, Hx.
Qed.
End Traversal.

(** C3: for every dependency graph and every list of changed files,
    [get_affected_modules] returns a set that contains every changed file
    that is a node of the graph and is closed under imported_by: no node in
    the result has a member of its imported_by set outside the result. *)
Theorem C3_affected_modules_superset_and_closed
    (g : DependencyAnalyzer.graph) (changed_files : list string) :
  ∃ r,
    DependencyAnalyzer.get_affected_modules
      (S (size (DependencyAnalyzer.graph_universe g))) g changed_files = Some r
    ∧ (∀ file, file ∈ changed_files → file ∈ dom g → file ∈ r)
    ∧ (∀ x node d,
         x ∈ r → g !! x = Some node →
         d ∈ DependencyAnalyzer.imported_by node → d ∈ r).
Proof.
  destruct (get_affected_modules_terminates g changed_files 0) as [r Hr].
  rewrite Nat.add_0_r in Hr. exists r. split; [exact Hr|].
  eapply get_affected_modules_sound, Hr.
Qed.

(** ** Graphs built by [build_dependency_graph] *)

Lemma foldl_invariant {A B} (P : A → Prop) (f : A → B → A) (l : list B) :
  ∀ a, P a → (∀ a b, b ∈ l → P a → P (f a b)) → P (foldl f a l).
Proof.
  induction l as [|b l IH]; intros a Ha Hstep; simpl; [exact Ha|].
  apply IH.
  - apply Hstep; [apply list_elem_of_here|exact Ha].
  - intros a' b' Hb'. apply Hstep. apply list_elem_of_further, Hb'.
Qed.

Section BuiltGraphs.
Import DependencyAnalyzer Vocabulary.

Lemma reverse_closed_universe g : reverse_closed (dom g) g → graph_universe g = dom g.
Proof.
  intros [_ Hin]. unfold graph_universe. apply set_eq. intros x.
  rewrite elem_of_union, elem_of_union_list. split; [|auto].
  intros [Hx|(S & HS & Hx)]; [exact Hx|].
  apply list_elem_of_fmap in HS as ([p n] & -> & Hpn).
  apply elem_of_map_to_list in Hpn. simpl in Hx. exact (Hin p n Hpn x Hx).
Qed.

Lemma add_imported_by_closed D other file_path g :
  file_path ∈ D → reverse_closed D g →
  reverse_closed D (add_imported_by other file_path g).
Proof.
  intros Hfile [Hdom Hin]. unfold add_imported_by. split.
  - rewrite dom_alter_L. exact Hdom.
  - intros p n. rewrite lookup_alter. case_decide as Heq.
    + subst p. destruct (g !! other) as [n0|] eqn:Hn0; simpl; [|discriminate].
      intros [= <-]. simpl. specialize (Hin _ _ Hn0). set_solver.
    + apply Hin.
Qed.

Lemma add_test_file_closed D module_file test_file g :
  reverse_closed D g → reverse_closed D (add_test_file module_file test_file g).
Proof.
  intros [Hdom Hin]. unfold add_test_file. split.
  - rewrite dom_alter_L. exact Hdom.
  - intros p n. rewrite lookup_alter. case_decide as Heq.
    + subst p. destruct (g !! module_file) as [n0|] eqn:Hn0; simpl;
        [|discriminate].
      intros [= <-]. simpl. exact (Hin _ _ Hn0).
    + apply Hin.
Qed.

Lemma _build_reverse_dependencies_closed g :
  reverse_closed (dom g) g → reverse_closed (dom g) (_build_reverse_dependencies g).
Proof.
  intros Hg. unfold _build_reverse_dependencies.
  apply foldl_invariant; [exact Hg|].
  intros acc [file_path node] Hnode Hacc.
  apply elem_of_map_to_list in Hnode.
  apply foldl_invariant; [exact Hacc|].
  intros acc1 imported_module _ Hacc1.
  apply foldl_invariant; [exact Hacc1|].
  intros acc2 other_file _ Hacc2.
  destruct (_import_matches_file imported_module other_file); [|exact Hacc2].
  apply add_imported_by_closed; [|exact Hacc2].
  apply elem_of_dom. eauto.
Qed.

Lemma _associate_test_files_closed D g :
  reverse_closed D g → reverse_closed D (_associate_test_files g).
Proof.
  intros Hg. unfold _associate_test_files.
  apply foldl_invariant; [exact Hg|].
  intros acc [test_file test_node] _ Hacc.
  destruct (negb (is_test test_node)); [exact Hacc|].
  apply foldl_invariant; [exact Hacc|].
  intros acc1 [module_file module_node] _ Hacc1.
  destruct (is_test module_node); [exact Hacc1|].
  destruct (_ || _); [|exact Hacc1].
  apply add_test_file_closed, Hacc1.
Qed.

Lemma new_nodes_closed analyze_file source_files :
  ∀ acc : graph,
    (∀ p n, acc !! p = Some n → imported_by n = ∅) →
    ∀ p n,
      foldl (fun acc file =>
               if endswith file ".py" then
                 match analyze_file file with
                 | Some imports =>
                     <[file := {| module_path := file;
                                  imports := imports;
                                  imported_by := ∅;
                                  test_files := ∅;
                                  is_test := _is_test_file file |}]> acc
                 | None => acc
                 end
               else acc) acc source_files !! p = Some n →
      imported_by n = ∅.
Proof.
  intros acc Hacc.
  apply (foldl_invariant
           (fun acc : graph => ∀ p n, acc !! p = Some n → imported_by n = ∅));
    [exact Hacc|].
  intros a file _ Ha.
  destruct (endswith file ".py"); [|exact Ha].
  destruct (analyze_file file) as [imps|]; [|exact Ha].
  intros p n. rewrite lookup_insert. case_decide; [|apply Ha].
  intros [= <-]. reflexivity.
Qed.

Lemma build_dependency_graph_closed analyze_file source_files :
  let g := build_dependency_graph analyze_file ∅ source_files in
  reverse_closed (dom g) g.
Proof.
  unfold build_dependency_graph.
  set (nodes := foldl _ ∅ source_files).
  assert (Hnodes : reverse_closed (dom nodes) nodes).
  { split; [reflexivity|]. intros p n Hpn.
    rewrite (new_nodes_closed analyze_file source_files ∅) with (p := p) (n := n).
    - set_solver.
    - intros ? ?. rewrite lookup_empty. discriminate.
    - exact Hpn. }
  apply _build_reverse_dependencies_closed in Hnodes.
  apply _associate_test_files_closed in Hnodes.
  simpl. destruct Hnodes as [Hdom Hin]. split; [reflexivity|].
  rewrite Hdom. exact Hin.
Qed.
End BuiltGraphs.

(** C4: [get_affected_modules] terminates on every graph, cycles included:
    one unit of fuel more than the number of paths the graph mentions is
    always enough, which for a graph built by [build_dependency_graph] is
    the node count plus one.  On the three-node cycle (a imports b, b
    imports c, c imports a) a change to any single node yields exactly the
    three nodes. *)
Theorem C4_traversal_terminates_on_cycles :
  (∀ (g : DependencyAnalyzer.graph) changed_files k,
     is_Some (DependencyAnalyzer.get_affected_modules
                (S (size (DependencyAnalyzer.graph_universe g)) + k)
                g changed_files))
  ∧ (∀ analyze_file source_files changed_files k,
       is_Some (DependencyAnalyzer.get_affected_modules
                  (S (size (DependencyAnalyzer.build_dependency_graph
                              analyze_file ∅ source_files)) + k)
                  (DependencyAnalyzer.build_dependency_graph
                     analyze_file ∅ source_files)
                  changed_files))
  ∧ DependencyAnalyzer.imported_by <$> Vocabulary.cycle_graph !! "a.py"
    = Some {["c.py"]}
  ∧ DependencyAnalyzer.imported_by <$> Vocabulary.cycle_graph !! "b.py"
    = Some {["a.py"]}
  ∧ DependencyAnalyzer.imported_by <$> Vocabulary.cycle_graph !! "c.py"
    = Some {["b.py"]}
  ∧ DependencyAnalyzer.get_affected_modules 4 Vocabulary.cycle_graph ["a.py"]
    = Some {["a.py"; "b.py"; "c.py"]}
  ∧ DependencyAnalyzer.get_affected_modules 4 Vocabulary.cycle_graph ["b.py"]
    = Some {["a.py"; "b.py"; "c.py"]}
  ∧ DependencyAnalyzer.get_affected_modules 4 Vocabulary.cycle_graph ["c.py"]
    = Some {["a.py"; "b.py"; "c.py"]}.
Proof.
  split; [|split].
  - intros g changed_files k. apply get_affected_modules_terminates.
  - intros analyze_file source_files changed_files k.
    pose proof (build_dependency_graph_closed analyze_file source_files) as Hc.
    simpl in Hc. apply reverse_closed_universe in Hc.
    rewrite <- size_dom, <- Hc. apply get_affected_modules_terminates.
  - repeat split; vm_compute; reflexivity.
Qed.

(** ** Quality gates: the commands of a tier *)

Section TierCommands.
Import QualityGatesAction Vocabulary.

Lemma tier_checks_cases tier :
  tier_checks tier = ["test"; "lint"; "typecheck"]
  ∨ tier_checks tier = ["test"; "lint"; "typecheck"; "security-scan"]
  ∨ tier_checks tier
    = ["test"; "lint"; "typecheck"; "security-scan"; "check-all"].
Proof.
  unfold tier_checks, base_commands. cbn [dict_get].
  destruct (String.eqb "essential" tier); [left; reflexivity|].
  destruct (String.eqb "extended" tier); [right; left; reflexivity|].
  destruct (String.eqb "full" tier);
    [right; right; reflexivity | left; reflexivity].
Qed.

Lemma tier_checks_NoDup tier : NoDup (tier_checks tier).
Proof.
  destruct (tier_checks_cases tier) as [->|[->| ->]];
    apply (bool_decide_unpack _); vm_compute; exact I.
Qed.

Lemma _get_tier_commands_names tier manager :
  check_names (_get_tier_commands tier manager) = Some (tier_checks tier)
  ∧ List.map check_of (_get_tier_commands tier manager) = tier_checks tier
  ∧ Forall (fun cmd => is_Some (command_name cmd))
           (_get_tier_commands tier manager).
Proof.
  unfold _get_tier_commands.
  destruct (String.eqb _ "pixi");
    [|destruct (String.eqb _ "poetry"); [|destruct (String.eqb _ "hatch")]];
    destruct (tier_checks_cases tier) as [->|[->| ->]];
    (split; [vm_compute; reflexivity|]);
    (split; [vm_compute; reflexivity|]);
    repeat constructor; vm_compute; eauto.
Qed.

Lemma command_name_check_of cmd :
  is_Some (command_name cmd) → command_name cmd = Some (check_of cmd).
Proof. unfold check_of. intros [n ->]. reflexivity. Qed.
End TierCommands.

(** ** Quality gates: sequential execution *)

Section Sequential.
Import QualityGatesAction Vocabulary.

Variable w : World.
Variable timeout : Z.

Lemma sequential_loop_step cmd rest results log n :
  command_name cmd = Some n →
  sequential_loop w (cmd :: rest) timeout true results log
  = if fails_critically (result_of w timeout cmd)
    then (Returned (dict_set results n (result_of w timeout cmd)),
          log ++ [cmd])
    else sequential_loop w rest timeout true
           (dict_set results n (result_of w timeout cmd)) (log ++ [cmd]).
Proof.
  intros Hn. cbn [sequential_loop]. rewrite Hn.
  unfold fails_critically, result_of, _execute_command. cbn [fst].
  rewrite andb_true_r. reflexivity.
Qed.

Lemma sequential_loop_spec commands : ∀ results log,
  Forall (fun cmd => is_Some (command_name cmd)) commands →
  NoDup (List.map check_of commands) →
  (∀ cmd, cmd ∈ commands → check_of cmd ∉ dict_keys results) →
  sequential_loop w commands timeout true results log
  = (Returned (results ++ List.map (entry w timeout)
                                   (executed_prefix w timeout commands)),
     log ++ executed_prefix w timeout commands).
Proof.
  induction commands as [|cmd rest IH]; intros results log Hnamed Hnodup Hfresh.
  - simpl. rewrite !app_nil_r. reflexivity.
  - cbn [executed_prefix].
    inversion Hnamed as [|? ? Hcmd Hrest]; subst.
    inversion Hnodup as [|? ? Hnotin Hnodup']; subst.
    rewrite (sequential_loop_step _ _ _ _ _ (command_name_check_of _ Hcmd)).
    rewrite dict_set_fresh by (apply Hfresh, list_elem_of_here).
    destruct (fails_critically (result_of w timeout cmd)) eqn:Hcrit.
    + reflexivity.
    + rewrite IH; [| assumption | assumption |].
      * rewrite <- !app_assoc. reflexivity.
      * intros c Hc Hin. unfold dict_keys in Hin.
        rewrite List.map_app in Hin. apply elem_of_app in Hin as [Hin|Hin].
        -- eapply Hfresh; [apply list_elem_of_further, Hc|exact Hin].
        -- simpl in Hin. apply list_elem_of_singleton in Hin.
           apply Hnotin. rewrite <- Hin.
           apply list_elem_of_In, List.in_map, list_elem_of_In, Hc.
Qed.

Lemma executed_prefix_halt pre c post :
  Forall (fun cmd => fails_critically (result_of w timeout cmd) = false) pre →
  fails_critically (result_of w timeout c) = true →
  executed_prefix w timeout (pre ++ c :: post) = pre ++ [c].
Proof.
  induction 1 as [|x pre Hx _ IH]; intros Hc; simpl.
  - rewrite Hc. reflexivity.
  - rewrite Hx, IH by assumption. reflexivity.
Qed.

Lemma executed_prefix_continue pre c post :
  Forall (fun cmd => fails_critically (result_of w timeout cmd) = false) pre →
  fails_critically (result_of w timeout c) = false →
  executed_prefix w timeout (pre ++ c :: post)
  = pre ++ c :: executed_prefix w timeout post.
Proof.
  induction 1 as [|x pre Hx _ IH]; intros Hc; simpl.
  - rewrite Hc. reflexivity.
  - rewrite Hx, IH by assumption. reflexivity.
Qed.
End Sequential.

(** ** Quality gates: analysis of the command results *)

Section Analysis.
Import QualityGatesAction Vocabulary.

Lemma nonempty_snoc {A} (xs : list A) (x : A) : nonempty (xs ++ [x]) = true.
Proof. destruct xs; reflexivity. Qed.


Lemma analyze_names items : ∀ a n,
  n ∈ failed (analyze items a) ++ successful (analyze items a) →
  n ∈ failed a ++ successful a ∨ n ∈ dict_keys items.
Proof.
  induction items as [|[k cr] items IH]; intros a n; simpl; [auto|].
  destruct (CommandResult.success cr).
  - intros H. apply IH in H. simpl in H. set_solver.
  - destruct (critical_violation _); [simpl; set_solver|].
    destruct (CommandResult.timeout cr); [simpl; set_solver|].
    intros H. apply IH in H. simpl in H. set_solver.
Qed.

Lemma analyze_executed_checks items : ∀ a,
  QualityResult.executed_checks (result (analyze items a))
  = QualityResult.executed_checks (result a).
Proof.
  induction items as [|[k cr] items IH]; intros a; simpl; [reflexivity|].
  destruct (CommandResult.success cr); [rewrite IH; reflexivity|].
  destruct (critical_violation _); [reflexivity|].
  destruct (CommandResult.timeout cr); [reflexivity|].
  rewrite IH. reflexivity.
Qed.


(** A timed-out check, with no critically failing check before it, ends
    the analysis as a timeout. *)
Lemma analyze_timeout pre k cr post : ∀ a,
  CommandResult.success cr = false →
  critical_violation (CommandResult.stderr cr) = false →
  CommandResult.timeout cr = true →
  Forall (fun item => fails_critically (snd item) = false) pre →
  QualityResult.failed_fast (result a) = false →
  QualityResult.failure_reason (result (analyze (pre ++ (k, cr) :: post) a))
    = Some "timeout"
  ∧ QualityResult.failed_fast (result (analyze (pre ++ (k, cr) :: post) a))
    = false
  ∧ nonempty (failed (analyze (pre ++ (k, cr) :: post) a)) = true.
Proof.
  intros a Hfail Hcrit Htime Hpre. revert a.
  induction Hpre as [|[k' cr'] pre Hitem _ IH]; intros a Hff; simpl.
  - rewrite Hfail, Hcrit, Htime. simpl. repeat split; [exact Hff|].
    apply nonempty_snoc.
  - unfold fails_critically in Hitem. simpl in Hitem.
    destruct (CommandResult.success cr'); [apply IH, Hff|].
    simpl in Hitem. rewrite Hitem.
    destruct (CommandResult.timeout cr');
      [simpl; repeat split; [exact Hff|apply nonempty_snoc]|].
    apply IH, Hff.
Qed.
End Analysis.

(** ** Quality gates: [execute_tier] *)

Section ExecuteTier.
Import QualityGatesAction Vocabulary.

Variable self_timeouts : dict Z.
Variable w : World.
Variable tier : string.
Variable timeout : option Z.
Variable timeouts_override : option (dict Z).

Hypothesis setup_returns : setup_fault w = None.

Local Abbreviation t :=
  (tier_timeout self_timeouts timeout timeouts_override).
Local Abbreviation commands := (tier_commands w tier).

(** An exception of the set-up leaves [execute_tier] before anything
    runs, also in a dry run. *)
Lemma execute_tier_raises parallel dry_run e :
  setup_fault w = Some e →
  execute_tier self_timeouts w tier timeout parallel timeouts_override dry_run
  = (Raised e, []).
Proof. intros H. unfold execute_tier. rewrite H. reflexivity. Qed.

Lemma execute_tier_unfold parallel :
  execute_tier self_timeouts w tier timeout parallel timeouts_override false
  = match try_body w tier parallel commands t (initial_result w tier t) with
    | (r, None, log) => (Returned r, log)
    | (r, Some TimeoutExpired, log) =>
        (Returned
           (QualityResult.set_error_details
              (Some ("Overall execution timed out after "
                     +:+ pretty t +:+ " seconds"))
              (QualityResult.set_failure_reason (Some "timeout")
                 (QualityResult.set_success false r))), log)
    | (r, Some (Error msg), log) =>
        (Returned
           (QualityResult.set_error_details (Some msg)
              (QualityResult.set_failure_reason (Some "execution_error")
                 (QualityResult.set_success false r))), log)
    end.
Proof.
  unfold execute_tier. rewrite setup_returns.
  destruct (_get_tier_commands_names tier (detect_package_manager w))
    as (-> & _ & _).
  reflexivity.
Qed.

(** The run of a tier some of whose analysed checks failed. *)
Lemma execute_tier_failed parallel items log :
  execute_commands w parallel commands t = (Returned items, log) →
  nonempty (failed (analyze items (analysis_start (initial_result w tier t))))
    = true →
  ∃ r,
    execute_tier self_timeouts w tier timeout parallel timeouts_override false
      = (Returned r, log)
    ∧ QualityResult.success r = false
    ∧ QualityResult.failure_reason r
      = QualityResult.failure_reason
          (result (analyze items (analysis_start (initial_result w tier t))))
    ∧ QualityResult.failed_fast r
      = QualityResult.failed_fast
          (result (analyze items (analysis_start (initial_result w tier t))))
    ∧ QualityResult.failed_checks r
      = failed (analyze items (analysis_start (initial_result w tier t)))
    ∧ QualityResult.successful_checks r
      = successful (analyze items (analysis_start (initial_result w tier t)))
    ∧ QualityResult.executed_checks r = tier_checks tier.
Proof.
  intros Hrun Hfailed. rewrite execute_tier_unfold. unfold try_body.
  rewrite Hrun. fold (analysis_start (initial_result w tier t)).
  set (a := analyze items (analysis_start (initial_result w tier t))) in *.
  rewrite Hfailed. cbn [negb].
  rewrite andb_false_r.
  eexists. split; [reflexivity|].
  repeat split;
    destruct (truthy (QualityResult.error_details (result a))); simpl;
    try reflexivity; unfold a; apply analyze_executed_checks.
Qed.
End ExecuteTier.

(** With the valid file [tool = 1] as [pyproject.toml] nothing runs and
    no result is returned, in a dry run as in a real one. *)
Lemma execute_tier_raises_on_malformed_pyproject parallel dry_run :
  QualityGatesAction.execute_tier QualityGatesAction.default_timeouts
    Vocabulary.malformed_pyproject_world "essential" None parallel None dry_run
  = (QualityGatesAction.Raised
       (QualityGatesAction.Error "argument of type 'int' is not iterable"),
     []).
Proof. apply execute_tier_raises. reflexivity. Qed.

(** ** The timeout message carries no zero-tolerance signature *)

Section TimeoutMessage.
Import QualityGatesAction Vocabulary.

Lemma prefix_first_char a n s :
  String.prefix (String a n) s = true → a ∈ list_ascii_of_string s.
Proof.
  destruct s as [|b s]; simpl; [discriminate|].
  destruct (ascii_dec a b) as [->|]; [|discriminate].
  intros _. apply list_elem_of_here.
Qed.

Lemma contains_first_char a n s :
  contains (String a n) s = true → a ∈ list_ascii_of_string s.
Proof.
  induction s as [|b s IH].
  - simpl. discriminate.
  - cbn [contains]. intros H. apply orb_true_iff in H as [H|H].
    + apply prefix_first_char in H. exact H.
    + simpl. apply list_elem_of_further, IH, H.
Qed.

Lemma list_ascii_of_string_app s1 s2 :
  list_ascii_of_string (s1 +:+ s2)
  = list_ascii_of_string s1 ++ list_ascii_of_string s2.
Proof. induction s1 as [|a s1 IH]; simpl; [reflexivity|]. f_equal. exact IH. Qed.

Lemma pretty_N_char_numeral x : pretty_N_char x ∈ numeral_chars.
Proof.
  unfold pretty_N_char, numeral_chars.
  repeat case_match; set_solver.
Qed.

Lemma pretty_N_go_chars x : ∀ s c,
  c ∈ list_ascii_of_string (pretty_N_go x s) →
  c ∈ list_ascii_of_string s ∨ c ∈ numeral_chars.
Proof.
  induction (N.lt_wf_0 x) as [x _ IH]; intros s c Hc.
  destruct (decide (x = 0)%N) as [->|Hx].
  - rewrite pretty_N_go_0 in Hc. auto.
  - rewrite pretty_N_go_step in Hc by lia.
    apply IH in Hc; [|apply N.div_lt; lia].
    destruct Hc as [Hc|Hc]; [|auto].
    simpl in Hc. apply elem_of_cons in Hc as [->|Hc]; [|auto].
    right. apply pretty_N_char_numeral.
Qed.

Lemma pretty_N_chars (x : N) c :
  c ∈ list_ascii_of_string (pretty x) → c ∈ numeral_chars.
Proof.
  unfold pretty, pretty_N. case_decide as Hx.
  - simpl. intros Hc. apply list_elem_of_singleton in Hc. subst c.
    unfold numeral_chars. set_solver.
  - intros Hc. apply pretty_N_go_chars in Hc as [Hc|Hc];
      [inversion Hc|exact Hc].
Qed.

Lemma pretty_Z_chars (z : Z) c :
  c ∈ list_ascii_of_string (pretty z) → c ∈ numeral_chars.
Proof.
  unfold pretty, pretty_Z. destruct z as [|p|p].
  - simpl. intros H. apply list_elem_of_singleton in H. subst.
    unfold numeral_chars. set_solver.
  - apply (pretty_N_chars (Npos p)).
  - rewrite list_ascii_of_string_app. simpl. intros H.
    apply elem_of_cons in H as [->|H].
    + unfold numeral_chars. set_solver.
    + apply (pretty_N_chars (Npos p)), H.
Qed.

Lemma timeout_message_chars (z : Z) c :
  c ∈ list_ascii_of_string
        ("Command timed out after " +:+ pretty z +:+ " seconds") →
  c ∈ list_ascii_of_string "Command timed out after  seconds"
  ∨ c ∈ numeral_chars.
Proof.
  rewrite !list_ascii_of_string_app. intros H.
  apply elem_of_app in H as [H|H].
  - left. simpl in *. set_solver.
  - apply elem_of_app in H as [H|H].
    + right. apply pretty_Z_chars in H. exact H.
    + left. simpl in *. set_solver.
Qed.

Lemma timeout_message_not_critical (z : Z) :
  critical_violation ("Command timed out after " +:+ pretty z +:+ " seconds")
  = false.
Proof.
  unfold critical_violation.
  apply orb_false_iff. split.
  - destruct (contains "F821" _) eqn:E; [|reflexivity]. exfalso.
    apply contains_first_char, timeout_message_chars in E.
    destruct E as [E|E]; simpl in E; unfold numeral_chars in E;
      set_solver.
  - destruct (contains "E9" _) eqn:E; [|reflexivity]. exfalso.
    apply contains_first_char, timeout_message_chars in E.
    destruct E as [E|E]; simpl in E; unfold numeral_chars in E;
      set_solver.
Qed.

Lemma result_of_timed_out w timeout cmd :
  run w cmd = TimedOut →
  CommandResult.success (result_of w timeout cmd) = false
  ∧ critical_violation (CommandResult.stderr (result_of w timeout cmd)) = false
  ∧ CommandResult.timeout (result_of w timeout cmd) = true.
Proof.
  intros H. unfold result_of, _execute_command. rewrite H. cbn [fst].
  cbn [CommandResult.success CommandResult.stderr CommandResult.timeout].
  repeat split. apply timeout_message_not_critical.
Qed.
End TimeoutMessage.

(** ** Quality gates: failures always show in [failed_checks] *)

Section Failures.
Import QualityGatesAction Vocabulary.

Lemma analyze_failed_grows items : ∀ a,
  nonempty (failed a) = true → nonempty (failed (analyze items a)) = true.
Proof.
  induction items as [|[k cr] items IH]; intros a Ha; simpl; [exact Ha|].
  destruct (CommandResult.success cr); [apply IH, Ha|].
  destruct (critical_violation _); [apply nonempty_snoc|].
  destruct (CommandResult.timeout cr); [apply nonempty_snoc|].
  apply IH, nonempty_snoc.
Qed.

Lemma analyze_some_failure items : ∀ a item,
  item ∈ items → CommandResult.success (snd item) = false →
  nonempty (failed (analyze items a)) = true.
Proof.
  induction items as [|[k cr] items IH]; intros a item Hin Hfail;
    [inversion Hin|].
  simpl. destruct (CommandResult.success cr) eqn:Hcr.
  - apply elem_of_cons in Hin as [->|Hin]; [simpl in Hfail; congruence|].
    eapply IH; eauto.
  - destruct (critical_violation _); [apply nonempty_snoc|].
    destruct (CommandResult.timeout cr); [apply nonempty_snoc|].
    apply analyze_failed_grows, nonempty_snoc.
Qed.



End Failures.

(** ** Quality gates: the return paths of [execute_tier] *)

Section ReturnPaths.
Import QualityGatesAction Vocabulary.


End ReturnPaths.

Lemma later_check_absent (pre : list string) c post d :
  NoDup (List.map Vocabulary.check_of (pre ++ c :: post)) →
  d ∈ post →
  Vocabulary.check_of d ∉ List.map Vocabulary.check_of (pre ++ [c]).
Proof.
  intros Hnodup Hd Hin.
  replace (pre ++ c :: post) with ((pre ++ [c]) ++ post) in Hnodup
    by (rewrite <- app_assoc; reflexivity).
  rewrite List.map_app in Hnodup.
  apply NoDup_app in Hnodup as (_ & Hdisjoint & _).
  apply (Hdisjoint _ Hin).
  apply list_elem_of_In, List.in_map, list_elem_of_In, Hd.
Qed.

Lemma dict_keys_entries w timeout (commands : list string) :
  dict_keys (List.map (Vocabulary.entry w timeout) commands)
  = List.map Vocabulary.check_of commands.
Proof. unfold dict_keys. rewrite List.map_map. reflexivity. Qed.

(** ** C1: sequential fail-fast *)

(** The claim fails as stated: with tier "essential", sequential mode
    and a lint command whose stderr carries "F821", typecheck is never
    run, yet executed_checks still lists it. *)
Lemma C1_counterexample_executed_checks_lists_unrun_check :
  ∃ r log,
    QualityGatesAction.execute_tier QualityGatesAction.default_timeouts
      Vocabulary.lint_violation_world "essential" None false None false
    = (QualityGatesAction.Returned r, log)
    ∧ log = ["python -m test"; "python -m lint"]
    ∧ ("python -m typecheck" ∉ log)
    ∧ QualityResult.executed_checks r = ["test"; "lint"; "typecheck"]
    ∧ "typecheck" ∈ QualityResult.executed_checks r.
Proof.
  eexists _, _. split; [vm_compute; reflexivity|].
  split; [reflexivity|]. split; [set_solver|].
  split; [reflexivity|]. set_solver.
Qed.

(** C1 (amended): in a sequential run that gets to its commands (the
    set-up before the [try] statement does not raise) and in which some
    check fails with a zero-tolerance signature ("F821" or
    "E9") in its stderr, execution halts there: the commands run are
    exactly those of the tier's list up to and including the first such
    check, none of the later ones is run, and the later checks are absent
    from successful_checks and failed_checks.  executed_checks lists every
    check of the tier, run or not. *)
Theorem C1_sequential_halts_on_critical_violation
    (self_timeouts : dict Z) (w : QualityGatesAction.World) (tier : string)
    (timeout : option Z) (timeouts_override : option (dict Z))
    (pre : list string) (c : string) (post : list string) :
  QualityGatesAction.setup_fault w = None →
  Vocabulary.tier_commands w tier = pre ++ c :: post →
  Forall (fun cmd =>
            Vocabulary.fails_critically
              (Vocabulary.result_of w
                 (Vocabulary.tier_timeout self_timeouts timeout timeouts_override)
                 cmd) = false) pre →
  Vocabulary.fails_critically
    (Vocabulary.result_of w
       (Vocabulary.tier_timeout self_timeouts timeout timeouts_override) c)
  = true →
  ∃ r log,
    QualityGatesAction.execute_tier self_timeouts w tier timeout false
      timeouts_override false
    = (QualityGatesAction.Returned r, log)
    ∧ log = (pre ++ [c])
    ∧ (∀ d, d ∈ post → d ∉ log)
    ∧ (∀ d, d ∈ post →
         (Vocabulary.check_of d ∉ QualityResult.successful_checks r)
         ∧ (Vocabulary.check_of d ∉ QualityResult.failed_checks r))
    ∧ QualityResult.executed_checks r
      = List.map Vocabulary.check_of (pre ++ c :: post).
Proof.
  intros Hsetup Hcmds Hpre Hc.
  set (t := Vocabulary.tier_timeout self_timeouts timeout timeouts_override) in *.
  destruct (_get_tier_commands_names tier
              (QualityGatesAction.detect_package_manager w))
    as (_ & Hmap & Hnamed).
  fold (Vocabulary.tier_commands w tier) in Hmap, Hnamed.
  pose proof (tier_checks_NoDup tier) as Hnodup. rewrite <- Hmap in Hnodup.
  assert (Hrun :
    QualityGatesAction.execute_commands w false (Vocabulary.tier_commands w tier) t
    = (QualityGatesAction.Returned
         (List.map (Vocabulary.entry w t) (pre ++ [c])), pre ++ [c])).
  { unfold QualityGatesAction.execute_commands,
      QualityGatesAction._execute_commands_sequential.
    rewrite sequential_loop_spec; [|exact Hnamed|exact Hnodup|].
    - rewrite Hcmds, executed_prefix_halt by assumption. reflexivity.
    - intros cmd _ Hin. inversion Hin. }
  destruct (execute_tier_failed self_timeouts w tier timeout timeouts_override
              Hsetup false _ _ Hrun)
    as (r & Hr & _ & _ & _ & Hfailed & Hsuccessful & Hexec).
  { apply analyze_some_failure with (item := Vocabulary.entry w t c).
    - apply list_elem_of_In, List.in_map, list_elem_of_In. set_solver.
    - unfold Vocabulary.fails_critically in Hc. simpl.
      apply andb_true_iff in Hc as [Hc _].
      apply negb_true_iff in Hc. exact Hc. }
  rewrite Hcmds in Hnodup, Hmap.
  exists r, (pre ++ [c]). split; [exact Hr|]. split; [reflexivity|].
  assert (Habsent : ∀ d n,
    d ∈ post →
    n ∈ QualityResult.failed_checks r ++ QualityResult.successful_checks r →
    n ≠ Vocabulary.check_of d).
  { intros d n Hd Hn ->. rewrite Hfailed, Hsuccessful in Hn.
    apply analyze_names in Hn as [Hn|Hn]; [simpl in Hn; inversion Hn|].
    rewrite dict_keys_entries in Hn.
    exact (later_check_absent _ _ _ _ Hnodup Hd Hn). }
  split; [|split].
  - intros d Hd Hin.
    apply (later_check_absent _ _ _ _ Hnodup Hd).
    apply list_elem_of_In, List.in_map, list_elem_of_In, Hin.
  - intros d Hd. split; intros Hin;
      apply (Habsent d (Vocabulary.check_of d) Hd);
      first [reflexivity | set_solver].
  - rewrite Hexec, Hmap. reflexivity.
Qed.

(** The essential tier of a pip project whose lint command reports F821. *)
Lemma C1_witness :
  ∃ r log,
    QualityGatesAction.execute_tier QualityGatesAction.default_timeouts
      Vocabulary.lint_violation_world "essential" None false None false
    = (QualityGatesAction.Returned r, log)
    ∧ log = (["python -m test"] ++ ["python -m lint"])
    ∧ (∀ d, d ∈ ["python -m typecheck"] → d ∉ log)
    ∧ (∀ d, d ∈ ["python -m typecheck"] →
         (Vocabulary.check_of d ∉ QualityResult.successful_checks r)
         ∧ (Vocabulary.check_of d ∉ QualityResult.failed_checks r))
    ∧ QualityResult.executed_checks r
      = List.map Vocabulary.check_of
          (["python -m test"] ++ "python -m lint" :: ["python -m typecheck"]).
Proof.
  apply (C1_sequential_halts_on_critical_violation
           QualityGatesAction.default_timeouts Vocabulary.lint_violation_world
           "essential" None None ["python -m test"] "python -m lint"
           ["python -m typecheck"]).
  - reflexivity.
  - vm_compute. reflexivity.
  - repeat constructor.
  - vm_compute. reflexivity.
Defined.

(** ** C5: the failure reason of a critical violation *)




(** ** C6: timeouts in sequential mode *)

(** The claim fails as stated: when the first command of the essential
    tier times out in sequential mode, the two commands after it are still
    executed. *)
Lemma C6_counterexample_commands_after_timeout_run :
  ∃ r log,
    QualityGatesAction.execute_tier QualityGatesAction.default_timeouts
      Vocabulary.test_timeout_world "essential" (Some 1%Z) false None false
    = (QualityGatesAction.Returned r, log)
    ∧ QualityGatesAction.run Vocabulary.test_timeout_world "python -m test"
      = QualityGatesAction.TimedOut
    ∧ log = ["python -m test"; "python -m lint"; "python -m typecheck"]
    ∧ "python -m lint" ∈ log
    ∧ "python -m typecheck" ∈ log
    ∧ QualityResult.failure_reason r = Some "timeout"
    ∧ QualityResult.success r = false.
Proof.
  eexists _, _. split; [vm_compute; reflexivity|].
  split; [reflexivity|]. split; [reflexivity|].
  split; [set_solver|]. split; [set_solver|].
  split; reflexivity.
Qed.

(** C6 (amended): in a sequential run that gets to its commands (the
    set-up before the [try] statement does not raise) and in which some
    command times out, the result has failure_reason="timeout",
    success=false and failed_fast=false.  The timeout ends the analysis of the results, not
    the execution: the commands after the timed-out one are run as usual,
    up to and including the first one that fails with a zero-tolerance
    signature, so the command right after the timed-out one is always
    run. *)
Theorem C6_sequential_timeout
    (self_timeouts : dict Z) (w : QualityGatesAction.World) (tier : string)
    (timeout : option Z) (timeouts_override : option (dict Z))
    (pre : list string) (c : string) (post : list string) :
  QualityGatesAction.setup_fault w = None →
  Vocabulary.tier_commands w tier = pre ++ c :: post →
  Forall (fun cmd =>
            Vocabulary.fails_critically
              (Vocabulary.result_of w
                 (Vocabulary.tier_timeout self_timeouts timeout timeouts_override)
                 cmd) = false) pre →
  QualityGatesAction.run w c = QualityGatesAction.TimedOut →
  ∃ r log,
    QualityGatesAction.execute_tier self_timeouts w tier timeout false
      timeouts_override false
    = (QualityGatesAction.Returned r, log)
    ∧ QualityResult.failure_reason r = Some "timeout"
    ∧ QualityResult.success r = false
    ∧ QualityResult.failed_fast r = false
    ∧ log = (pre ++ c
             :: Vocabulary.executed_prefix w
                  (Vocabulary.tier_timeout self_timeouts timeout
                     timeouts_override)
                  post)
    ∧ (∀ d post', post = d :: post' → d ∈ log).
Proof.
  intros Hsetup Hcmds Hpre Hc.
  set (t := Vocabulary.tier_timeout self_timeouts timeout timeouts_override) in *.
  destruct (_get_tier_commands_names tier
              (QualityGatesAction.detect_package_manager w))
    as (_ & Hmap & Hnamed).
  fold (Vocabulary.tier_commands w tier) in Hmap, Hnamed.
  pose proof (tier_checks_NoDup tier) as Hnodup. rewrite <- Hmap in Hnodup.
  destruct (result_of_timed_out w t c Hc) as (Hfail & Hcrit & Htime).
  assert (Hcont : Vocabulary.fails_critically (Vocabulary.result_of w t c) = false).
  { unfold Vocabulary.fails_critically. rewrite Hcrit. apply andb_false_r. }
  assert (Hrun :
    QualityGatesAction.execute_commands w false (Vocabulary.tier_commands w tier) t
    = (QualityGatesAction.Returned
         (List.map (Vocabulary.entry w t) pre
          ++ (Vocabulary.check_of c, Vocabulary.result_of w t c)
             :: List.map (Vocabulary.entry w t)
                  (Vocabulary.executed_prefix w t post)),
       pre ++ c :: Vocabulary.executed_prefix w t post)).
  { unfold QualityGatesAction.execute_commands,
      QualityGatesAction._execute_commands_sequential.
    rewrite sequential_loop_spec; [|exact Hnamed|exact Hnodup|].
    - rewrite Hcmds, executed_prefix_continue by assumption.
      rewrite List.map_app. reflexivity.
    - intros cmd _ Hin. inversion Hin. }
  destruct (analyze_timeout (List.map (Vocabulary.entry w t) pre)
              (Vocabulary.check_of c) (Vocabulary.result_of w t c)
              (List.map (Vocabulary.entry w t)
                 (Vocabulary.executed_prefix w t post))
              (Vocabulary.analysis_start (Vocabulary.initial_result w tier t))
              Hfail Hcrit Htime)
    as (Hreason & Hff & Hne).
  { apply Forall_forall. intros item Hin.
    apply list_elem_of_In, List.in_map_iff in Hin as (cmd & <- & Hin).
    apply list_elem_of_In in Hin.
    exact (proj1 (Forall_forall _ _) Hpre cmd Hin). }
  { reflexivity. }
  destruct (execute_tier_failed self_timeouts w tier timeout timeouts_override
              Hsetup false _ _ Hrun Hne)
    as (r & Hr & Hsuccess & Hreason' & Hff' & _).
  exists r, (pre ++ c :: Vocabulary.executed_prefix w t post).
  split; [exact Hr|].
  split; [rewrite Hreason'; exact Hreason|].
  split; [exact Hsuccess|].
  split; [rewrite Hff'; exact Hff|].
  split; [reflexivity|].
  intros d post' ->. cbn [Vocabulary.executed_prefix].
  apply elem_of_app. right. apply list_elem_of_further.
  destruct (Vocabulary.fails_critically (Vocabulary.result_of w t d));
    apply list_elem_of_here.
Qed.

(** The essential tier of a pip project whose test command times out. *)
Lemma C6_witness :
  ∃ r log,
    QualityGatesAction.execute_tier QualityGatesAction.default_timeouts
      Vocabulary.test_timeout_world "essential" (Some 1%Z) false None false
    = (QualityGatesAction.Returned r, log)
    ∧ QualityResult.failure_reason r = Some "timeout"
    ∧ QualityResult.success r = false
    ∧ QualityResult.failed_fast r = false
    ∧ log = ([] ++ "python -m test"
             :: Vocabulary.executed_prefix Vocabulary.test_timeout_world
                  (Vocabulary.tier_timeout QualityGatesAction.default_timeouts
                     (Some 1%Z) None)
                  ["python -m lint"; "python -m typecheck"])
    ∧ (∀ d post',
         ["python -m lint"; "python -m typecheck"] = d :: post' → d ∈ log).
Proof.
  apply (C6_sequential_timeout
           QualityGatesAction.default_timeouts Vocabulary.test_timeout_world
           "essential" (Some 1%Z) None [] "python -m test"
           ["python -m lint"; "python -m typecheck"]).
  - reflexivity.
  - vm_compute. reflexivity.
  - constructor.
  - vm_compute. reflexivity.
Defined.

(** ** C9: partial success *)



(** ** C2: success and failed_checks *)



(* ===================================================================== *)
(** * Further properties of the code                                      *)
(* ===================================================================== *)

(** ** The blast radius is exactly the reverse-dependency closure *)

Section BlastRadius.
Import DependencyAnalyzer Statements.

Variable g : graph.

Lemma add_dependents_queue ds : ∀ aff q aff' q' x,
  add_dependents ds aff q = (aff', q') → x ∈ q' → x ∈ q ∨ x ∈ ds.
Proof.
  unfold add_dependents.
  induction ds as [|d ds IH]; intros aff q aff' q' x; simpl.
  - intros [= <- <-]. auto.
  - destruct (decide (d ∈ aff)); intros H Hx;
      destruct (IH _ _ _ _ _ H Hx) as [Hq|Hds].
    + auto.
    + right. apply list_elem_of_further, Hds.
    + apply elem_of_app in Hq as [Hq|Hq]; [auto|].
      apply list_elem_of_singleton in Hq. subst. right. apply list_elem_of_here.
    + right. apply list_elem_of_further, Hds.
Qed.

(** The traversal never leaves a set that holds the seeds and is closed
    under [imported_by]. *)
Lemma traverse_within (P : string → Prop) fuel :
  (∀ x node d, P x → g !! x = Some node → d ∈ imported_by node → P d) →
  ∀ st r,
    traverse fuel g st = Some r →
    (∀ x, x ∈ affected st → P x) →
    (∀ x, x ∈ queue st → x ∈ affected st) →
    ∀ x, x ∈ r → P x.
Proof.
  intros Hstep.
  induction fuel as [|fuel IH]; intros [aff q vis] r; simpl; [discriminate|].
  destruct q as [|current rest].
  - intros [= <-] Haff _. exact Haff.
  - destruct (decide (current ∈ vis)) as [Hvis|Hnew].
    + intros Hrun Haff Hq. apply (IH _ _ Hrun); simpl; [exact Haff|].
      intros x Hx. apply Hq, list_elem_of_further, Hx.
    + destruct (g !! current) as [node|] eqn:Hnode.
      * destruct (add_dependents _ aff rest) as [aff' q'] eqn:Hadd.
        intros Hrun Haff Hq. simpl in *.
        destruct (add_dependents_spec _ _ _ _ _ Hadd) as (Haff' & _ & _ & _).
        apply (IH _ _ Hrun); simpl.
        -- intros x Hx. rewrite Haff' in Hx.
           apply elem_of_union in Hx as [Hx|Hx]; [auto|].
           apply elem_of_list_to_set, elem_of_elements in Hx.
           apply (Hstep current node x); [|exact Hnode|exact Hx].
           apply Haff, Hq, list_elem_of_here.
        -- intros x Hx.
           destruct (add_dependents_queue _ _ _ _ _ _ Hadd Hx) as [Hx'|Hx'].
           ++ rewrite Haff'. apply elem_of_union_l, Hq,
                list_elem_of_further, Hx'.
           ++ rewrite Haff'. apply elem_of_union_r, elem_of_list_to_set, Hx'.
      * intros Hrun Haff Hq. apply (IH _ _ Hrun); simpl; [exact Haff|].
        intros x Hx. apply Hq, list_elem_of_further, Hx.
Qed.

Lemma affected_modules_exact changed :
  ∃ r, affected_modules g changed = Some r
       ∧ ∀ x, x ∈ r ↔ impacted g changed x.
Proof.
  unfold affected_modules.
  destruct (get_affected_modules_terminates g changed 0) as [r Hr].
  rewrite Nat.add_0_r in Hr. exists r. split; [exact Hr|].
  destruct (get_affected_modules_sound g _ _ _ Hr) as [Hseed Hclosed].
  intros x. split.
  - revert x. unfold get_affected_modules in Hr.
    apply (traverse_within (impacted g changed) _
             (impacted_dependent g changed) _ _ Hr); simpl.
    + intros x Hx. apply direct_changes_spec in Hx as [Hin Hsome].
      apply impacted_changed; assumption.
    + intros x Hx. apply elem_of_elements, Hx.
  - induction 1 as [file Hin Hsome|x node d _ IH Hnode Hd].
    + apply Hseed; [exact Hin|apply elem_of_dom, Hsome].
    + exact (Hclosed x node d IH Hnode Hd).
Qed.

Lemma impacted_mono changed changed' x :
  (∀ f, f ∈ changed → f ∈ changed') →
  impacted g changed x → impacted g changed' x.
Proof.
  intros Hsub. induction 1 as [file Hin Hsome|y node d _ IH Hnode Hd].
  - apply impacted_changed; auto.
  - eapply impacted_dependent; eauto.
Qed.
End BlastRadius.

(** X1: the set [get_affected_modules] returns is exactly the transitive
    closure: a path is in it if and only if it is a changed file that is a
    node of the graph, or is reached from one by following [imported_by]
    sets.  Nothing else is ever reported. *)
Theorem X1_affected_modules_is_reverse_closure
    (g : DependencyAnalyzer.graph) (changed_files : list string) :
  ∃ r,
    DependencyAnalyzer.get_affected_modules
      (S (size (DependencyAnalyzer.graph_universe g))) g changed_files = Some r
    ∧ ∀ x, x ∈ r ↔ Statements.impacted g changed_files x.
Proof. apply affected_modules_exact. Qed.

(** X2: the blast radius grows with the change set: if every file of one
    change list is in another, then every module affected by the first is
    affected by the second. *)
Theorem X2_affected_modules_monotone
    (g : DependencyAnalyzer.graph) (changed changed' : list string)
    (r r' : gset string) :
  (∀ f, f ∈ changed → f ∈ changed') →
  Statements.affected_modules g changed = Some r →
  Statements.affected_modules g changed' = Some r' →
  r ⊆ r'.
Proof.
  intros Hsub Hr Hr'.
  destruct (affected_modules_exact g changed) as (r0 & Hr0 & Hiff).
  destruct (affected_modules_exact g changed') as (r0' & Hr0' & Hiff').
  rewrite Hr in Hr0. injection Hr0 as <-.
  rewrite Hr' in Hr0'. injection Hr0' as <-.
  intros x Hx. apply Hiff', (impacted_mono g changed changed' x Hsub), Hiff, Hx.
Qed.

(** One more changed file on the three-file cycle. *)
Lemma X2_witness :
  (∀ f, f ∈ ["a.py"] → f ∈ ["a.py"; "zz.py"])
  ∧ ({["a.py"; "b.py"; "c.py"]} : gset string) ⊆ {["a.py"; "b.py"; "c.py"]}.
Proof.
  assert (Hsub : ∀ f : string, f ∈ ["a.py"] → f ∈ ["a.py"; "zz.py"]).
  { intros f Hf. apply list_elem_of_singleton in Hf. subst.
    apply list_elem_of_here. }
  split; [exact Hsub|].
  apply (X2_affected_modules_monotone Vocabulary.cycle_graph
           ["a.py"] ["a.py"; "zz.py"] _ _ Hsub);
    vm_compute; reflexivity.
Defined.

(** X3: changed files that are not nodes of the graph are ignored: when no
    changed file is a node, nothing is affected. *)
Theorem X3_unknown_files_affect_nothing
    (g : DependencyAnalyzer.graph) (changed_files : list string) :
  (∀ f, f ∈ changed_files → g !! f = None) →
  DependencyAnalyzer.get_affected_modules
    (S (size (DependencyAnalyzer.graph_universe g))) g changed_files = Some ∅.
Proof.
  intros Hnone.
  destruct (affected_modules_exact g changed_files) as (r & Hr & Hiff).
  unfold Statements.affected_modules in Hr. rewrite Hr. f_equal.
  apply set_eq. intros x. rewrite Hiff. split; [|set_solver].
  induction 1 as [file Hin [n Hsome]|]; [|assumption].
  rewrite (Hnone _ Hin) in Hsome. discriminate.
Qed.

(** A documentation file changed next to the three-file cycle. *)
Lemma X3_witness :
  (∀ f, f ∈ ["README.md"] → Vocabulary.cycle_graph !! f = None)
  ∧ DependencyAnalyzer.get_affected_modules
      (S (size (DependencyAnalyzer.graph_universe Vocabulary.cycle_graph)))
      Vocabulary.cycle_graph ["README.md"] = Some ∅.
Proof.
  assert (H : ∀ f : string, f ∈ ["README.md"] → Vocabulary.cycle_graph !! f = None).
  { intros f Hf. apply list_elem_of_singleton in Hf. subst.
    vm_compute. reflexivity. }
  split; [exact H|].
  exact (X3_unknown_files_affect_nothing Vocabulary.cycle_graph ["README.md"] H).
Defined.

(** ** The reverse index and the test association are exact *)

Lemma foldl_accumulate {A B} (I : A → Prop) (M : A → Prop) (N : B → Prop)
    (f : A → B → A) (l : list B) :
  (∀ acc b, b ∈ l → I acc → I (f acc b)) →
  (∀ acc b, b ∈ l → I acc → (M (f acc b) ↔ M acc ∨ N b)) →
  ∀ acc, I acc →
    I (foldl f acc l) ∧ (M (foldl f acc l) ↔ M acc ∨ ∃ b, b ∈ l ∧ N b).
Proof.
  induction l as [|b l IH]; intros HI HM acc Hacc; simpl.
  - split; [exact Hacc|]. split; [auto|].
    intros [H|(b & Hb & _)]; [exact H|inversion Hb].
  - destruct (IH (fun acc b' Hb' => HI acc b' (list_elem_of_further _ _ _ Hb'))
                 (fun acc b' Hb' => HM acc b' (list_elem_of_further _ _ _ Hb'))
                 (f acc b) (HI acc b (list_elem_of_here _ _) Hacc))
      as [HI' HM'].
    split; [exact HI'|].
    rewrite HM', (HM acc b (list_elem_of_here _ _) Hacc).
    split.
    + intros [[H|H]|(b' & Hb' & H)]; [auto| |].
      * right. exists b. split; [apply list_elem_of_here|exact H].
      * right. exists b'. split; [apply list_elem_of_further, Hb'|exact H].
    + intros [H|(b' & Hb' & H)]; [auto|].
      apply elem_of_cons in Hb' as [->|Hb']; [auto|].
      right. exists b'. auto.
Qed.

Section GraphPasses.
Import DependencyAnalyzer Statements.

Lemma imported_by_at_add other file_path g k x :
  imported_by_at (add_imported_by other file_path g) k x
  ↔ imported_by_at g k x ∨ (k = other ∧ x = file_path ∧ is_Some (g !! other)).
Proof.
  unfold imported_by_at, add_imported_by. rewrite lookup_alter.
  case_decide as Heq.
  - subst k. destruct (g !! other) as [n0|] eqn:Hn0; simpl.
    + split.
      * intros (n & [= <-] & Hx). simpl in Hx.
        apply elem_of_union in Hx as [Hx|Hx].
        -- apply elem_of_singleton in Hx. right. eauto.
        -- left. eauto.
      * intros [(n & [= <-] & Hx)|(_ & -> & _)];
          eexists; (split; [reflexivity|]); simpl; set_solver.
    + split.
      * intros (n & Hn & _). discriminate.
      * intros [(n & Hn & _)|(_ & _ & [n Hn])]; discriminate.
  - split; [auto|]. intros [H|(Hk & _)]; [exact H|]. congruence.
Qed.

Lemma test_file_at_add module_file test_file g k x :
  test_file_at (add_test_file module_file test_file g) k x
  ↔ test_file_at g k x
    ∨ (k = module_file ∧ x = test_file ∧ is_Some (g !! module_file)).
Proof.
  unfold test_file_at, add_test_file. rewrite lookup_alter.
  case_decide as Heq.
  - subst k. destruct (g !! module_file) as [n0|] eqn:Hn0; simpl.
    + split.
      * intros (n & [= <-] & Hx). simpl in Hx.
        apply elem_of_union in Hx as [Hx|Hx].
        -- apply elem_of_singleton in Hx. right. eauto.
        -- left. eauto.
      * intros [(n & [= <-] & Hx)|(_ & -> & _)];
          eexists; (split; [reflexivity|]); simpl; set_solver.
    + split.
      * intros (n & Hn & _). discriminate.
      * intros [(n & Hn & _)|(_ & _ & [n Hn])]; discriminate.
  - split; [auto|]. intros [H|(Hk & _)]; [exact H|]. congruence.
Qed.

Lemma same_nodes_refl g : same_nodes g g.
Proof. intros p. split; reflexivity. Qed.

Lemma same_nodes_dom g g' p : same_nodes g g' → is_Some (g' !! p) ↔ is_Some (g !! p).
Proof.
  intros H. destruct (H p) as [Himp _].
  destruct (g' !! p), (g !! p); simpl in Himp; try discriminate;
    split; intros [? ?]; eauto; discriminate.
Qed.

Lemma same_nodes_add_imported_by g acc other file_path :
  same_nodes g acc → same_nodes g (add_imported_by other file_path acc).
Proof.
  intros H p. unfold add_imported_by. rewrite lookup_alter.
  case_decide as Heq; [|apply H]. subst p.
  destruct (H other) as [Hi Ht].
  destruct (acc !! other); simpl in *; auto.
Qed.

Lemma same_nodes_add_test_file g acc module_file test_file :
  same_nodes g acc → same_nodes g (add_test_file module_file test_file acc).
Proof.
  intros H p. unfold add_test_file. rewrite lookup_alter.
  case_decide as Heq; [|apply H]. subst p.
  destruct (H module_file) as [Hi Ht].
  destruct (acc !! module_file); simpl in *; auto.
Qed.

Lemma imported_by_at_add_test_file module_file test_file g k x :
  imported_by_at (add_test_file module_file test_file g) k x
  ↔ imported_by_at g k x.
Proof.
  unfold imported_by_at, add_test_file. rewrite lookup_alter.
  case_decide as Heq; [|reflexivity]. subst k.
  destruct (g !! module_file) as [n0|]; simpl.
  - split; intros (n & [= <-] & Hx); eexists; (split; [reflexivity|]); exact Hx.
  - split; intros (n & Hn & _); discriminate.
Qed.

(** The reverse pass adds [file_path] to the set of [k] exactly when an
    import of the node at [file_path] matches [k]. *)
Lemma _build_reverse_dependencies_exact g k x :
  same_nodes g (_build_reverse_dependencies g)
  ∧ (imported_by_at (_build_reverse_dependencies g) k x
     ↔ imported_by_at g k x ∨ (is_Some (g !! k) ∧ imports_module_of g x k)).
Proof.
  unfold _build_reverse_dependencies.
  destruct (foldl_accumulate (same_nodes g)
              (fun acc => imported_by_at acc k x)
              (fun b : string * DependencyNode =>
                 fst b = x ∧ is_Some (g !! k)
                 ∧ ∃ imp, imp ∈ imports (snd b)
                          ∧ _import_matches_file imp k = true)
              (fun acc '(file_path, node) =>
                 foldl (fun acc imported_module =>
                   foldl (fun acc other_file =>
                            if _import_matches_file imported_module other_file
                            then add_imported_by other_file file_path acc
                            else acc)
                         acc (map_to_list g).*1)
                   acc (elements (imports node)))
              (map_to_list g)) with (acc := g) as [Hsame Hiff].
  - intros acc [file_path node] _ Hacc.
    apply foldl_invariant; [exact Hacc|]. intros acc1 imp _ Hacc1.
    apply foldl_invariant; [exact Hacc1|]. intros acc2 other _ Hacc2.
    destruct (_import_matches_file imp other); [|exact Hacc2].
    apply same_nodes_add_imported_by, Hacc2.
  - intros acc [file_path node] _ Hacc. simpl.
    destruct (foldl_accumulate (same_nodes g)
                (fun acc => imported_by_at acc k x)
                (fun imp : string =>
                   file_path = x ∧ is_Some (g !! k)
                   ∧ _import_matches_file imp k = true)
                (fun acc imported_module =>
                   foldl (fun acc other_file =>
                            if _import_matches_file imported_module other_file
                            then add_imported_by other_file file_path acc
                            else acc)
                         acc (map_to_list g).*1)
                (elements (imports node))) with (acc := acc) as [_ Hmid].
    + intros acc1 imp _ Hacc1.
      apply foldl_invariant; [exact Hacc1|]. intros acc2 other _ Hacc2.
      destruct (_import_matches_file imp other); [|exact Hacc2].
      apply same_nodes_add_imported_by, Hacc2.
    + intros acc1 imp _ Hacc1.
      destruct (foldl_accumulate (same_nodes g)
                  (fun acc => imported_by_at acc k x)
                  (fun other : string =>
                     other = k ∧ file_path = x ∧ is_Some (g !! k)
                     ∧ _import_matches_file imp k = true)
                  (fun acc other_file =>
                     if _import_matches_file imp other_file
                     then add_imported_by other_file file_path acc
                     else acc)
                  ((map_to_list g).*1)) with (acc := acc1) as [_ Hin].
      * intros acc2 other _ Hacc2.
        destruct (_import_matches_file imp other); [|exact Hacc2].
        apply same_nodes_add_imported_by, Hacc2.
      * intros acc2 other _ Hacc2.
        destruct (_import_matches_file imp other) eqn:Hm.
        -- rewrite imported_by_at_add, (same_nodes_dom g acc2 other Hacc2).
           split; (intros [H|H]; [auto|right]).
           ++ destruct H as (-> & -> & Hsome). auto.
           ++ destruct H as (-> & -> & Hsome & _). auto.
        -- split; [auto|]. intros [H|(-> & _ & _ & H)]; [exact H|congruence].
      * exact Hacc1.
      * rewrite Hin. split; (intros [H|H]; [auto|right]).
        -- destruct H as (other & _ & _ & -> & Hsome & Hm). auto.
        -- destruct H as (-> & Hsome & Hm). exists k. split; [|auto].
           destruct Hsome as [n Hn]. apply list_elem_of_fmap.
           exists (k, n). split; [reflexivity|]. apply elem_of_map_to_list, Hn.
    + exact Hacc.
    + rewrite Hmid. split; (intros [H|H]; [auto|right]).
      * destruct H as (imp & Himp & -> & Hsome & Hm).
        apply elem_of_elements in Himp. simpl. eauto.
      * destruct H as (Hfst & Hsome & imp & Himp & Hm). simpl in *.
        exists imp. split; [apply elem_of_elements, Himp|auto].
  - apply same_nodes_refl.
  - split; [exact Hsame|]. rewrite Hiff.
    split; (intros [H|H]; [auto|right]).
    + destruct H as ([file_path node] & Hin & Hfst & Hsome & imp & Himp & Hm).
      simpl in *. subst file_path. apply elem_of_map_to_list in Hin.
      split; [exact Hsome|]. exists node, imp. auto.
    + destruct H as (Hsome & nx & imp & Hnx & Himp & Hm).
      exists (x, nx). split; [apply elem_of_map_to_list, Hnx|]. simpl. eauto.
Qed.
End GraphPasses.

Section GraphBuild.
Import DependencyAnalyzer Statements.

Lemma same_nodes_trans g1 g2 g3 :
  same_nodes g1 g2 → same_nodes g2 g3 → same_nodes g1 g3.
Proof.
  intros H12 H23 p. destruct (H12 p) as [? ?], (H23 p) as [? ?].
  split; congruence.
Qed.

Lemma same_nodes_imports g g' p n' :
  same_nodes g g' → g' !! p = Some n' →
  ∃ n, g !! p = Some n ∧ imports n = imports n' ∧ is_test n = is_test n'.
Proof.
  intros H Hn'. destruct (H p) as [Hi Ht]. rewrite Hn' in Hi, Ht.
  destruct (g !! p) as [n|]; simpl in *; [|discriminate].
  exists n. split; [reflexivity|]. split; congruence.
Qed.

Lemma same_nodes_sym_lookup g g' p n :
  same_nodes g g' → g !! p = Some n →
  ∃ n', g' !! p = Some n' ∧ imports n' = imports n ∧ is_test n' = is_test n.
Proof.
  intros H Hn. destruct (H p) as [Hi Ht]. rewrite Hn in Hi, Ht.
  destruct (g' !! p) as [n'|]; simpl in *; [|discriminate].
  exists n'. split; [reflexivity|]. split; congruence.
Qed.

(** The association pass adds test [x] to the node at [k] exactly when
    [x] tests [k], and changes nothing else. *)
Lemma _associate_test_files_exact g k x :
  same_nodes g (_associate_test_files g)
  ∧ (∀ k' x', imported_by_at (_associate_test_files g) k' x'
              ↔ imported_by_at g k' x')
  ∧ (test_file_at (_associate_test_files g) k x
     ↔ test_file_at g k x ∨ tests_module g x k).
Proof.
  unfold _associate_test_files.
  set (inner := fun (test_file : string) (test_node : DependencyNode) acc =>
         foldl (fun acc '(module_file, module_node) =>
                  if is_test module_node then acc
                  else if bool_decide (module_file ∈ imports test_node)
                          || _test_matches_module test_file module_file
                  then add_test_file module_file test_file acc
                  else acc)
               acc (map_to_list g)).
  set (I := fun acc : graph =>
         same_nodes g acc
         ∧ ∀ k' x', imported_by_at acc k' x' ↔ imported_by_at g k' x').
  assert (Hinner_I : ∀ test_file test_node acc,
            I acc → I (inner test_file test_node acc)).
  { intros test_file test_node acc Hacc. unfold inner.
    apply foldl_invariant; [exact Hacc|].
    intros acc1 [module_file module_node] _ [Hs Hib].
    destruct (is_test module_node); [split; assumption|].
    destruct (_ || _); [|split; assumption].
    split; [apply same_nodes_add_test_file, Hs|].
    intros k' x'. rewrite imported_by_at_add_test_file. apply Hib. }
  destruct (foldl_accumulate I
              (fun acc => test_file_at acc k x)
              (fun b : string * DependencyNode =>
                 fst b = x ∧ is_test (snd b) = true
                 ∧ ∃ nk, g !! k = Some nk ∧ is_test nk = false
                         ∧ (k ∈ imports (snd b)
                            ∨ _test_matches_module x k = true))
              (fun acc '(test_file, test_node) =>
                 if negb (is_test test_node) then acc
                 else inner test_file test_node acc)
              (map_to_list g)) with (acc := g) as [[Hsame Hib] Hiff].
  - intros acc [test_file test_node] _ Hacc.
    destruct (negb (is_test test_node)); [exact Hacc|]. apply Hinner_I, Hacc.
  - intros acc [test_file test_node] _ Hacc. simpl.
    destruct (is_test test_node) eqn:Htest; simpl.
    + unfold inner.
      destruct (foldl_accumulate I
                  (fun acc => test_file_at acc k x)
                  (fun b : string * DependencyNode =>
                     fst b = k ∧ test_file = x ∧ is_test (snd b) = false
                     ∧ g !! k = Some (snd b)
                     ∧ (k ∈ imports test_node
                        ∨ _test_matches_module x k = true))
                  (fun acc '(module_file, module_node) =>
                     if is_test module_node then acc
                     else if bool_decide (module_file ∈ imports test_node)
                             || _test_matches_module test_file module_file
                     then add_test_file module_file test_file acc
                     else acc)
                  (map_to_list g)) with (acc := acc) as [_ Hin].
      * intros acc1 [module_file module_node] _ [Hs Hib].
        destruct (is_test module_node); [split; assumption|].
        destruct (_ || _); [|split; assumption].
        split; [apply same_nodes_add_test_file, Hs|].
        intros k' x'. rewrite imported_by_at_add_test_file. apply Hib.
      * intros acc1 [module_file module_node] Hmem [Hs Hib]. simpl.
        apply elem_of_map_to_list in Hmem.
        destruct (is_test module_node) eqn:Hmt.
        { split; [auto|]. intros [H|(_ & _ & Hf & _)]; [exact H|].
          simpl in Hf. congruence. }
        destruct (bool_decide (module_file ∈ imports test_node)
                  || _test_matches_module test_file module_file) eqn:Hcond.
        -- rewrite test_file_at_add, (same_nodes_dom g acc1 module_file Hs).
           split; (intros [H|H]; [auto|right]).
           ++ destruct H as (-> & -> & _). repeat split; auto.
              apply orb_true_iff in Hcond as [Hc|Hc]; [|auto].
              left. apply bool_decide_eq_true in Hc. exact Hc.
           ++ destruct H as (-> & -> & _). repeat split; eauto.
        -- split; [auto|]. intros [H|(-> & -> & _ & _ & Hor)]; [exact H|].
           apply orb_false_iff in Hcond as [Hc1 Hc2].
           apply bool_decide_eq_false in Hc1. destruct Hor; [contradiction|].
           congruence.
      * exact Hacc.
      * rewrite Hin. split; (intros [H|H]; [auto|right]).
        -- destruct H as ([mf mn] & _ & Hk & -> & Hf & Hg & Hor). simpl in *.
           subst mf. repeat split; eauto.
        -- destruct H as (Hx & _ & nk & Hnk & Hf & Hor). simpl in *.
           exists (k, nk). split; [apply elem_of_map_to_list, Hnk|].
           simpl. repeat split; auto.
    + split; [auto|]. intros [H|(_ & Ht & _)]; [exact H|]. simpl in Ht.
      congruence.
  - split; [apply same_nodes_refl|]. intros; reflexivity.
  - split; [exact Hsame|]. split; [exact Hib|].
    eapply iff_trans; [exact Hiff|].
    split; (intros [H|H]; [auto|right]).
    + destruct H as ([tf tn] & Hin & Hx & Ht & nk & Hnk & Hf & Hor).
      simpl in *. subst tf. apply elem_of_map_to_list in Hin.
      exists tn, nk. auto.
    + destruct H as (nt & nk & Hnt & Ht & Hnk & Hf & Hor).
      exists (x, nt). split; [apply elem_of_map_to_list, Hnt|].
      simpl. split; [reflexivity|]. split; [exact Ht|]. eauto.
Qed.

(** A node as the first loop of [build_dependency_graph] creates it. *)
Lemma new_nodes_lookup analyze_file source_files p : ∀ acc : graph,
  foldl (fun acc file =>
           if endswith file ".py" then
             match analyze_file file with
             | Some imports =>
                 <[file := {| module_path := file;
                              imports := imports;
                              imported_by := ∅;
                              test_files := ∅;
                              is_test := _is_test_file file |}]> acc
             | None => acc
             end
           else acc) acc source_files !! p
  = match analyze_file p with
    | Some imps =>
        if bool_decide (p ∈ source_files) && endswith p ".py"
        then Some {| module_path := p;
                     imports := imps;
                     imported_by := ∅;
                     test_files := ∅;
                     is_test := _is_test_file p |}
        else acc !! p
    | None => acc !! p
    end.
Proof.
  induction source_files as [|file files IH]; intros acc; simpl.
  - destruct (analyze_file p); reflexivity.
  - rewrite IH. destruct (analyze_file p) as [imps|] eqn:Hp.
    + destruct (decide (p = file)) as [->|Hne].
      * rewrite Hp. rewrite (bool_decide_eq_true_2 (file ∈ file :: files))
          by apply list_elem_of_here.
        destruct (endswith file ".py") eqn:He; simpl.
        -- destruct (bool_decide (file ∈ files)); simpl; [reflexivity|].
           apply lookup_insert_eq.
        -- rewrite andb_false_r. reflexivity.
      * assert (Hdec : bool_decide (p ∈ file :: files) = bool_decide (p ∈ files)).
        { apply bool_decide_ext. rewrite elem_of_cons. tauto. }
        rewrite Hdec.
        destruct (bool_decide (p ∈ files) && endswith p ".py"); [reflexivity|].
        destruct (endswith file ".py"); [|reflexivity].
        destruct (analyze_file file); [|reflexivity].
        apply lookup_insert_ne. congruence.
    + destruct (endswith file ".py"); [|reflexivity].
      destruct (analyze_file file) as [imps|] eqn:Hf; [|reflexivity].
      apply lookup_insert_ne. intros ->. congruence.
Qed.
End GraphBuild.

Section BuiltGraphExact.
Import DependencyAnalyzer Statements.

Lemma test_file_at_add_imported_by other file_path g k x :
  test_file_at (add_imported_by other file_path g) k x ↔ test_file_at g k x.
Proof.
  unfold test_file_at, add_imported_by. rewrite lookup_alter.
  case_decide as Heq; [|reflexivity]. subst k.
  destruct (g !! other) as [n0|]; simpl.
  - split; intros (n & [= <-] & Hx); eexists; (split; [reflexivity|]); exact Hx.
  - split; intros (n & Hn & _); discriminate.
Qed.

Lemma _build_reverse_dependencies_test_files g k x :
  test_file_at (_build_reverse_dependencies g) k x ↔ test_file_at g k x.
Proof.
  revert k x. unfold _build_reverse_dependencies.
  apply (foldl_invariant
           (fun acc : graph => ∀ k x, test_file_at acc k x ↔ test_file_at g k x));
    [reflexivity|].
  intros acc [file_path node] _ Hacc.
  apply foldl_invariant; [exact Hacc|]. intros acc1 imp _ Hacc1.
  apply foldl_invariant; [exact Hacc1|]. intros acc2 other _ Hacc2.
  destruct (_import_matches_file imp other); [|exact Hacc2].
  intros k x. rewrite test_file_at_add_imported_by. apply Hacc2.
Qed.

Lemma imports_module_of_same g g' x k :
  same_nodes g g' → imports_module_of g' x k ↔ imports_module_of g x k.
Proof.
  intros Hs. split.
  - intros (nx & imp & Hnx & Himp & Hm).
    destruct (same_nodes_imports g g' x nx Hs Hnx) as (n & Hn & Hi & _).
    exists n, imp. rewrite Hi. auto.
  - intros (nx & imp & Hnx & Himp & Hm).
    destruct (same_nodes_sym_lookup g g' x nx Hs Hnx) as (n & Hn & Hi & _).
    exists n, imp. rewrite Hi. auto.
Qed.

Lemma tests_module_same g g' x k :
  same_nodes g g' → tests_module g' x k ↔ tests_module g x k.
Proof.
  intros Hs. split.
  - intros (nt & nk & Hnt & Ht & Hnk & Hf & Hor).
    destruct (same_nodes_imports g g' x nt Hs Hnt) as (n1 & Hn1 & Hi1 & Ht1).
    destruct (same_nodes_imports g g' k nk Hs Hnk) as (n2 & Hn2 & _ & Ht2).
    exists n1, n2. rewrite Hi1, Ht1, Ht2. auto.
  - intros (nt & nk & Hnt & Ht & Hnk & Hf & Hor).
    destruct (same_nodes_sym_lookup g g' x nt Hs Hnt) as (n1 & Hn1 & Hi1 & Ht1).
    destruct (same_nodes_sym_lookup g g' k nk Hs Hnk) as (n2 & Hn2 & _ & Ht2).
    exists n1, n2. rewrite Hi1, Ht1, Ht2. auto.
Qed.

Variable analyze_file : string → option (gset string).
Variable source_files : list string.

Local Abbreviation nodes :=
  (foldl (fun (acc : graph) file =>
            if endswith file ".py" then
              match analyze_file file with
              | Some imports =>
                  <[file := {| module_path := file;
                               imports := imports;
                               imported_by := ∅;
                               test_files := ∅;
                               is_test := _is_test_file file |}]> acc
              | None => acc
              end
            else acc) ∅ source_files).

Lemma nodes_lookup p :
  nodes !! p
  = match analyze_file p with
    | Some imps =>
        if bool_decide (p ∈ source_files) && endswith p ".py"
        then Some {| module_path := p;
                     imports := imps;
                     imported_by := ∅;
                     test_files := ∅;
                     is_test := _is_test_file p |}
        else None
    | None => None
    end.
Proof.
  rewrite (new_nodes_lookup analyze_file source_files p ∅), lookup_empty.
  reflexivity.
Qed.

Lemma nodes_fresh p n :
  nodes !! p = Some n →
  analyze_file p = Some (imports n) ∧ is_test n = _is_test_file p
  ∧ imported_by n = ∅ ∧ test_files n = ∅
  ∧ p ∈ source_files ∧ endswith p ".py" = true.
Proof.
  rewrite nodes_lookup. destruct (analyze_file p) as [imps|]; [|discriminate].
  destruct (bool_decide (p ∈ source_files)) eqn:Hin; [|discriminate].
  destruct (endswith p ".py") eqn:He; [|discriminate]. simpl.
  intros [= <-]. simpl. apply bool_decide_eq_true in Hin.
  repeat split; try reflexivity; assumption.
Qed.

Lemma built_same_nodes : same_nodes nodes (built_graph analyze_file source_files).
Proof.
  unfold built_graph, build_dependency_graph.
  eapply same_nodes_trans.
  - apply (proj1 (_build_reverse_dependencies_exact nodes "" "")).
  - apply (proj1 (_associate_test_files_exact _ "" "")).
Qed.

Lemma built_graph_nodes p :
  (is_Some (built_graph analyze_file source_files !! p)
   ↔ p ∈ source_files ∧ endswith p ".py" = true ∧ is_Some (analyze_file p))
  ∧ ∀ n, built_graph analyze_file source_files !! p = Some n →
         analyze_file p = Some (imports n) ∧ is_test n = _is_test_file p.
Proof.
  split.
  - rewrite (same_nodes_dom _ _ p built_same_nodes), nodes_lookup.
    destruct (analyze_file p) as [imps|].
    + destruct (bool_decide (p ∈ source_files)) eqn:Hin; simpl.
      * apply bool_decide_eq_true in Hin.
        destruct (endswith p ".py"); split.
        -- eauto.
        -- eauto.
        -- intros [? ?]. discriminate.
        -- intros (_ & ? & _). discriminate.
      * apply bool_decide_eq_false in Hin. split.
        -- intros [? ?]. discriminate.
        -- intros (? & _). contradiction.
    + split; [intros [? ?]; discriminate|]. intros (_ & _ & [? ?]). discriminate.
  - intros n Hn.
    destruct (same_nodes_imports _ _ p n built_same_nodes Hn)
      as (n0 & Hn0 & Hi & Ht).
    apply nodes_fresh in Hn0 as (Ha & Htest & _). rewrite <- Hi, <- Ht. auto.
Qed.

Lemma built_graph_imported_by k x :
  imported_by_at (built_graph analyze_file source_files) k x
  ↔ is_Some (built_graph analyze_file source_files !! k)
    ∧ imports_module_of (built_graph analyze_file source_files) x k.
Proof.
  rewrite (same_nodes_dom _ _ k built_same_nodes).
  rewrite (imports_module_of_same _ _ x k built_same_nodes).
  unfold built_graph, build_dependency_graph.
  rewrite (proj1 (proj2 (_associate_test_files_exact _ "" ""))).
  rewrite (proj2 (_build_reverse_dependencies_exact nodes k x)).
  split; [|auto]. intros [(n & Hn & Hx)|H]; [|exact H].
  apply nodes_fresh in Hn as (_ & _ & Hempty & _). rewrite Hempty in Hx.
  set_solver.
Qed.

Lemma built_graph_test_files k x :
  test_file_at (built_graph analyze_file source_files) k x
  ↔ tests_module (built_graph analyze_file source_files) x k.
Proof.
  rewrite (tests_module_same _ _ x k built_same_nodes).
  unfold built_graph, build_dependency_graph.
  rewrite (proj2 (proj2 (_associate_test_files_exact _ k x))).
  rewrite _build_reverse_dependencies_test_files.
  rewrite (tests_module_same nodes (_build_reverse_dependencies nodes) x k
             (proj1 (_build_reverse_dependencies_exact nodes "" ""))).
  split; [|auto]. intros [(n & Hn & Hx)|H]; [|exact H].
  apply nodes_fresh in Hn as (_ & _ & _ & Hempty & _). rewrite Hempty in Hx.
  set_solver.
Qed.
End BuiltGraphExact.

(** X4: the nodes of the graph a new analyzer builds are exactly the
    source files whose name ends in ".py" and that the project tree holds;
    any other source file is skipped without an error.  A node carries the
    imports parsed from its file and the test flag of its path. *)
Theorem X4_built_graph_nodes
    (analyze_file : string → option (gset string)) (source_files : list string)
    (p : string) :
  (is_Some (DependencyAnalyzer.build_dependency_graph analyze_file ∅
              source_files !! p)
   ↔ p ∈ source_files ∧ endswith p ".py" = true ∧ is_Some (analyze_file p))
  ∧ ∀ n,
      DependencyAnalyzer.build_dependency_graph analyze_file ∅ source_files !! p
      = Some n →
      analyze_file p = Some (DependencyAnalyzer.imports n)
      ∧ DependencyAnalyzer.is_test n = DependencyAnalyzer._is_test_file p.
Proof. apply built_graph_nodes. Qed.

(** X5: the reverse index of a built graph is exact: a file is in the
    [imported_by] set of a node if and only if it is itself a node and one
    of its imports names that node's module (equals the module name or
    extends it by a dotted suffix). *)
Theorem X5_reverse_index_exact
    (analyze_file : string → option (gset string)) (source_files : list string)
    (k x : string) :
  Statements.imported_by_at
    (DependencyAnalyzer.build_dependency_graph analyze_file ∅ source_files) k x
  ↔ is_Some (DependencyAnalyzer.build_dependency_graph analyze_file ∅
               source_files !! k)
    ∧ Statements.imports_module_of
        (DependencyAnalyzer.build_dependency_graph analyze_file ∅ source_files)
        x k.
Proof. apply built_graph_imported_by. Qed.

(** X6: the test association of a built graph is exact: a file is in the
    [test_files] set of a node if and only if the file is a test node, the
    node is not a test, and the test either lists the node's path among
    its imports or matches it by the naming convention. *)
Theorem X6_test_association_exact
    (analyze_file : string → option (gset string)) (source_files : list string)
    (k x : string) :
  Statements.test_file_at
    (DependencyAnalyzer.build_dependency_graph analyze_file ∅ source_files) k x
  ↔ Statements.tests_module
      (DependencyAnalyzer.build_dependency_graph analyze_file ∅ source_files)
      x k.
Proof. apply built_graph_test_files. Qed.

(** ** Affected tests *)

Section AffectedTests.
Import DependencyAnalyzer ImpactAnalysis Statements.

Lemma changed_tests_spec changed t :
  t ∈ changed_tests changed ↔ t ∈ changed ∧ _is_test_file t = true.
Proof.
  unfold changed_tests.
  destruct (foldl_accumulate (fun _ : gset string => True)
              (fun acc : gset string => t ∈ acc)
              (fun file : string => file = t ∧ _is_test_file t = true)
              (fun affected_tests file =>
                 if _is_test_file file then {[file]} ∪ affected_tests
                 else affected_tests)
              changed) with (acc := (∅ : gset string)) as [_ Hiff];
    [auto| |exact I|].
  - intros acc file _ _. destruct (_is_test_file file) eqn:Hf.
    + rewrite elem_of_union, elem_of_singleton. split.
      * intros [->|H]; auto.
      * intros [H|[-> _]]; auto.
    + split; [auto|]. intros [H|[-> H]]; [exact H|congruence].
  - rewrite Hiff. split.
    + intros [H|(file & Hin & -> & Ht)]; [set_solver|auto].
    + intros [Hin Ht]. right. exists t. auto.
Qed.

Lemma add_module_tests_spec g am acc t :
  t ∈ add_module_tests g am acc
  ↔ t ∈ acc ∨ ∃ m, m ∈ am ∧ test_file_at g m t.
Proof.
  unfold add_module_tests.
  destruct (foldl_accumulate (fun _ : gset string => True)
              (fun acc : gset string => t ∈ acc)
              (fun m : string => test_file_at g m t)
              (fun affected_tests module =>
                 match g !! module with
                 | Some node => affected_tests ∪ test_files node
                 | None => affected_tests
                 end)
              (elements am)) with (acc := acc) as [_ Hiff];
    [auto| |exact I|].
  - intros acc0 m _ _. unfold test_file_at.
    destruct (g !! m) as [node|].
    + rewrite elem_of_union. split.
      * intros [H|H]; [auto|]. right. eauto.
      * intros [H|(n & [= <-] & H)]; auto.
    + split; [auto|]. intros [H|(n & Hn & _)]; [exact H|discriminate].
  - rewrite Hiff. split; (intros [H|(m & Hm & Ht)]; [auto|right]);
      exists m; (split; [|exact Ht]); apply elem_of_elements; exact Hm.
Qed.

Lemma add_importing_tests_spec g am acc t :
  t ∈ add_importing_tests g am acc
  ↔ t ∈ acc
    ∨ ∃ node i, g !! t = Some node ∧ is_test node = true
                ∧ i ∈ imports node ∧ i ∈ am.
Proof.
  unfold add_importing_tests.
  destruct (foldl_accumulate (fun _ : gset string => True)
              (fun acc : gset string => t ∈ acc)
              (fun b : string * DependencyNode =>
                 fst b = t ∧ is_test (snd b) = true
                 ∧ imports (snd b) ∩ am ≠ ∅)
              (fun affected_tests '(test_file, node) =>
                 if is_test node
                    && bool_decide (imports node ∩ am ≠ ∅)
                 then {[test_file]} ∪ affected_tests
                 else affected_tests)
              (map_to_list g)) with (acc := acc) as [_ Hiff];
    [auto| |exact I|].
  - intros acc0 [test_file node] _ _. simpl.
    destruct (is_test node) eqn:Ht; simpl.
    + case_bool_decide as Hne.
      * rewrite elem_of_union, elem_of_singleton. split.
        -- intros [->|H]; auto.
        -- intros [H|(-> & _)]; auto.
      * split; [auto|]. intros [H|(_ & _ & H)]; [exact H|contradiction].
    + split; [auto|]. intros [H|(_ & H & _)]; [exact H|discriminate].
  - rewrite Hiff. split; (intros [H|H]; [auto|right]).
    + destruct H as ([tf node] & Hin & Hfst & Ht & Hne). simpl in *. subst tf.
      apply elem_of_map_to_list in Hin.
      apply set_choose_L in Hne as [i Hi].
      exists node, i. set_solver.
    + destruct H as (node & i & Hnode & Ht & Hi & Ham).
      exists (t, node). split; [apply elem_of_map_to_list, Hnode|].
      simpl. repeat split; [exact Ht|]. set_solver.
Qed.
End AffectedTests.

(** X7: the tests [get_affected_tests] selects are exactly: the changed
    files that are test files by name (whether or not the graph knows
    them), the tests associated with an affected module, and the test
    nodes one of whose imports is itself an affected path. *)
Theorem X7_affected_tests_exact
    (g : DependencyAnalyzer.graph) (changed_files : list string) :
  ∃ tests,
    ImpactAnalysis.get_affected_tests
      (S (size (DependencyAnalyzer.graph_universe g))) g changed_files
    = Some tests
    ∧ ∀ t,
        t ∈ tests
        ↔ (t ∈ changed_files ∧ DependencyAnalyzer._is_test_file t = true)
          ∨ (∃ m, Statements.impacted g changed_files m
                  ∧ Statements.test_file_at g m t)
          ∨ (∃ node i,
               g !! t = Some node ∧ DependencyAnalyzer.is_test node = true
               ∧ i ∈ DependencyAnalyzer.imports node
               ∧ Statements.impacted g changed_files i).
Proof.
  destruct (affected_modules_exact g changed_files) as (am & Ham & Hiff).
  unfold Statements.affected_modules in Ham.
  unfold ImpactAnalysis.get_affected_tests. rewrite Ham.
  eexists. split; [reflexivity|]. intros t.
  rewrite add_importing_tests_spec, add_module_tests_spec, changed_tests_spec.
  split.
  - intros [[H|(m & Hm & Ht)]|(node & i & Hn & Ht & Hi & Hia)].
    + auto.
    + right. left. exists m. split; [apply Hiff, Hm|exact Ht].
    + right. right. exists node, i. repeat split; auto. apply Hiff, Hia.
  - intros [H|[(m & Hm & Ht)|(node & i & Hn & Ht & Hi & Hia)]].
    + auto.
    + left. right. exists m. split; [apply Hiff, Hm|exact Ht].
    + right. exists node, i. repeat split; auto. apply Hiff, Hia.
Qed.

(** ** Classification is a partition that keeps the input order *)

Section ClassificationExact.
Import FilePatternMatcher Vocabulary Statements.

Lemma dict_keys_set_old {V} (d : dict V) k v x :
  x ∈ dict_keys d → x ∈ dict_keys (dict_set d k v).
Proof.
  induction d as [|[k0 v0] d IH]; simpl; [intros H; inversion H|].
  destruct (String.eqb k0 k); simpl; [auto|].
  intros H. apply elem_of_cons in H as [->|H].
  - apply list_elem_of_here.
  - apply list_elem_of_further, IH, H.
Qed.

Lemma dict_keys_update_old {V} (e : dict V) : ∀ (d : dict V) x,
  x ∈ dict_keys d → x ∈ dict_keys (dict_update d e).
Proof.
  unfold dict_update.
  induction e as [|[k v] e IH]; intros d x Hx; simpl; [exact Hx|].
  apply IH, dict_keys_set_old, Hx.
Qed.

Lemma init_extension_categories custom file c :
  _infer_from_extension file = Some c → c ∈ dict_keys (init custom).
Proof.
  intros H. apply default_extension_categories in H.
  unfold init. destruct custom as [[|kv custom]|]; [exact H| |exact H].
  apply dict_keys_update_old, H.
Qed.

Variable patterns : dict (list string).
Hypothesis extension_categories_present :
  ∀ file c, _infer_from_extension file = Some c → c ∈ dict_keys patterns.
Local Abbreviation filed := (Statements.filed patterns).

Lemma filed_init :
  filed [] (List.map (fun category => (category, [])) (dict_keys patterns)).
Proof.
  split.
  - unfold dict_keys. rewrite List.map_map. simpl. apply List.map_id.
  - intros k Hk. simpl.
    assert (Hkeys : k ∈ dict_keys (List.map (fun category : string =>
                                     (category, @nil string))
                                  (dict_keys patterns))).
    { unfold dict_keys at 1. rewrite List.map_map. simpl.
      rewrite List.map_id. exact Hk. }
    destruct (dict_keys_get _ _ Hkeys) as [xs Hxs]. rewrite Hxs. f_equal.
    apply dict_get_Some_values in Hxs. unfold dict_values in Hxs.
    rewrite List.map_map in Hxs. simpl in Hxs.
    apply list_elem_of_In, List.in_map_iff in Hxs as (? & <- & _). reflexivity.
Qed.

Lemma filed_under_snoc k seen file :
  filed_under patterns k (seen ++ [file])
  = filed_under patterns k seen
    ++ (if bool_decide (assigned patterns file = Some k) then [file] else []).
Proof.
  unfold filed_under. rewrite List.filter_app. simpl.
  destruct (bool_decide _); reflexivity.
Qed.

Lemma classify_one_filed seen cls file :
  filed seen cls →
  ∃ cls', classify_one patterns cls file = Some cls' ∧ filed (seen ++ [file]) cls'.
Proof.
  intros [Hkeys Hget]. rewrite classify_one_assigned.
  destruct (assigned patterns file) as [c|] eqn:Ha.
  - assert (Hc : c ∈ dict_keys patterns)
      by (eapply assigned_key; eauto).
    unfold dict_append. rewrite (Hget c Hc).
    eexists. split; [reflexivity|]. split.
    + rewrite dict_keys_set_present by (rewrite Hkeys; exact Hc). exact Hkeys.
    + intros k Hk. rewrite dict_get_set, filed_under_snoc, Ha.
      destruct (String.eqb c k) eqn:E.
      * apply String.eqb_eq in E. subst k.
        rewrite bool_decide_eq_true_2 by reflexivity. reflexivity.
      * apply String.eqb_neq in E.
        rewrite bool_decide_eq_false_2 by congruence.
        rewrite app_nil_r. apply Hget, Hk.
  - eexists. split; [reflexivity|]. split; [exact Hkeys|].
    intros k Hk. rewrite filed_under_snoc, Ha.
    rewrite bool_decide_eq_false_2 by discriminate.
    rewrite app_nil_r. apply Hget, Hk.
Qed.

Lemma classify_loop_filed files : ∀ seen cls,
  filed seen cls →
  ∃ cls', classify_loop patterns cls files = Some cls'
          ∧ filed (seen ++ files) cls'.
Proof.
  induction files as [|file files IH]; intros seen cls Hcls; simpl.
  - rewrite app_nil_r. eauto.
  - destruct (classify_one_filed seen cls file Hcls) as (cls1 & -> & H1).
    destruct (IH _ _ H1) as (cls' & Hrun & Hfiled).
    exists cls'. split; [exact Hrun|].
    rewrite <- app_assoc in Hfiled. exact Hfiled.
Qed.

Lemma classify_files_filed files :
  ∃ cls, classify_files patterns files = Some cls ∧ filed files cls.
Proof. apply (classify_loop_filed files [] _ filed_init). Qed.
End ClassificationExact.

(** X8: for the pattern table of any matcher (default patterns, with or
    without custom overrides) [classify_files] never raises, keeps the
    categories of the table in their order, and files every path under
    exactly the category it is assigned: the list of a category is the
    sub-list of the input, in input order, of the files whose first
    matching category (or, failing that, extension category) it is.  A
    file with no category is in no list. *)
Theorem X8_classification_is_ordered_partition
    (custom_patterns : option (dict (list string))) (files : list string) :
  ∃ cls,
    FilePatternMatcher.classify_files (FilePatternMatcher.init custom_patterns)
      files = Some cls
    ∧ dict_keys cls = dict_keys (FilePatternMatcher.init custom_patterns)
    ∧ ∀ k, k ∈ dict_keys (FilePatternMatcher.init custom_patterns) →
           dict_get cls k
           = Some (Statements.filed_under
                     (FilePatternMatcher.init custom_patterns) k files).
Proof.
  destruct (classify_files_filed (FilePatternMatcher.init custom_patterns)
              (init_extension_categories custom_patterns) files)
    as (cls & Hrun & Hkeys & Hget).
  exists cls. auto.
Qed.

(** ** Pattern matching on the shapes the tables use *)

Section Patterns.
Import FilePatternMatcher Vocabulary Statements.

Lemma list_ascii_length s : length (list_ascii_of_string s) = String.length s.
Proof. induction s as [|c s IH]; simpl; [reflexivity|]. f_equal. exact IH. Qed.

Lemma list_ascii_drop n : ∀ s,
  list_ascii_of_string (drop_str n s) = drop n (list_ascii_of_string s).
Proof.
  induction n as [|n IH]; intros [|c s]; simpl; try reflexivity. apply IH.
Qed.

Lemma list_ascii_inj s1 s2 :
  list_ascii_of_string s1 = list_ascii_of_string s2 → s1 = s2.
Proof.
  intros H. rewrite <- (string_of_list_ascii_of_string s1),
    <- (string_of_list_ascii_of_string s2), H. reflexivity.
Qed.

Lemma string_length_app s1 s2 :
  String.length (s1 +:+ s2) = String.length s1 + String.length s2.
Proof. induction s1 as [|c s1 IH]; simpl; [reflexivity|]. f_equal. exact IH. Qed.

Lemma drop_str_app s1 s2 : drop_str (String.length s1) (s1 +:+ s2) = s2.
Proof. induction s1 as [|c s1 IH]; simpl; [destruct s2; reflexivity|exact IH]. Qed.

Lemma take_str_app s1 s2 : take_str (String.length s1) (s1 +:+ s2) = s1.
Proof.
  induction s1 as [|c s1 IH]; simpl; [destruct s2; reflexivity|].
  f_equal. exact IH.
Qed.

Lemma startswith_app s t : startswith (s +:+ t) s = true.
Proof.
  unfold startswith. induction s as [|c s IH]; simpl.
  - destruct t; reflexivity.
  - change (String c s +:+ t) with (String c (s +:+ t)). simpl.
    destruct (ascii_dec c c); [exact IH|contradiction].
Qed.

Lemma endswith_app s p : endswith (s +:+ p) p = true.
Proof.
  unfold endswith. rewrite string_length_app.
  replace (String.length s + String.length p - String.length p)
    with (String.length s) by lia.
  rewrite drop_str_app, String.eqb_refl, andb_true_r.
  apply Nat.leb_le. lia.
Qed.

Lemma drop_end_app s p : drop_end (String.length p) (s +:+ p) = s.
Proof.
  unfold drop_end. rewrite string_length_app.
  replace (String.length s + String.length p - String.length p)
    with (String.length s) by lia.
  apply take_str_app.
Qed.

(** [endswith] is the suffix relation on the characters. *)
Lemma endswith_suffix s p :
  endswith s p = true
  ↔ ∃ k, drop k (list_ascii_of_string s) = list_ascii_of_string p.
Proof.
  unfold endswith. rewrite andb_true_iff, Nat.leb_le, String.eqb_eq. split.
  - intros [_ H]. exists (String.length s - String.length p).
    rewrite <- list_ascii_drop, H. reflexivity.
  - intros [k Hk].
    assert (Hlen : String.length p = String.length s - k).
    { rewrite <- !list_ascii_length, <- Hk, length_drop. reflexivity. }
    split; [lia|].
    apply list_ascii_inj. rewrite list_ascii_drop, <- Hk.
    destruct (decide (k ≤ String.length s)%nat) as [Hle|Hgt].
    + f_equal. lia.
    + rewrite !drop_ge; [reflexivity| |]; rewrite list_ascii_length; lia.
Qed.

Lemma wildcard_free_cons c pat :
  wildcard_free (String c pat) = true →
  Ascii.eqb c "*" = false ∧ Ascii.eqb c "?" = false
  ∧ wildcard_free pat = true.
Proof.
  unfold wildcard_free. simpl. intros H.
  apply andb_true_iff in H as [Hc Hpat].
  apply negb_true_iff, orb_false_iff in Hc as [Hc _].
  apply orb_false_iff in Hc as [H1 H2]. auto.
Qed.

(** A pattern without special characters matches only itself. *)
Lemma fnmatch_go_literal pat : ∀ name,
  wildcard_free pat = true →
  fnmatch_go (list_ascii_of_string pat) name = true
  ↔ name = list_ascii_of_string pat.
Proof.
  induction pat as [|p pat IH]; intros name Hfree; simpl.
  - destruct name; split; congruence.
  - apply wildcard_free_cons in Hfree as (Hstar & Hq & Hfree).
    rewrite Hstar, Hq. destruct name as [|c name]; [split; discriminate|].
    simpl. rewrite andb_true_iff, Ascii.eqb_eq, (IH name Hfree).
    split; [intros [-> ->]; reflexivity|]. intros [= -> ->]. auto.
Qed.

(** A leading star lets the rest of the pattern match any suffix. *)
Lemma fnmatch_go_star pat name :
  fnmatch_go ("*"%char :: pat) name = true
  ↔ ∃ k, fnmatch_go pat (drop k name) = true.
Proof.
  cbn [fnmatch_go]. rewrite Ascii.eqb_refl.
  induction name as [|c name IH].
  - rewrite orb_false_r. split; [intros H; exists 0; exact H|].
    intros [k Hk]. rewrite drop_nil in Hk. exact Hk.
  - rewrite orb_true_iff, IH. split.
    + intros [H|[k Hk]]; [exists 0; exact H|exists (S k); exact Hk].
    + intros [[|k] Hk]; [left; exact Hk|right; exists k; exact Hk].
Qed.

Lemma fnmatch_literal name pat :
  wildcard_free pat = true → fnmatch name pat = String.eqb name pat.
Proof.
  intros Hfree. apply Bool.eq_iff_eq_true.
  unfold fnmatch. rewrite (fnmatch_go_literal pat _ Hfree), String.eqb_eq.
  split; [apply list_ascii_inj|intros ->; reflexivity].
Qed.

Lemma fnmatch_star_suffix name suf :
  wildcard_free suf = true → fnmatch name ("*" +:+ suf) = endswith name suf.
Proof.
  intros Hfree. apply Bool.eq_iff_eq_true.
  unfold fnmatch. change (list_ascii_of_string ("*" +:+ suf))
    with ("*"%char :: list_ascii_of_string suf).
  rewrite fnmatch_go_star, endswith_suffix.
  split; intros [k Hk]; exists k.
  - apply (fnmatch_go_literal suf _ Hfree), Hk.
  - apply (fnmatch_go_literal suf _ Hfree), Hk.
Qed.

Lemma fnmatch_slash name pat :
  fnmatch ("/" +:+ name) ("/" +:+ pat) = fnmatch name pat.
Proof.
  unfold fnmatch.
  change (list_ascii_of_string ("/" +:+ pat))
    with ("/"%char :: list_ascii_of_string pat).
  change (list_ascii_of_string ("/" +:+ name))
    with ("/"%char :: list_ascii_of_string name).
  generalize (list_ascii_of_string pat) (list_ascii_of_string name).
  intros lp ln. cbn [fnmatch_go].
  change (Ascii.eqb "/" "*") with false. cbv iota.
  change (Ascii.eqb "/" "?" || Ascii.eqb "/" "/") with true.
  reflexivity.
Qed.

Lemma endswith_star s :
  endswith s "/**" = true → wildcard_free s = false.
Proof.
  intros H. apply endswith_suffix in H as [k Hk].
  unfold wildcard_free.
  rewrite <- (take_drop k (list_ascii_of_string s)), Hk, forallb_app.
  simpl. apply andb_false_r.
Qed.

Lemma wildcard_free_not_dir_pattern pat :
  wildcard_free pat = true → endswith pat "/**" = false.
Proof.
  intros Hfree. destruct (endswith pat "/**") eqn:E; [|reflexivity].
  apply endswith_star in E. congruence.
Qed.
End Patterns.

(** X9: a pattern without wildcards (such as "pyproject.toml",
    "Makefile" or "tox.ini") matches a changed path only when the path is
    that very string: the same file name in a subdirectory does not
    match. *)
Theorem X9_literal_pattern_matches_only_itself (file pattern : string) :
  Statements.wildcard_free pattern = true →
  FilePatternMatcher._matches_pattern file pattern = String.eqb file pattern.
Proof.
  intros Hfree. unfold FilePatternMatcher._matches_pattern.
  rewrite (fnmatch_literal file pattern Hfree).
  rewrite (wildcard_free_not_dir_pattern pattern Hfree). simpl.
  assert (Hslash : fnmatch ("/" +:+ file) ("/" +:+ pattern)
                   = String.eqb file pattern).
  { rewrite fnmatch_slash. apply fnmatch_literal, Hfree. }
  change ("/" ++ file)%string with ("/" +:+ file).
  change ("/" ++ pattern)%string with ("/" +:+ pattern).
  rewrite Hslash. destruct (String.eqb file pattern); reflexivity.
Qed.

(** A nested manifest against the pattern for the root manifest. *)
Lemma X9_witness :
  Statements.wildcard_free "pyproject.toml" = true
  ∧ FilePatternMatcher._matches_pattern "pkg/pyproject.toml" "pyproject.toml"
    = String.eqb "pkg/pyproject.toml" "pyproject.toml".
Proof.
  split; [reflexivity|].
  apply (X9_literal_pattern_matches_only_itself "pkg/pyproject.toml"
           "pyproject.toml").
  reflexivity.
Defined.

(** X10: a pattern made of a star and a wildcard-free ending (such as
    "*.md" or "*.yml") matches exactly the paths that end with that
    ending, at any directory depth. *)
Theorem X10_star_pattern_is_endswith (file ending : string) :
  Statements.wildcard_free ending = true →
  FilePatternMatcher._matches_pattern file ("*" +:+ ending)
  = endswith file ending.
Proof.
  intros Hfree. unfold FilePatternMatcher._matches_pattern.
  rewrite (fnmatch_star_suffix file ending Hfree).
  destruct (endswith file ending) eqn:E; [reflexivity|].
  assert (Hslash : fnmatch ("/" +:+ file) ("/" +:+ "*" +:+ ending) = false).
  { rewrite fnmatch_slash, (fnmatch_star_suffix file ending Hfree). exact E. }
  change ("/" ++ file)%string with ("/" +:+ file).
  change ("/" ++ "*" +:+ ending)%string with ("/" +:+ "*" +:+ ending).
  rewrite Hslash.
  assert (Hdir : endswith ("*" +:+ ending) "/**" = false).
  { destruct (endswith ("*" +:+ ending) "/**") eqn:Hd; [|reflexivity].
    apply endswith_suffix in Hd as [k Hk].
    change (list_ascii_of_string ("*" +:+ ending))
      with ("*"%char :: list_ascii_of_string ending) in Hk.
    destruct k as [|k].
    - simpl in Hk. injection Hk as Hk _. discriminate.
    - simpl in Hk.
      assert (Hf : Statements.wildcard_free ending = false).
      { unfold Statements.wildcard_free.
        rewrite <- (take_drop k (list_ascii_of_string ending)), Hk, forallb_app.
        simpl. apply andb_false_r. }
      congruence. }
  rewrite Hdir. reflexivity.
Qed.

(** A Markdown file three directories down. *)
Lemma X10_witness :
  Statements.wildcard_free ".md" = true
  ∧ FilePatternMatcher._matches_pattern "a/b/c/notes.md" ("*" +:+ ".md")
    = endswith "a/b/c/notes.md" ".md".
Proof.
  split; [reflexivity|].
  apply (X10_star_pattern_is_endswith "a/b/c/notes.md" ".md"). reflexivity.
Defined.

(** X11: the directory rule compares plain prefixes: a pattern
    "dir/**" matches every path that starts with the characters of "dir",
    whether or not a slash follows.  With the default table every path
    that begins with "docs" is therefore classified as docs, whatever its
    extension. *)
Theorem X11_directory_rule_is_a_string_prefix :
  (∀ dir file,
     startswith file dir = true →
     FilePatternMatcher._matches_pattern file (dir +:+ "/**") = true)
  ∧ ∀ rest,
      Vocabulary.assigned FilePatternMatcher.DEFAULT_PATTERNS ("docs" +:+ rest)
      = Some "docs".
Proof.
  assert (Hrule : ∀ dir file,
            startswith file dir = true →
            FilePatternMatcher._matches_pattern file (dir +:+ "/**") = true).
  { intros dir file Hprefix. unfold FilePatternMatcher._matches_pattern.
    destruct (fnmatch file _); [reflexivity|].
    destruct (fnmatch _ _); [reflexivity|].
    rewrite endswith_app.
    change 3 with (String.length "/**"). rewrite drop_end_app, Hprefix.
    reflexivity. }
  split; [exact Hrule|].
  intros rest. unfold Vocabulary.assigned, FilePatternMatcher.DEFAULT_PATTERNS.
  cbn [FilePatternMatcher.first_match existsb].
  assert (H : FilePatternMatcher._matches_pattern ("docs" +:+ rest) "docs/**"
              = true) by (apply (Hrule "docs"), startswith_app).
  rewrite H. reflexivity.
Qed.

(** ** The decision table *)

Section DecisionTable.
Import OptimizationEngine Vocabulary.

(** The flags depend on the classification only through the seven
    [has_*] bits. *)
Lemma calculate_optimization_nonempty self cls aff :
  total_files cls ≠ O →
  calculate_optimization self cls aff
  = let recs := _calculate_skip_recommendations self
                  (_analyze_change_patterns cls) in
    {| skip_tests := rec_tests recs;
       skip_security := rec_security recs;
       skip_docs := rec_docs recs;
       skip_lint := rec_lint recs;
       optimization_score := _calculate_optimization_score recs;
       time_savings := _calculate_time_savings recs;
       change_analysis := Some (_analyze_change_patterns cls);
       affected_tests := aff;
       reasoning := rec_reasoning recs |}.
Proof.
  intros Hne. unfold calculate_optimization.
  destruct (Nat.eqb_spec (total_files cls) 0); [contradiction|reflexivity].
Qed.

Lemma dict_len_at_files_of (cls : dict (list string)) k :
  (0 <? dict_len_at cls k)%nat = true ↔ files_of cls k ≠ [].
Proof.
  unfold dict_len_at, files_of. destruct (dict_get cls k) as [[|x xs]|]; simpl;
    split; intros H; first [reflexivity | discriminate | congruence].
Qed.
End DecisionTable.

(** X12: documentation building and linting are never skipped together
    (lint is skipped only when documentation changed, docs only when it
    did not), so at most three of the four stages are skipped: the
    optimization score never exceeds 75 and the time savings never exceed
    360 seconds. *)
Theorem X12_at_most_three_stages_skipped
    (self : OptimizationEngine.t) (classifications : dict (list string))
    (affected_tests : list string) :
  let r := OptimizationEngine.calculate_optimization self classifications
             affected_tests in
  OptimizationEngine.skip_docs r && OptimizationEngine.skip_lint r = false
  ∧ (OptimizationEngine.optimization_score r ≤ 75)%Z
  ∧ (OptimizationEngine.time_savings r ≤ 360)%Z.
Proof.
  intros r. subst r. unfold OptimizationEngine.calculate_optimization.
  destruct (OptimizationEngine.total_files classifications =? 0)%nat;
    [vm_compute; repeat split; discriminate|].
  unfold OptimizationEngine._analyze_change_patterns.
  generalize (0 <? dict_len_at classifications "source")%nat
             (0 <? dict_len_at classifications "tests")%nat
             (0 <? dict_len_at classifications "docs")%nat
             (0 <? dict_len_at classifications "config")%nat
             (0 <? dict_len_at classifications "dependencies")%nat
             (0 <? dict_len_at classifications "ci")%nat
             (0 <? dict_len_at classifications "build")%nat.
  destruct self as [t j].
  intros s ts d c dp ci b.
  destruct t, j, s, ts, d, c, dp, b; vm_compute; repeat split; discriminate.
Qed.

(** X13: a change that touches source files or dependency manifests
    never skips tests, security scanning or linting, whatever else changed
    and whatever the toggles are. *)
Theorem X13_source_or_dependency_change_skips_nothing_critical
    (self : OptimizationEngine.t) (classifications : dict (list string))
    (affected_tests : list string) :
  Vocabulary.files_of classifications "source" ≠ []
  ∨ Vocabulary.files_of classifications "dependencies" ≠ [] →
  let r := OptimizationEngine.calculate_optimization self classifications
             affected_tests in
  OptimizationEngine.skip_tests r = false
  ∧ OptimizationEngine.skip_security r = false
  ∧ OptimizationEngine.skip_lint r = false.
Proof.
  intros Hsrc r. subst r. unfold OptimizationEngine.calculate_optimization.
  destruct (OptimizationEngine.total_files classifications =? 0)%nat;
    [vm_compute; repeat split|].
  unfold OptimizationEngine._analyze_change_patterns.
  assert (Hbits : (0 <? dict_len_at classifications "source")%nat = true
                  ∨ (0 <? dict_len_at classifications "dependencies")%nat = true).
  { destruct Hsrc as [H|H]; [left|right]; apply dict_len_at_files_of, H. }
  revert Hbits.
  generalize (0 <? dict_len_at classifications "source")%nat
             (0 <? dict_len_at classifications "tests")%nat
             (0 <? dict_len_at classifications "docs")%nat
             (0 <? dict_len_at classifications "config")%nat
             (0 <? dict_len_at classifications "dependencies")%nat
             (0 <? dict_len_at classifications "ci")%nat
             (0 <? dict_len_at classifications "build")%nat.
  destruct self as [t j].
  intros s ts d c dp ci b [-> | ->];
    destruct t, j, ts, d, c, b; try destruct s; try destruct dp;
    vm_compute; repeat split.
Qed.

(** A change to one source file and one Markdown file. *)
Lemma X13_witness :
  let cls := [("docs", ["README.md"]); ("source", ["src/a.py"])] in
  let r := OptimizationEngine.calculate_optimization
             OptimizationEngine.default_engine cls [] in
  (Vocabulary.files_of cls "source" ≠ []
   ∨ Vocabulary.files_of cls "dependencies" ≠ [])
  ∧ OptimizationEngine.skip_tests r = false
  ∧ OptimizationEngine.skip_security r = false
  ∧ OptimizationEngine.skip_lint r = false.
Proof.
  intros cls r.
  assert (H : Vocabulary.files_of cls "source" ≠ []
              ∨ Vocabulary.files_of cls "dependencies" ≠ [])
    by (left; vm_compute; discriminate).
  split; [exact H|].
  exact (X13_source_or_dependency_change_skips_nothing_critical
           OptimizationEngine.default_engine cls [] H).
Defined.

(** X14: each toggle governs its own flags only.  [skip_tests] is false
    when test optimization is off and does not depend on the job-skipping
    toggle; the other three flags are false when job skipping is off and
    do not depend on the test-optimization toggle. *)
Theorem X14_toggles_govern_disjoint_flags
    (t j : bool) (classifications : dict (list string))
    (affected_tests : list string) :
  let run t j :=
    OptimizationEngine.calculate_optimization
      {| OptimizationEngine.enable_test_optimization := t;
         OptimizationEngine.enable_job_skipping := j |}
      classifications affected_tests in
  OptimizationEngine.skip_tests (run false j) = false
  ∧ OptimizationEngine.skip_security (run t false) = false
  ∧ OptimizationEngine.skip_docs (run t false) = false
  ∧ OptimizationEngine.skip_lint (run t false) = false
  ∧ OptimizationEngine.skip_tests (run t j)
    = OptimizationEngine.skip_tests (run t (negb j))
  ∧ OptimizationEngine.skip_security (run t j)
    = OptimizationEngine.skip_security (run (negb t) j)
  ∧ OptimizationEngine.skip_docs (run t j)
    = OptimizationEngine.skip_docs (run (negb t) j)
  ∧ OptimizationEngine.skip_lint (run t j)
    = OptimizationEngine.skip_lint (run (negb t) j).
Proof.
  intros run. subst run. cbv beta.
  unfold OptimizationEngine.calculate_optimization.
  destruct (OptimizationEngine.total_files classifications =? 0)%nat;
    [repeat split|].
  unfold OptimizationEngine._analyze_change_patterns.
  generalize (0 <? dict_len_at classifications "source")%nat
             (0 <? dict_len_at classifications "tests")%nat
             (0 <? dict_len_at classifications "docs")%nat
             (0 <? dict_len_at classifications "config")%nat
             (0 <? dict_len_at classifications "dependencies")%nat
             (0 <? dict_len_at classifications "ci")%nat
             (0 <? dict_len_at classifications "build")%nat.
  intros s ts d c dp ci b.
  destruct t, j, s, ts, d, c, dp, b; vm_compute; repeat split.
Qed.

(** ** Change sets without a classified file *)

Section Unclassified.
Import FilePatternMatcher OptimizationEngine Vocabulary Statements.

Lemma dict_set_keys_NoDup {V} (d : dict V) k v :
  NoDup (dict_keys d) → NoDup (dict_keys (dict_set d k v)).
Proof.
  intros Hd. destruct (decide (k ∈ dict_keys d)) as [Hin|Hout].
  - rewrite dict_keys_set_present by exact Hin. exact Hd.
  - rewrite dict_set_fresh by exact Hout. unfold dict_keys in *.
    rewrite List.map_app. simpl. apply NoDup_app. split; [exact Hd|].
    split; [|apply NoDup_singleton].
    intros x Hx Hk. apply list_elem_of_singleton in Hk. subst. contradiction.
Qed.

Lemma dict_update_keys_NoDup {V} (e : dict V) : ∀ d : dict V,
  NoDup (dict_keys d) → NoDup (dict_keys (dict_update d e)).
Proof.
  unfold dict_update. induction e as [|[k v] e IH]; intros d Hd; simpl;
    [exact Hd|].
  apply IH, dict_set_keys_NoDup, Hd.
Qed.

Lemma init_keys_NoDup custom : NoDup (dict_keys (init custom)).
Proof.
  assert (Hd : NoDup (dict_keys DEFAULT_PATTERNS))
    by (apply (bool_decide_unpack _); vm_compute; exact I).
  unfold init. destruct custom as [[|kv custom]|]; [exact Hd| |exact Hd].
  apply dict_update_keys_NoDup, Hd.
Qed.

Lemma dict_get_NoDup {V} (d : dict V) k v :
  NoDup (dict_keys d) → (k, v) ∈ d → dict_get d k = Some v.
Proof.
  induction d as [|[k0 v0] d IH]; simpl; intros Hnd Hin; [inversion Hin|].
  apply NoDup_cons in Hnd as [Hk0 Hnd].
  apply elem_of_cons in Hin as [[= -> ->]|Hin].
  - rewrite String.eqb_refl. reflexivity.
  - destruct (String.eqb k0 k) eqn:E; [|apply IH; assumption].
    apply String.eqb_eq in E. subst k0. exfalso. apply Hk0.
    apply list_elem_of_In, List.in_map_iff. exists (k, v).
    split; [reflexivity|apply list_elem_of_In, Hin].
Qed.

Lemma total_files_zero (cls : dict (list string)) :
  (∀ k v, (k, v) ∈ cls → v = []) → total_files cls = O.
Proof.
  unfold total_files, dict_values.
  induction cls as [|[k v] cls IH]; intros H; simpl; [reflexivity|].
  rewrite (H k v) by apply list_elem_of_here. simpl.
  apply IH. intros k' v' Hin. apply (H k'), list_elem_of_further, Hin.
Qed.

Lemma filed_under_none patterns k files :
  (∀ f, f ∈ files → assigned patterns f = None) →
  filed_under patterns k files = [].
Proof.
  unfold filed_under. induction files as [|f files IH]; intros H; simpl;
    [reflexivity|].
  rewrite (H f) by apply list_elem_of_here.
  rewrite bool_decide_eq_false_2 by discriminate.
  apply IH. intros f' Hf'. apply H, list_elem_of_further, Hf'.
Qed.
End Unclassified.

(** X15: when no changed file gets a category (no pattern matches and
    the extension is unknown, or there is no changed file at all), the
    optimization result is the fixed "no changes" result: no stage is
    skipped, score 0, savings 0. *)
Theorem X15_unclassified_changes_skip_nothing
    (custom_patterns : option (dict (list string)))
    (self : OptimizationEngine.t) (files affected_tests : list string) :
  (∀ f, f ∈ files →
        Vocabulary.assigned (FilePatternMatcher.init custom_patterns) f = None) →
  ∃ cls,
    FilePatternMatcher.classify_files (FilePatternMatcher.init custom_patterns)
      files = Some cls
    ∧ OptimizationEngine.calculate_optimization self cls affected_tests
      = OptimizationEngine._empty_optimization_result.
Proof.
  intros Hnone.
  destruct (classify_files_filed (FilePatternMatcher.init custom_patterns)
              (init_extension_categories custom_patterns) files)
    as (cls & Hrun & Hkeys & Hget).
  exists cls. split; [exact Hrun|].
  unfold OptimizationEngine.calculate_optimization.
  rewrite total_files_zero; [reflexivity|].
  intros k v Hin.
  assert (Hk : k ∈ dict_keys cls).
  { apply list_elem_of_In, List.in_map_iff. exists (k, v).
    split; [reflexivity|apply list_elem_of_In, Hin]. }
  pose proof (init_keys_NoDup custom_patterns) as Hnd. rewrite <- Hkeys in Hnd.
  pose proof (dict_get_NoDup cls k v Hnd Hin) as Hv.
  rewrite Hkeys in Hk. rewrite (Hget k Hk) in Hv.
  rewrite filed_under_none in Hv by exact Hnone. congruence.
Qed.

(** A change to a file that no pattern and no extension rule knows. *)
Lemma X15_witness :
  (∀ f, f ∈ ["Jenkinsfile"] →
        Vocabulary.assigned (FilePatternMatcher.init None) f = None)
  ∧ ∃ cls,
      FilePatternMatcher.classify_files (FilePatternMatcher.init None)
        ["Jenkinsfile"] = Some cls
      ∧ OptimizationEngine.calculate_optimization
          OptimizationEngine.default_engine cls []
        = OptimizationEngine._empty_optimization_result.
Proof.
  assert (H : ∀ f : string, f ∈ ["Jenkinsfile"] →
              Vocabulary.assigned (FilePatternMatcher.init None) f = None).
  { intros f Hf. apply list_elem_of_singleton in Hf. subst.
    vm_compute. reflexivity. }
  split; [exact H|].
  exact (X15_unclassified_changes_skip_nothing None
           OptimizationEngine.default_engine ["Jenkinsfile"] [] H).
Defined.

(** ** Quality gates: what a run reports *)

Section RunReports.
Import QualityGatesAction Vocabulary Statements.

Variable w : World.
Variable timeout : Z.

Lemma collect_completed_spec completed : ∀ results,
  Forall (fun cmd => is_Some (command_name cmd)) completed →
  NoDup (List.map check_of completed) →
  (∀ cmd, cmd ∈ completed → check_of cmd ∉ dict_keys results) →
  collect_completed w completed timeout results
  = Returned (results ++ List.map (entry w timeout) completed).
Proof.
  induction completed as [|cmd rest IH]; intros results Hnamed Hnodup Hfresh.
  - simpl. rewrite app_nil_r. reflexivity.
  - inversion Hnamed as [|? ? Hcmd Hrest]; subst.
    inversion Hnodup as [|? ? Hnotin Hnodup']; subst.
    cbn [collect_completed]. rewrite (command_name_check_of _ Hcmd).
    rewrite dict_set_fresh by (apply Hfresh, list_elem_of_here).
    rewrite IH; [| assumption | assumption |].
    + rewrite <- app_assoc. reflexivity.
    + intros c Hc Hin. unfold dict_keys in Hin.
      rewrite List.map_app in Hin. apply elem_of_app in Hin as [Hin|Hin].
      * eapply Hfresh; [apply list_elem_of_further, Hc|exact Hin].
      * simpl in Hin. apply list_elem_of_singleton in Hin.
        apply Hnotin. rewrite <- Hin.
        apply list_elem_of_In, List.in_map, list_elem_of_In, Hc.
Qed.

Lemma executed_prefix_all commands :
  Forall (fun cmd => fails_critically (result_of w timeout cmd) = false)
         commands →
  executed_prefix w timeout commands = commands.
Proof.
  induction 1 as [|cmd rest Hcmd _ IH]; simpl; [reflexivity|].
  rewrite Hcmd, IH. reflexivity.
Qed.

Lemma executed_prefix_is_prefix commands :
  ∃ rest, commands = executed_prefix w timeout commands ++ rest.
Proof.
  induction commands as [|cmd rest [tail IH]]; simpl; [exists []; reflexivity|].
  destruct (fails_critically _).
  - exists rest. reflexivity.
  - exists tail. simpl. f_equal. exact IH.
Qed.

(** What the two execution strategies return on named, distinct
    commands: the entries of the commands run, in the order they were
    stored. *)
Lemma execute_commands_spec parallel commands :
  Forall (fun cmd => is_Some (command_name cmd)) commands →
  NoDup (List.map check_of commands) →
  (parallel = true → pool_fault w = None) →
  ∃ ran log,
    execute_commands w parallel commands timeout
    = (Returned (List.map (entry w timeout) ran), log)
    ∧ (if parallel then ran = as_completed w commands ∧ log = commands
       else ran = executed_prefix w timeout commands ∧ log = ran).
Proof.
  intros Hnamed Hnodup Hpool. unfold execute_commands. destruct parallel.
  - unfold _execute_commands_parallel. rewrite (Hpool eq_refl).
    exists (as_completed w commands), commands.
    rewrite collect_completed_spec.
    + auto.
    + unfold as_completed. rewrite merge_sort_Permutation. exact Hnamed.
    + unfold as_completed.
      assert (Hp : List.map check_of (merge_sort (completes_before w) commands)
                   ≡ₚ List.map check_of commands).
      { apply Permutation_map, merge_sort_Permutation. }
      rewrite Hp. exact Hnodup.
    + intros cmd _ Hin. inversion Hin.
  - unfold _execute_commands_sequential.
    exists (executed_prefix w timeout commands),
           (executed_prefix w timeout commands).
    rewrite sequential_loop_spec; [auto|exact Hnamed|exact Hnodup|].
    intros cmd _ Hin. inversion Hin.
Qed.
End RunReports.

Section AnalysisShape.
Import QualityGatesAction Vocabulary Statements.


Lemma analyze_no_break items : ∀ a,
  Forall (fun item => breaks (snd item) = false) items →
  result (analyze items a) = result a
  ∧ failed (analyze items a) = failed a ++ flunked items
  ∧ successful (analyze items a) = successful a ++ passed items
  ∧ failed_command_details (analyze items a)
    = failed_command_details a ++ failure_lines items.
Proof.
  unfold flunked, passed, failure_lines.
  induction items as [|[k cr] items IH]; intros a Hall; simpl.
  - rewrite !app_nil_r. auto.
  - inversion Hall as [|? ? Hcr Hrest]; subst. unfold breaks in Hcr.
    simpl in Hcr. destruct (CommandResult.success cr); simpl in *.
    + destruct (IH {| result := result a; failed := failed a;
                      successful := successful a ++ [k];
                      failed_command_details := failed_command_details a |}
                   Hrest) as (Hr & Hf & Hs & Hd).
      simpl in *. rewrite Hr, Hf, Hs, Hd, <- app_assoc. auto.
    + apply orb_false_iff in Hcr as [-> ->].
      destruct (IH {| result := result a; failed := failed a ++ [k];
                      successful := successful a;
                      failed_command_details :=
                        failed_command_details a
                        ++ [k +:+ ": " +:+ CommandResult.stderr cr] |}
                   Hrest) as (Hr & Hf & Hs & Hd).
      simpl in *. rewrite Hr, Hf, Hs, Hd, <- !app_assoc. auto.
Qed.

Lemma analyze_timeout_seconds items : ∀ a,
  QualityResult.timeout_seconds (result (analyze items a))
  = QualityResult.timeout_seconds (result a).
Proof.
  induction items as [|[k cr] items IH]; intros a; simpl; [reflexivity|].
  destruct (CommandResult.success cr); [rewrite IH; reflexivity|].
  destruct (critical_violation _); [reflexivity|].
  destruct (CommandResult.timeout cr); [reflexivity|].
  rewrite IH. reflexivity.
Qed.

End AnalysisShape.

Section RunShape.
Import QualityGatesAction Vocabulary Statements.

Variable self_timeouts : dict Z.
Variable w : World.
Variable tier : string.
Variable timeout : option Z.
Variable timeouts_override : option (dict Z).
Variable parallel : bool.

Hypothesis setup_returns : setup_fault w = None.

Local Abbreviation t := (tier_timeout self_timeouts timeout timeouts_override).
Local Abbreviation commands := (tier_commands w tier).
Local Abbreviation a := (tier_analysis w tier parallel t).

Lemma execute_tier_handled :
  execute_tier self_timeouts w tier timeout parallel timeouts_override false
  = let '(r, e, log) :=
      try_body w tier parallel commands t (initial_result w tier t) in
    (Returned (handled t r e), log).
Proof.
  rewrite execute_tier_unfold by exact setup_returns.
  destruct (try_body _ _ _ _ _ _) as [[r [[|msg]|]] log]; reflexivity.
Qed.

Lemma tier_commands_facts :
  Forall (fun cmd => is_Some (command_name cmd)) commands
  ∧ NoDup (List.map check_of commands)
  ∧ List.map check_of commands = tier_checks tier.
Proof.
  destruct (_get_tier_commands_names tier (detect_package_manager w))
    as (_ & Hmap & Hnamed).
  split; [exact Hnamed|]. split; [|exact Hmap].
  unfold tier_commands. rewrite Hmap. apply tier_checks_NoDup.
Qed.

(** Every non-dry run either stops before any result exists, because
    the worker pool raised, or analyses the results of the commands run;
    after the analysis only the report writer of a green full tier can
    still raise. *)
Lemma execute_tier_shape :
  ∃ r e log,
    execute_tier self_timeouts w tier timeout parallel timeouts_override false
    = (Returned (handled t r e), log)
    ∧ ((∃ e0, e = Some e0 ∧ r = initial_result w tier t
              ∧ parallel = true ∧ pool_fault w = Some e0 ∧ log = [])
       ∨ ((if parallel then log = commands ∧ pool_fault w = None
           else log = executed_prefix w t commands)
          ∧ QualityResult.failed_checks r = failed a
          ∧ QualityResult.successful_checks r = successful a
          ∧ QualityResult.success r = negb (nonempty (failed a))
          ∧ QualityResult.partial_success r
            = nonempty (successful a) && nonempty (failed a)
          ∧ QualityResult.failure_reason r
            = QualityResult.failure_reason (result a)
          ∧ QualityResult.failed_fast r = QualityResult.failed_fast (result a)
          ∧ QualityResult.executed_checks r = tier_checks tier
          ∧ QualityResult.timeout_seconds r = Some t
          ∧ QualityResult.error_details r
            = (if nonempty (failed a)
                  && negb (truthy (QualityResult.error_details (result a)))
               then Some (String.concat "; " (failed_command_details a))
               else QualityResult.error_details (result a))
          ∧ (e = None
             ∨ (e = reports_fault w ∧ is_Some e ∧ tier = "full"
                ∧ failed a = [])))).
Proof.
  rewrite execute_tier_handled.
  destruct tier_commands_facts as (Hnamed & Hnodup & _).
  destruct (decide (parallel = true ∧ is_Some (pool_fault w)))
    as [[Hpar [e0 He0]]|Hok].
  - unfold try_body, execute_commands, _execute_commands_parallel.
    rewrite Hpar, He0.
    eexists _, _, _. split; [reflexivity|]. left. eauto 10.
  - assert (Hpool : parallel = true → pool_fault w = None).
    { intros Hp. destruct (pool_fault w) eqn:E; [|reflexivity].
      exfalso. apply Hok. eauto. }
    destruct (execute_commands_spec w t parallel commands Hnamed Hnodup Hpool)
      as (ran & log & Hrun & Hran).
    unfold try_body. rewrite Hrun.
    assert (Ha : analyze (List.map (entry w t) ran)
                   {| result := initial_result w tier t; failed := [];
                      successful := []; failed_command_details := [] |} = a).
    { unfold tier_analysis, analysed_commands, analysis_start.
      destruct parallel; destruct Hran as [-> _]; reflexivity. }
    rewrite Ha.
    assert (Hlog : if parallel then log = commands ∧ pool_fault w = None
                   else log = executed_prefix w t commands).
    { destruct parallel; [|destruct Hran as [-> ->]; reflexivity].
      destruct Hran as [_ ->]. auto. }
    set (r1 := QualityResult.set_partial_success _ _).
    assert (Hfields :
      QualityResult.failed_checks r1 = failed a
      ∧ QualityResult.successful_checks r1 = successful a
      ∧ QualityResult.success r1 = negb (nonempty (failed a))
      ∧ QualityResult.partial_success r1
        = nonempty (successful a) && nonempty (failed a)
      ∧ QualityResult.failure_reason r1
        = QualityResult.failure_reason (result a)
      ∧ QualityResult.failed_fast r1 = QualityResult.failed_fast (result a)
      ∧ QualityResult.executed_checks r1 = tier_checks tier
      ∧ QualityResult.timeout_seconds r1 = Some t
      ∧ QualityResult.error_details r1
        = (if nonempty (failed a)
              && negb (truthy (QualityResult.error_details (result a)))
           then Some (String.concat "; " (failed_command_details a))
           else QualityResult.error_details (result a))).
    { unfold r1. simpl.
      destruct (nonempty (failed a)
                && negb (truthy (QualityResult.error_details (result a))));
        simpl; repeat split;
        first [ apply analyze_executed_checks
              | apply analyze_timeout_seconds ]. }
    destruct Hfields as (H1 & H2 & H3 & H4 & H5 & H6 & H7 & H8 & H9).
    destruct (String.eqb tier "full" && QualityResult.success r1) eqn:Hfull.
    + apply andb_true_iff in Hfull as [Htier Hsucc].
      apply String.eqb_eq in Htier.
      assert (Hnone : failed a = []).
      { rewrite H3 in Hsucc. apply negb_true_iff in Hsucc.
        destruct (failed a); [reflexivity|discriminate]. }
      destruct (reports_fault w) as [e|] eqn:Hfault;
        eexists _, _, _; (split; [reflexivity|]); right;
        (split; [exact Hlog|]); repeat (split; [assumption|]); eauto 10.
    + eexists _, _, _. split; [reflexivity|]. right.
      split; [exact Hlog|]. repeat (split; [assumption|]). auto.
Qed.
End RunShape.

Section RunFacts.
Import QualityGatesAction Vocabulary Statements.



Lemma passed_flunked_entries w timeout ran :
  dict_keys (List.map (entry w timeout) ran) = List.map check_of ran
  ∧ flunked (List.map (entry w timeout) ran) ++ passed (List.map (entry w timeout) ran)
    ≡ₚ List.map check_of ran.
Proof.
  split; [apply dict_keys_entries|].
  unfold flunked, passed, dict_keys.
  induction ran as [|cmd ran IH]; simpl; [reflexivity|].
  destruct (CommandResult.success (result_of w timeout cmd)); simpl.
  - rewrite <- IH. symmetry. apply Permutation_middle.
  - rewrite IH. reflexivity.
Qed.

Lemma all_passed w timeout ran :
  Forall (fun cmd => CommandResult.success (result_of w timeout cmd) = true) ran →
  flunked (List.map (entry w timeout) ran) = []
  ∧ passed (List.map (entry w timeout) ran) = List.map check_of ran
  ∧ failure_lines (List.map (entry w timeout) ran) = [].
Proof.
  unfold flunked, passed, failure_lines, dict_keys.
  induction 1 as [|cmd ran Hcmd _ (IH1 & IH2 & IH3)]; simpl; [auto|].
  rewrite Hcmd. simpl. rewrite IH1, IH2, IH3. auto.
Qed.

Lemma analysed_commands_facts w parallel commands timeout :
  NoDup (List.map check_of commands) →
  NoDup (List.map check_of (analysed_commands w parallel commands timeout))
  ∧ ∀ cmd, cmd ∈ analysed_commands w parallel commands timeout → cmd ∈ commands.
Proof.
  intros Hnd. unfold analysed_commands, as_completed. destruct parallel.
  - split.
    + assert (Hp : List.map check_of (merge_sort (completes_before w) commands)
                   ≡ₚ List.map check_of commands)
        by apply Permutation_map, merge_sort_Permutation.
      rewrite Hp. exact Hnd.
    + intros cmd Hin. rewrite merge_sort_Permutation in Hin. exact Hin.
  - destruct (executed_prefix_is_prefix w timeout commands) as [rest Hrest].
    split.
    + rewrite Hrest, List.map_app in Hnd.
      apply NoDup_app in Hnd as (H & _ & _). exact H.
    + intros cmd Hin. rewrite Hrest. apply elem_of_app. auto.
Qed.

Lemma analysed_commands_no_break w parallel commands timeout :
  (∀ cmd, cmd ∈ commands → breaks (result_of w timeout cmd) = false) →
  analysed_commands w parallel commands timeout ≡ₚ commands
  ∧ (parallel = false → analysed_commands w parallel commands timeout = commands).
Proof.
  intros Hplain. unfold analysed_commands, as_completed. destruct parallel.
  - split; [apply merge_sort_Permutation|discriminate].
  - assert (Hall : executed_prefix w timeout commands = commands).
    { apply executed_prefix_all, Forall_forall. intros cmd Hin.
      specialize (Hplain cmd Hin). unfold breaks, fails_critically in *.
      destruct (negb _); [|reflexivity]. simpl in *.
      apply orb_false_iff in Hplain as [-> _]. reflexivity. }
    rewrite Hall. auto.
Qed.
End RunFacts.

(** X16: when every command of the tier exits with status 0 and
    neither the set-up before the [try] statement, the worker pool nor
    the report writer raises, the run succeeds: every command is run, failed_checks is empty,
    successful_checks holds each check of the tier exactly once (in tier
    order when sequential), and no failure reason, error details,
    fail-fast or partial-success flag is set. *)
Theorem X16_all_green_run_succeeds
    (self_timeouts : dict Z) (w : QualityGatesAction.World) (tier : string)
    (timeout : option Z) (parallel : bool) (timeouts_override : option (dict Z)) :
  (∀ cmd, cmd ∈ Vocabulary.tier_commands w tier →
     CommandResult.success
       (Vocabulary.result_of w
          (Vocabulary.tier_timeout self_timeouts timeout timeouts_override) cmd)
     = true) →
  QualityGatesAction.setup_fault w = None →
  QualityGatesAction.pool_fault w = None →
  QualityGatesAction.reports_fault w = None →
  ∃ r,
    QualityGatesAction.execute_tier self_timeouts w tier timeout parallel
      timeouts_override false
    = (QualityGatesAction.Returned r, Vocabulary.tier_commands w tier)
    ∧ QualityResult.success r = true
    ∧ QualityResult.failed_checks r = []
    ∧ QualityResult.successful_checks r ≡ₚ QualityGatesAction.tier_checks tier
    ∧ (parallel = false →
       QualityResult.successful_checks r = QualityGatesAction.tier_checks tier)
    ∧ QualityResult.executed_checks r = QualityGatesAction.tier_checks tier
    ∧ QualityResult.failure_reason r = None
    ∧ QualityResult.error_details r = None
    ∧ QualityResult.failed_fast r = false
    ∧ QualityResult.partial_success r = false.
Proof.
  intros Hgreen Hsetup Hpool Hreports.
  set (t := Vocabulary.tier_timeout self_timeouts timeout timeouts_override) in *.
  destruct (execute_tier_shape self_timeouts w tier timeout timeouts_override
              parallel Hsetup)
    as (r & e & log & Hrun & [(e0 & _ & _ & _ & He0 & _)|Hshape]);
    [congruence|].
  fold t in Hrun, Hshape.
  destruct Hshape as (Hlog & Hf & Hs & Hsucc & Hpart & Hreason & Hff & Hexec
                      & _ & Hdetails & He).
  destruct (tier_commands_facts w tier) as (_ & Hnodup & Hmap).
  assert (Hplain : ∀ cmd, cmd ∈ Vocabulary.tier_commands w tier →
            Statements.breaks (Vocabulary.result_of w t cmd) = false).
  { intros cmd Hin. unfold Statements.breaks. rewrite (Hgreen cmd Hin).
    reflexivity. }
  destruct (analysed_commands_no_break w parallel _ t Hplain) as [Hperm Hseq].
  destruct (analysed_commands_facts w parallel _ t Hnodup) as [_ Hsub].
  set (ran := Statements.analysed_commands w parallel
                (Vocabulary.tier_commands w tier) t) in *.
  assert (Hall : Forall (fun cmd => CommandResult.success
                           (Vocabulary.result_of w t cmd) = true) ran).
  { apply Forall_forall. intros cmd Hin. apply Hgreen, Hsub, Hin. }
  destruct (all_passed w t ran Hall) as (Hfl & Hpa & _).
  destruct (analyze_no_break (List.map (Vocabulary.entry w t) ran)
              (Vocabulary.analysis_start (Vocabulary.initial_result w tier t)))
    as (Hres & Hfailed & Hsuccessful & _).
  { apply Forall_forall. intros item Hin.
    apply list_elem_of_In, List.in_map_iff in Hin as (cmd & <- & Hin).
    apply Hplain, Hsub, list_elem_of_In, Hin. }
  change (QualityGatesAction.analyze _ _)
    with (Statements.tier_analysis w tier parallel t)
    in Hres, Hfailed, Hsuccessful.
  rewrite Hfl in Hfailed. rewrite Hpa in Hsuccessful. simpl in Hfailed, Hsuccessful.
  rewrite Hfailed in *. rewrite Hres in *. simpl in *.
  assert (He' : e = None).
  { destruct He as [He|(He & Hsome & _)]; [exact He|].
    rewrite He, Hreports in Hsome. destruct Hsome; discriminate. }
  subst e. simpl in Hrun.
  assert (Hlog' : log = Vocabulary.tier_commands w tier).
  { destruct parallel; [apply Hlog|]. rewrite Hlog. apply Hseq. reflexivity. }
  exists r. rewrite Hrun, Hlog'. split; [reflexivity|].
  rewrite Hs, Hsuccessful, Hpart, Hsuccessful.
  repeat split; try assumption.
  - rewrite Hperm. rewrite Hmap. reflexivity.
  - intros Hp. rewrite (Hseq Hp). exact Hmap.
  - apply andb_false_r.
Qed.

(** The essential tier of a pip project all of whose commands pass. *)
Lemma X16_witness :
  ∃ r,
    QualityGatesAction.execute_tier QualityGatesAction.default_timeouts
      (QualityGatesAction.Build_World None
         (fun _ => QualityGatesAction.Exited 0 "ok" "") (fun _ => O)
         None None None)
      "essential" None false None false
    = (QualityGatesAction.Returned r,
       ["python -m test"; "python -m lint"; "python -m typecheck"])
    ∧ QualityResult.success r = true
    ∧ QualityResult.failed_checks r = []
    ∧ QualityResult.successful_checks r ≡ₚ ["test"; "lint"; "typecheck"]
    ∧ (false = false →
       QualityResult.successful_checks r = ["test"; "lint"; "typecheck"])
    ∧ QualityResult.executed_checks r = ["test"; "lint"; "typecheck"]
    ∧ QualityResult.failure_reason r = None
    ∧ QualityResult.error_details r = None
    ∧ QualityResult.failed_fast r = false
    ∧ QualityResult.partial_success r = false.
Proof.
  apply (X16_all_green_run_succeeds QualityGatesAction.default_timeouts
           (QualityGatesAction.Build_World None
              (fun _ => QualityGatesAction.Exited 0 "ok" "") (fun _ => O)
              None None None)
           "essential" None false None).
  - intros cmd _. reflexivity.
  - reflexivity.
  - reflexivity.
  - reflexivity.
Defined.

(** X17: when no command of the tier fails with a zero-tolerance
    signature or by timing out, and neither the set-up before the [try]
    statement, the worker pool nor the report writer raises, every command
    is run and every check is reported:
    failed_checks and successful_checks are the failed and the passed
    checks in the order their results are read, together they hold each
    check of the tier once, no failure reason or fail-fast flag is set,
    success says that nothing failed, and error_details joins one line
    per failed check. *)
Theorem X17_ordinary_failures_are_all_reported
    (self_timeouts : dict Z) (w : QualityGatesAction.World) (tier : string)
    (timeout : option Z) (parallel : bool) (timeouts_override : option (dict Z)) :
  let t := Vocabulary.tier_timeout self_timeouts timeout timeouts_override in
  let items :=
    List.map (Vocabulary.entry w t)
      (if parallel
       then QualityGatesAction.as_completed w (Vocabulary.tier_commands w tier)
       else Vocabulary.tier_commands w tier) in
  (∀ cmd, cmd ∈ Vocabulary.tier_commands w tier →
     Statements.breaks (Vocabulary.result_of w t cmd) = false) →
  QualityGatesAction.setup_fault w = None →
  QualityGatesAction.pool_fault w = None →
  QualityGatesAction.reports_fault w = None →
  ∃ r,
    QualityGatesAction.execute_tier self_timeouts w tier timeout parallel
      timeouts_override false
    = (QualityGatesAction.Returned r, Vocabulary.tier_commands w tier)
    ∧ QualityResult.failed_checks r = Statements.flunked items
    ∧ QualityResult.successful_checks r = Statements.passed items
    ∧ QualityResult.failed_checks r ++ QualityResult.successful_checks r
      ≡ₚ QualityGatesAction.tier_checks tier
    ∧ QualityResult.success r
      = negb (QualityGatesAction.nonempty (Statements.flunked items))
    ∧ QualityResult.failure_reason r = None
    ∧ QualityResult.failed_fast r = false
    ∧ QualityResult.error_details r
      = (if QualityGatesAction.nonempty (Statements.flunked items)
         then Some (String.concat "; " (Statements.failure_lines items))
         else None).
Proof.
  intros t items Hplain Hsetup Hpool Hreports.
  destruct (execute_tier_shape self_timeouts w tier timeout timeouts_override
              parallel Hsetup)
    as (r & e & log & Hrun & [(e0 & _ & _ & _ & He0 & _)|Hshape]);
    [congruence|].
  fold t in Hrun, Hshape.
  destruct Hshape as (Hlog & Hf & Hs & Hsucc & _ & Hreason & Hff & _
                      & _ & Hdetails & He).
  destruct (tier_commands_facts w tier) as (_ & Hnodup & Hmap).
  destruct (analysed_commands_no_break w parallel _ t Hplain) as [Hperm Hseq].
  destruct (analysed_commands_facts w parallel _ t Hnodup) as [_ Hsub].
  assert (Hitems : List.map (Vocabulary.entry w t)
                     (Statements.analysed_commands w parallel
                        (Vocabulary.tier_commands w tier) t) = items).
  { unfold items. destruct parallel; [reflexivity|].
    rewrite (Hseq eq_refl). reflexivity. }
  assert (Hkeys : Statements.flunked items ++ Statements.passed items
                  ≡ₚ QualityGatesAction.tier_checks tier).
  { rewrite <- Hitems.
    destruct (passed_flunked_entries w t
                (Statements.analysed_commands w parallel
                   (Vocabulary.tier_commands w tier) t)) as [_ Hpf].
    rewrite Hpf, Hperm, Hmap. reflexivity. }
  destruct (analyze_no_break
              (List.map (Vocabulary.entry w t)
                 (Statements.analysed_commands w parallel
                    (Vocabulary.tier_commands w tier) t))
              (Vocabulary.analysis_start (Vocabulary.initial_result w tier t)))
    as (Hres & Hfailed & Hsuccessful & Hlines).
  { apply Forall_forall. intros item Hin.
    apply list_elem_of_In, List.in_map_iff in Hin as (cmd & <- & Hin).
    apply Hplain, Hsub, list_elem_of_In, Hin. }
  change (QualityGatesAction.analyze _ _)
    with (Statements.tier_analysis w tier parallel t)
    in Hres, Hfailed, Hsuccessful, Hlines.
  rewrite Hitems in Hfailed, Hsuccessful, Hlines.
  simpl in Hfailed, Hsuccessful, Hlines.
  rewrite Hfailed, Hres, ?Hlines in *. simpl in *.
  rewrite andb_true_r in Hdetails.
  assert (He' : e = None).
  { destruct He as [He|(He & Hsome & _)]; [exact He|].
    rewrite He, Hreports in Hsome. destruct Hsome; discriminate. }
  subst e. simpl in Hrun.
  assert (Hlog' : log = Vocabulary.tier_commands w tier).
  { destruct parallel; [apply Hlog|]. rewrite Hlog. apply Hseq. reflexivity. }
  exists r. rewrite Hrun, Hlog', Hf, Hs, Hsuccessful.
  repeat split; assumption.
Qed.

(** A pip project whose type checker reports ordinary errors. *)
Lemma X17_witness :
  ∃ r,
    QualityGatesAction.execute_tier QualityGatesAction.default_timeouts
      (QualityGatesAction.Build_World None
         (fun cmd => if String.eqb cmd "python -m typecheck"
                     then QualityGatesAction.Exited 1 "" "error: bad type"
                     else QualityGatesAction.Exited 0 "ok" "")
         (fun _ => O) None None None)
      "essential" None false None false
    = (QualityGatesAction.Returned r,
       ["python -m test"; "python -m lint"; "python -m typecheck"])
    ∧ QualityResult.failed_checks r = ["typecheck"]
    ∧ QualityResult.successful_checks r = ["test"; "lint"]
    ∧ QualityResult.failed_checks r ++ QualityResult.successful_checks r
      ≡ₚ ["test"; "lint"; "typecheck"]
    ∧ QualityResult.success r = false
    ∧ QualityResult.failure_reason r = None
    ∧ QualityResult.failed_fast r = false
    ∧ QualityResult.error_details r = Some "typecheck: error: bad type".
Proof.
  apply (X17_ordinary_failures_are_all_reported
           QualityGatesAction.default_timeouts
           (QualityGatesAction.Build_World None
              (fun cmd => if String.eqb cmd "python -m typecheck"
                          then QualityGatesAction.Exited 1 "" "error: bad type"
                          else QualityGatesAction.Exited 0 "ok" "")
              (fun _ => O) None None None)
           "essential" None false None).
  - intros cmd Hin.
    repeat (apply elem_of_cons in Hin as [->|Hin]; [vm_compute; reflexivity|]).
    apply elem_of_nil in Hin. destruct Hin.
  - reflexivity.
  - reflexivity.
  - reflexivity.
Defined.

Section RunAlways.
Import QualityGatesAction Vocabulary Statements.

Variable self_timeouts : dict Z.
Variable w : World.
Variable tier : string.
Variable timeout : option Z.
Variable timeouts_override : option (dict Z).
Variable parallel : bool.

Local Abbreviation t := (tier_timeout self_timeouts timeout timeouts_override).
Local Abbreviation a := (tier_analysis w tier parallel t).



End RunAlways.



Lemma dict_update_get_congr {V} (e : dict V) : ∀ (d d' : dict V) k,
  dict_get d k = dict_get d' k →
  dict_get (dict_update d e) k = dict_get (dict_update d' e) k.
Proof.
  unfold dict_update.
  induction e as [|[k0 v0] e IH]; intros d d' k Hk; simpl; [exact Hk|].
  apply IH. rewrite !dict_get_set, Hk. reflexivity.
Qed.

(** X20: of the configured timeouts only the entry "test" is ever
    read, and only when no explicit timeout is passed: two configurations
    that agree on "test" (or any two, under an explicit timeout) run the
    same commands and give the same verdict, check lists, reason, details
    and recorded timeout, whatever they say for "lint", "typecheck" or
    "security"; every command of the tier gets the same deadline. *)
Theorem X20_only_the_test_timeout_is_read
    (self_timeouts self_timeouts' : dict Z) (w : QualityGatesAction.World)
    (tier : string) (timeout : option Z) (parallel : bool)
    (timeouts_override : option (dict Z)) (dry_run : bool) :
  (timeout = None → dict_get self_timeouts "test" = dict_get self_timeouts' "test") →
  QualityGatesAction.execute_tier self_timeouts w tier timeout parallel
    timeouts_override dry_run
  = QualityGatesAction.execute_tier self_timeouts' w tier timeout parallel
      timeouts_override dry_run.
Proof.
  intros Htest.
  assert (Heff :
    QualityGatesAction.effective_timeout
      (QualityGatesAction.apply_overrides self_timeouts timeouts_override) timeout
    = QualityGatesAction.effective_timeout
        (QualityGatesAction.apply_overrides self_timeouts' timeouts_override)
        timeout).
  { unfold QualityGatesAction.effective_timeout.
    destruct timeout as [explicit|]; [reflexivity|].
    specialize (Htest eq_refl).
    destruct timeouts_override as [o|]; simpl;
      [rewrite (dict_update_get_congr o _ _ _ Htest)|rewrite Htest];
      reflexivity. }
  unfold QualityGatesAction.execute_tier. cbv zeta.
  rewrite Heff. reflexivity.
Qed.

(** The default configuration and one that only sets "test". *)
Lemma X20_witness :
  QualityGatesAction.execute_tier QualityGatesAction.default_timeouts
    (QualityGatesAction.Build_World None
       (fun _ => QualityGatesAction.Exited 0 "ok" "") (fun _ => O)
         None None None)
    "extended" None true (Some [("lint", 5%Z)]) false
  = QualityGatesAction.execute_tier [("test", 120%Z); ("lint", 1%Z)]
      (QualityGatesAction.Build_World None
         (fun _ => QualityGatesAction.Exited 0 "ok" "") (fun _ => O)
         None None None)
      "extended" None true (Some [("lint", 5%Z)]) false.
Proof.
  apply (X20_only_the_test_timeout_is_read QualityGatesAction.default_timeouts
           [("test", 120%Z); ("lint", 1%Z)]).
  intros _. reflexivity.
Defined.

(* ===================================================================== *)
(** ** Monorepo packages                                                   *)
(* ===================================================================== *)

Section Monorepo.
Import MonorepoHandler Statements.

Variable packages : dict package_info.

Lemma _get_file_package_key file package :
  _get_file_package packages file = Some package →
  ∃ info, dict_get packages package = Some info.
Proof.
  induction packages as [|[name info] rest IH]; simpl; [discriminate|].
  destruct (startswith file _).
  - intros [= ->]. rewrite String.eqb_refl. eauto.
  - intros H. destruct (String.eqb name package); eauto.
Qed.

Lemma dict_get_item {V} (d : dict V) k v : dict_get d k = Some v → (k, v) ∈ d.
Proof.
  induction d as [|[k0 v0] d IH]; simpl; [discriminate|].
  destruct (String.eqb k0 k) eqn:E.
  - apply String.eqb_eq in E. intros [= ->]. subst. apply list_elem_of_here.
  - intros H. apply list_elem_of_further, IH, H.
Qed.

Lemma _get_dependent_packages_exact package other :
  other ∈ _get_dependent_packages packages package
  ↔ is_Some (dict_get packages package) ∧ depends_on packages other package.
Proof.
  unfold _get_dependent_packages, depends_on.
  destruct (dict_get packages package) as [info0|] eqn:Hkey.
  2:{ split; [intros H; apply elem_of_empty in H; destruct H|].
      intros [[? H] _]. discriminate. }
  destruct (foldl_accumulate (fun _ : gset string => True)
              (fun acc => other ∈ acc)
              (fun item : string * package_info =>
                 other = fst item ∧ fst item ≠ package
                 ∧ mentions package (deps (snd item)) = true)
              (fun dependents '(other_package, package_info) =>
                 if negb (String.eqb other_package package)
                    && mentions package (deps package_info)
                 then {[other_package]} ∪ dependents
                 else dependents)
              packages) with (acc := (∅ : gset string)) as [_ Hiff]; auto.
  { intros acc [o info] _ _. simpl.
    destruct (String.eqb o package) eqn:E; simpl.
    - apply String.eqb_eq in E. split; [auto|]. intros [H|(_ & H & _)]; [auto|].
      congruence.
    - apply String.eqb_neq in E.
      destruct (mentions package (deps info)); simpl.
      + rewrite elem_of_union, elem_of_singleton. split.
        * intros [->|H]; auto.
        * intros [H|(-> & _)]; auto.
      + split; [auto|]. intros [H|(_ & _ & H)]; [auto|discriminate]. }
  rewrite Hiff. split.
  - intros [H|([o info] & Hin & -> & Hne & Hm)];
      [apply elem_of_empty in H; destruct H|].
    simpl in *. split; [eauto|]. split; [exact Hne|]. eauto.
  - intros (_ & Hne & info & Hin & Hm). right. exists (other, info). auto.
Qed.
End Monorepo.

(** X21: the packages reported for a change are exactly the packages
    that hold a changed file, together with the other packages whose
    dependencies mention one of those: one step along the dependencies
    and no further.  A file belongs to the first package, in the order of
    the package table, whose path followed by a slash starts the file's
    path; a joined dependency string mentions every name that occurs in it
    as a substring.  Every reported package is a key of the table. *)
Theorem X21_affected_packages_is_one_step_closure
    (packages : dict MonorepoHandler.package_info) (changed : list string)
    (package : string) :
  (package ∈ MonorepoHandler.get_affected_packages packages changed
   ↔ Statements.holds_change packages changed package
     ∨ ∃ changed_package,
         Statements.holds_change packages changed changed_package
         ∧ Statements.depends_on packages package changed_package)
  ∧ (package ∈ MonorepoHandler.get_affected_packages packages changed →
     package ∈ dict_keys packages).
Proof.
  unfold MonorepoHandler.get_affected_packages.
  set (direct := foldl _ ∅ changed).
  assert (Hdirect : ∀ p, p ∈ direct ↔ Statements.holds_change packages changed p).
  { intros p. unfold direct, Statements.holds_change.
    destruct (foldl_accumulate (fun _ : gset string => True)
                (fun acc => p ∈ acc)
                (fun file => p ≠ ""
                   ∧ MonorepoHandler._get_file_package packages file = Some p)
                (fun affected_packages file =>
                   match MonorepoHandler._get_file_package packages file with
                   | Some package =>
                       if String.eqb package "" then affected_packages
                       else {[package]} ∪ affected_packages
                   | None => affected_packages
                   end)
                changed) with (acc := (∅ : gset string)) as [_ Hiff]; auto.
    { intros acc file _ _.
      destruct (MonorepoHandler._get_file_package packages file) as [q|];
        [|split; [auto|intros [H|[_ H]]; [auto|discriminate]]].
      destruct (String.eqb q "") eqn:E.
      - apply String.eqb_eq in E. subst q.
        split; [auto|]. intros [H|[Hp [= <-]]]; [auto|congruence].
      - apply String.eqb_neq in E.
        rewrite elem_of_union, elem_of_singleton. split.
        + intros [->|H]; auto.
        + intros [H|[_ [= ->]]]; auto. }
    rewrite Hiff. split.
    - intros [H|(file & Hin & Hp & Hfile)];
        [apply elem_of_empty in H; destruct H|eauto].
    - intros (Hp & file & Hin & Hfile). right. eauto. }
  destruct (foldl_accumulate (fun _ : gset string => True)
              (fun acc => package ∈ acc)
              (fun q => package ∈ MonorepoHandler._get_dependent_packages
                                    packages q)
              (fun affected_with_deps q =>
                 affected_with_deps
                 ∪ MonorepoHandler._get_dependent_packages packages q)
              (elements direct)) with (acc := direct) as [_ Hiff]; auto.
  { intros acc q _ _. apply elem_of_union. }
  assert (Hexact :
    package ∈ foldl (fun affected_with_deps q =>
                       affected_with_deps
                       ∪ MonorepoHandler._get_dependent_packages packages q)
                    direct (elements direct)
    ↔ Statements.holds_change packages changed package
      ∨ ∃ changed_package,
          Statements.holds_change packages changed changed_package
          ∧ Statements.depends_on packages package changed_package).
  { rewrite Hiff, Hdirect. split.
    - intros [H|(q & Hq & Hdep)]; [auto|]. right. exists q.
      apply elem_of_elements, Hdirect in Hq.
      apply _get_dependent_packages_exact in Hdep as [_ Hdep]. auto.
    - intros [H|(q & Hq & Hdep)]; [auto|]. right. exists q. split.
      + apply elem_of_elements, Hdirect, Hq.
      + apply _get_dependent_packages_exact. split; [|exact Hdep].
        destruct Hq as (_ & file & _ & Hfile).
        destruct (_get_file_package_key packages file q Hfile) as [info Hinfo].
        eauto. }
  split; [exact Hexact|].
  intros Hin. apply Hexact in Hin.
  destruct Hin as [(_ & file & _ & Hfile)|(q & _ & _ & info & Hinfo & _)].
  - destruct (_get_file_package_key packages file package Hfile) as [info Hinfo].
    apply dict_get_item in Hinfo. unfold dict_keys.
    apply list_elem_of_fmap. exists (package, info). auto.
  - unfold dict_keys. apply list_elem_of_fmap. exists (package, info). auto.
Qed.

(* ===================================================================== *)
(** ** Process cleanup                                                     *)
(* ===================================================================== *)

Section CleanupFacts.
Import Cleanup Statements.

Variable os : Processes.

Lemma remove_first_Permutation x xs : x ∈ xs → xs ≡ₚ x :: remove_first x xs.
Proof.
  induction xs as [|y ys IH]; simpl; intros Hin; [inversion Hin|].
  destruct (bool_decide (y = x)) eqn:E.
  - apply bool_decide_eq_true in E. subst. reflexivity.
  - apply bool_decide_eq_false in E.
    apply elem_of_cons in Hin as [->|Hin]; [congruence|].
    rewrite (IH Hin) at 1. apply perm_swap.
Qed.

Lemma cleanup_one_spec running signals process :
  cleanup_one os (running, signals) process
  = (if bool_decide (process ∈ running) then remove_first process running
     else running,
     signals ++ signals_for os process).
Proof.
  unfold signals_for, cleanup_one, force_kill. f_equal.
  destruct (poll os process); [destruct (terminate os process)| |];
    destruct (kill os process); simpl;
    rewrite ?app_nil_r, <- ?app_assoc; reflexivity.
Qed.

Lemma cleanup_loop copy : ∀ running signals,
  running ≡ₚ copy →
  foldl (cleanup_one os) (running, signals) copy
  = ([], signals ++ concat (List.map (signals_for os) copy)).
Proof.
  induction copy as [|p copy IH]; intros running signals Hperm; cbn [foldl].
  - apply Permutation_nil_r in Hperm. subst. simpl. rewrite app_nil_r.
    reflexivity.
  - rewrite cleanup_one_spec.
    assert (Hin : p ∈ running) by (rewrite Hperm; apply list_elem_of_here).
    rewrite bool_decide_eq_true_2 by exact Hin.
    rewrite IH, <- app_assoc; [reflexivity|].
    apply (Permutation_cons_inv (a := p)).
    rewrite <- remove_first_Permutation by exact Hin. exact Hperm.
Qed.

Lemma signals_for_facts process p s :
  (p, s) ∈ signals_for os process →
  p = process
  ∧ poll os p ≠ HasExited
  ∧ (s = SIGKILL →
     kill os p = true
     ∧ (poll os p = PollRaised
        ∨ (poll os p = StillRunning ∧ terminate os p ≠ Terminated))).
Proof.
  unfold signals_for, cleanup_one, force_kill.
  destruct (poll os process) eqn:Hpoll;
    [destruct (terminate os process) eqn:Hterm| |];
    destruct (kill os process) eqn:Hkill; simpl; intros Hin;
    set_unfold in Hin; destruct_or?; simplify_eq/=;
    rewrite ?Hpoll, ?Hterm, ?Hkill; naive_solver.
Qed.

Lemma signals_for_running process :
  poll os process = StillRunning →
  (process, SIGTERM) ∈ signals_for os process
  ∨ (process, SIGKILL) ∈ signals_for os process
  ∨ (terminate os process = NotDelivered ∧ kill os process = false).
Proof.
  unfold signals_for, cleanup_one, force_kill. intros ->.
  destruct (terminate os process); destruct (kill os process); simpl;
    first [ left; apply list_elem_of_here
          | right; left; apply list_elem_of_here
          | right; right; split; reflexivity ].
Qed.
End CleanupFacts.

(** X22: [cleanup] leaves no process registered, whatever the
    processes and the operating system do and however often a process is
    listed.  It signals only registered processes that have not been seen
    to exit; a [SIGKILL] goes only to a process whose poll raised or whose
    polite termination failed; and every process found running gets a
    signal unless both attempts to send one raise. *)
Theorem X22_cleanup_empties_the_registry
    (os : Cleanup.Processes) (running_processes : list nat) :
  ∃ signals,
    Cleanup.cleanup os running_processes = ([], signals)
    ∧ (∀ p s, (p, s) ∈ signals →
         p ∈ running_processes ∧ Cleanup.poll os p ≠ Cleanup.HasExited)
    ∧ (∀ p, (p, Cleanup.SIGKILL) ∈ signals →
         Cleanup.kill os p = true
         ∧ (Cleanup.poll os p = Cleanup.PollRaised
            ∨ (Cleanup.poll os p = Cleanup.StillRunning
               ∧ Cleanup.terminate os p ≠ Cleanup.Terminated)))
    ∧ (∀ p, p ∈ running_processes →
         Cleanup.poll os p = Cleanup.StillRunning →
         (p, Cleanup.SIGTERM) ∈ signals
         ∨ (p, Cleanup.SIGKILL) ∈ signals
         ∨ (Cleanup.terminate os p = Cleanup.NotDelivered
            ∧ Cleanup.kill os p = false)).
Proof.
  unfold Cleanup.cleanup.
  rewrite (cleanup_loop os running_processes running_processes [])
    by reflexivity.
  eexists. split; [reflexivity|]. simpl.
  assert (Hmem : ∀ item,
            item ∈ concat (List.map (Statements.signals_for os) running_processes)
            ↔ ∃ process, process ∈ running_processes
                         ∧ item ∈ Statements.signals_for os process).
  { intros item. rewrite list_elem_of_In, in_concat. split.
    - intros (l & Hl & Hitem).
      apply List.in_map_iff in Hl as (process & <- & Hp).
      exists process. split; apply list_elem_of_In; assumption.
    - intros (process & Hp & Hitem). exists (Statements.signals_for os process).
      split; [|apply list_elem_of_In, Hitem].
      apply List.in_map_iff. exists process.
      split; [reflexivity|apply list_elem_of_In, Hp]. }
  repeat split.
  - apply Hmem in H as (process & Hp & Hitem).
    apply signals_for_facts in Hitem as (-> & _). exact Hp.
  - apply Hmem in H as (process & Hp & Hitem).
    apply signals_for_facts in Hitem as (_ & Hpoll & _). exact Hpoll.
  - apply Hmem in H as (process & Hp & Hitem).
    apply signals_for_facts in Hitem as (_ & _ & Hk). apply Hk. reflexivity.
  - apply Hmem in H as (process & Hp & Hitem).
    apply signals_for_facts in Hitem as (_ & _ & Hk). apply Hk. reflexivity.
  - intros p Hp Hpoll.
    destruct (signals_for_running os p Hpoll) as [H|[H|H]];
      [left|right; left|right; right; exact H]; apply Hmem; eauto.
Qed.

(* ===================================================================== *)
(** ** The change detection action                                         *)
(* ===================================================================== *)

Section ChangedFiles.
Import ChangeDetectionAction Statements.

Lemma split_on_line name : ∀ rest,
  newline ∉ list_ascii_of_string name →
  split_on newline (name +:+ String newline rest)
  = name :: split_on newline rest.
Proof.
  induction name as [|c name IH]; intros rest Hfree.
  - reflexivity.
  - change (String c name +:+ String newline rest)
      with (String c (name +:+ String newline rest)).
    cbn [split_on]. simpl in Hfree.
    apply not_elem_of_cons in Hfree as [Hc Hfree].
    destruct (Ascii.eqb_spec c newline) as [->|_]; [congruence|].
    rewrite (IH rest Hfree). reflexivity.
Qed.

Lemma split_on_free sep s :
  Forall (fun piece => sep ∉ list_ascii_of_string piece) (split_on sep s).
Proof.
  induction s as [|c s IH]; cbn [split_on].
  - constructor; [apply not_elem_of_nil|constructor].
  - destruct (Ascii.eqb_spec c sep) as [->|Hc].
    + constructor; [apply not_elem_of_nil|exact IH].
    + destruct (split_on sep s) as [|piece pieces].
      * constructor; [|constructor]. simpl.
        apply not_elem_of_cons. split; [congruence|apply not_elem_of_nil].
      * inversion IH as [|? ? Hpiece Hpieces]; subst.
        constructor; [|exact Hpieces]. simpl.
        apply not_elem_of_cons. split; [congruence|exact Hpiece].
Qed.

Lemma lstrip_facts n : ∀ s,
  (String.length s ≤ n)%nat →
  starts_with_whitespace (lstrip s) = false ∧ ∃ pre, s = pre +:+ lstrip s.
Proof.
  induction n as [|n IH]; intros s Hlen.
  { destruct s; [|simpl in Hlen; lia].
    split; [reflexivity|]. exists "". reflexivity. }
  destruct s as [|c1 s1]; [split; [reflexivity|]; exists ""; reflexivity|].
  simpl in Hlen. cbn [lstrip].
  destruct (Py.is_space c1) eqn:H1.
  { destruct (IH s1) as [Hclean [pre Hpre]]; [lia|].
    split; [exact Hclean|]. exists (String c1 pre).
    change (String c1 pre +:+ lstrip s1) with (String c1 (pre +:+ lstrip s1)).
    rewrite <- Hpre. reflexivity. }
  destruct s1 as [|c2 s2].
  { split; [simpl; rewrite H1; reflexivity|]. exists "". reflexivity. }
  simpl in Hlen. destruct (space2 c1 c2) eqn:H2.
  { destruct (IH s2) as [Hclean [pre Hpre]]; [lia|].
    split; [exact Hclean|]. exists (String c1 (String c2 pre)).
    change (String c1 (String c2 pre) +:+ lstrip s2)
      with (String c1 (String c2 (pre +:+ lstrip s2))).
    rewrite <- Hpre. reflexivity. }
  destruct s2 as [|c3 s3].
  { split; [simpl; rewrite H1, H2; reflexivity|]. exists "". reflexivity. }
  simpl in Hlen. destruct (space3 c1 c2 c3) eqn:H3.
  { destruct (IH s3) as [Hclean [pre Hpre]]; [lia|].
    split; [exact Hclean|]. exists (String c1 (String c2 (String c3 pre))).
    change (String c1 (String c2 (String c3 pre)) +:+ lstrip s3)
      with (String c1 (String c2 (String c3 (pre +:+ lstrip s3)))).
    rewrite <- Hpre. reflexivity. }
  split; [simpl; rewrite H1, H2, H3; reflexivity|]. exists "". reflexivity.
Qed.

Lemma lstrip_clean s : starts_with_whitespace (lstrip s) = false.
Proof. exact (proj1 (lstrip_facts (String.length s) s (le_n _))). Qed.

Lemma lstrip_chars s c :
  c ∈ list_ascii_of_string (lstrip s) → c ∈ list_ascii_of_string s.
Proof.
  destruct (proj2 (lstrip_facts (String.length s) s (le_n _))) as [pre Hpre].
  intros H. rewrite Hpre, list_ascii_of_string_app. apply elem_of_app. auto.
Qed.

Lemma lstrip_fixed s : starts_with_whitespace s = false → lstrip s = s.
Proof.
  destruct s as [|c1 s1]; [reflexivity|]. cbn [lstrip starts_with_whitespace].
  intros H. apply orb_false_iff in H as [-> H].
  destruct s1 as [|c2 s2]; [reflexivity|].
  apply orb_false_iff in H as [-> H].
  destruct s2 as [|c3 s3]; [reflexivity|]. rewrite H. reflexivity.
Qed.

Lemma rstrip_prefix s : ∃ rest, s = rstrip s +:+ rest.
Proof.
  induction s as [|c s IH]; [exists ""; reflexivity|].
  cbn [rstrip]. destruct IH as [rest Hrest].
  destruct (is_whitespace (String c (rstrip s))).
  - exists (String c s). reflexivity.
  - exists rest.
    change (String c (rstrip s) +:+ rest) with (String c (rstrip s +:+ rest)).
    rewrite <- Hrest. reflexivity.
Qed.

Lemma rstrip_chars s c :
  c ∈ list_ascii_of_string (rstrip s) → c ∈ list_ascii_of_string s.
Proof.
  destruct (rstrip_prefix s) as [rest Hrest].
  intros H. rewrite Hrest, list_ascii_of_string_app. apply elem_of_app. auto.
Qed.

Lemma rstrip_idempotent s : rstrip (rstrip s) = rstrip s.
Proof.
  induction s as [|c s IH]; [reflexivity|]. cbn [rstrip].
  destruct (is_whitespace (String c (rstrip s))) eqn:Hw; [reflexivity|].
  cbn [rstrip]. rewrite IH, Hw. reflexivity.
Qed.

(** A prefix of a string that does not begin with white space does not
    begin with white space. *)
Lemma starts_with_whitespace_prefix p rest :
  starts_with_whitespace (p +:+ rest) = false →
  starts_with_whitespace p = false.
Proof.
  destruct p as [|c1 [|c2 [|c3 p]]]; [reflexivity| | |].
  - change (String c1 "" +:+ rest) with (String c1 rest).
    cbn [starts_with_whitespace]. intros H.
    apply orb_false_iff in H as [-> _]. reflexivity.
  - change (String c1 (String c2 "") +:+ rest)
      with (String c1 (String c2 rest)).
    cbn [starts_with_whitespace]. intros H.
    apply orb_false_iff in H as [-> H].
    apply orb_false_iff in H as [-> _]. reflexivity.
  - change (String c1 (String c2 (String c3 p)) +:+ rest)
      with (String c1 (String c2 (String c3 (p +:+ rest)))).
    cbn [starts_with_whitespace]. auto.
Qed.

Lemma strip_idempotent s : strip (strip s) = strip s.
Proof.
  unfold strip.
  assert (H : lstrip (rstrip (lstrip s)) = rstrip (lstrip s)).
  { apply lstrip_fixed.
    destruct (rstrip_prefix (lstrip s)) as [rest Hrest].
    apply (starts_with_whitespace_prefix _ rest).
    rewrite <- Hrest. apply lstrip_clean. }
  rewrite H. apply rstrip_idempotent.
Qed.

Lemma strip_chars s c :
  c ∈ list_ascii_of_string (strip s) → c ∈ list_ascii_of_string s.
Proof. intros H. apply lstrip_chars, rstrip_chars, H. Qed.

Lemma parse_printed names :
  Forall tidy names →
  List.map strip
    (List.filter (fun f => negb (String.eqb (strip f) ""))
                 (split_on newline (printed names)))
  = names.
Proof.
  induction 1 as [|name names (Hne & Hstrip & Hfree) _ IH]; [reflexivity|].
  cbn [printed]. rewrite split_on_line by exact Hfree.
  cbn [List.filter]. rewrite Hstrip.
  destruct (String.eqb_spec name "") as [->|_]; [congruence|].
  cbn [negb List.map]. rewrite Hstrip, IH. reflexivity.
Qed.
End ChangedFiles.

(** X23: [_get_changed_files] reads the output of [git diff] line by
    line.  Every path it returns is tidy: not empty, free of line breaks
    and of white space at either end.  When git prints a list of tidy
    paths, one per line, exactly that list comes back, in order.  When git
    exits with a non-zero code or cannot be run, the list is empty. *)
Theorem X23_changed_files_are_the_lines_git_prints
    (w : ChangeDetectionAction.World) :
  (∀ f, f ∈ ChangeDetectionAction._get_changed_files w → Statements.tidy f)
  ∧ (∀ names,
       ChangeDetectionAction.git_diff w
       = ChangeDetectionAction.GitExited 0 (Statements.printed names) →
       Forall Statements.tidy names →
       ChangeDetectionAction._get_changed_files w = names)
  ∧ ((∀ stdout, ChangeDetectionAction.git_diff w
                ≠ ChangeDetectionAction.GitExited 0 stdout) →
     ChangeDetectionAction._get_changed_files w = []).
Proof.
  unfold ChangeDetectionAction._get_changed_files.
  split; [|split].
  - intros f.
    destruct (ChangeDetectionAction.git_diff w) as [returncode stdout|];
      [|intros H; apply elem_of_nil in H; destruct H].
    destruct (negb (returncode =? 0)%Z);
      [intros H; apply elem_of_nil in H; destruct H|].
    intros Hf. apply list_elem_of_fmap in Hf as (piece & -> & Hpiece).
    apply list_elem_of_In, List.filter_In in Hpiece as [Hpiece Hkeep].
    pose proof (split_on_free ChangeDetectionAction.newline stdout) as Hfree.
    rewrite List.Forall_forall in Hfree. specialize (Hfree piece Hpiece).
    split; [|split].
    + intros Hempty. rewrite Hempty in Hkeep. discriminate.
    + apply strip_idempotent.
    + intros Hin. apply Hfree, strip_chars, Hin.
  - intros names -> Htidy. simpl. apply parse_printed, Htidy.
  - intros Hfail.
    destruct (ChangeDetectionAction.git_diff w) as [returncode stdout|];
      [|reflexivity].
    destruct (Z.eqb_spec returncode 0) as [->|_]; [|reflexivity].
    destruct (Hfail stdout). reflexivity.
Qed.

Section ExecuteFacts.
Import ChangeDetectionAction Statements.

Variable self : t.
Variable w : World.

Local Abbreviation patterns := (FilePatternMatcher.init (custom_patterns self)).
Local Abbreviation changed := (_get_changed_files w).

Lemma filed_under_subset k files f :
  f ∈ filed_under patterns k files
  ↔ f ∈ files ∧ Vocabulary.assigned patterns f = Some k.
Proof.
  unfold filed_under.
  rewrite list_elem_of_In, List.filter_In, <- list_elem_of_In.
  rewrite bool_decide_eq_true. reflexivity.
Qed.

Lemma files_of_filed files cls k :
  filed patterns files cls →
  Vocabulary.files_of cls k = filed_under patterns k files.
Proof.
  intros [Hkeys Hget]. unfold Vocabulary.files_of.
  destruct (decide (k ∈ dict_keys patterns)) as [Hk|Hk].
  - rewrite (Hget k Hk). reflexivity.
  - destruct (dict_get cls k) as [xs|] eqn:Hxs.
    + apply dict_get_Some_keys in Hxs. rewrite Hkeys in Hxs. contradiction.
    + simpl. destruct (filed_under patterns k files) as [|f fs] eqn:Hf;
        [reflexivity|].
      assert (Hin : f ∈ filed_under patterns k files)
        by (rewrite Hf; apply list_elem_of_here).
      apply filed_under_subset in Hin as [_ Ha].
      destruct Hk.
      exact (assigned_key patterns
               (init_extension_categories (custom_patterns self)) f k Ha).
Qed.

Lemma affected_tests_characterised (g : DependencyAnalyzer.graph)
    (changed_files : list string) :
  ∃ tests am,
    ImpactAnalysis.get_affected_tests
      (S (size (DependencyAnalyzer.graph_universe g))) g changed_files
    = Some tests
    ∧ DependencyAnalyzer.get_affected_modules
        (S (size (DependencyAnalyzer.graph_universe g))) g changed_files
      = Some am
    ∧ (∀ x, x ∈ am ↔ impacted g changed_files x)
    ∧ ∀ t,
        t ∈ tests
        ↔ (t ∈ changed_files ∧ DependencyAnalyzer._is_test_file t = true)
          ∨ (∃ m, impacted g changed_files m ∧ test_file_at g m t)
          ∨ (∃ node i,
               g !! t = Some node ∧ DependencyAnalyzer.is_test node = true
               ∧ i ∈ DependencyAnalyzer.imports node
               ∧ impacted g changed_files i).
Proof.
  destruct (affected_modules_exact g changed_files) as (am & Ham & Hiff).
  unfold affected_modules in Ham.
  unfold ImpactAnalysis.get_affected_tests. rewrite Ham.
  eexists _, am. split; [reflexivity|]. split; [reflexivity|].
  split; [exact Hiff|]. intros t.
  rewrite add_importing_tests_spec, add_module_tests_spec, changed_tests_spec.
  split.
  - intros [[H|(m & Hm & Ht)]|(node & i & Hn & Ht & Hi & Hia)].
    + auto.
    + right. left. exists m. split; [apply Hiff, Hm|exact Ht].
    + right. right. exists node, i. repeat split; auto. apply Hiff, Hia.
  - intros [H|[(m & Hm & Ht)|(node & i & Hn & Ht & Hi & Hia)]].
    + auto.
    + left. right. exists m. split; [apply Hiff, Hm|exact Ht].
    + right. exists node, i. repeat split; auto. apply Hiff, Hia.
Qed.

(** The dependency analysis always returns; it is empty unless the
    analysis runs, and on a new instance it finds the changed test files
    and nothing else. *)
Lemma dependency_analysis_spec cls files :
  filed patterns files cls →
  ∃ tests impact,
    dependency_analysis self w cls files = Some (tests, impact)
    ∧ NoDup tests
    ∧ (¬ analysis_runs self files → tests = [] ∧ impact = 0%Z)
    ∧ (analysis_runs self files →
       ∀ t, t ∈ files → DependencyAnalyzer._is_test_file t = true → t ∈ tests)
    ∧ (dependency_graph self = ∅ →
       ∀ t, t ∈ tests →
            t ∈ files ∧ DependencyAnalyzer._is_test_file t = true).
Proof.
  intros Hfiled. unfold dependency_analysis, analysis_runs.
  pose proof (files_of_filed files cls "source" Hfiled) as Hsrc.
  unfold Vocabulary.files_of in Hsrc. rewrite Hsrc.
  destruct (bool_decide _) eqn:Hlevel.
  2:{ apply bool_decide_eq_false in Hlevel. eexists _, _.
      split; [reflexivity|]. split; [constructor|].
      split; [auto|]. split; [intros [H _]; contradiction|].
      intros _ t Ht. apply elem_of_nil in Ht. destruct Ht. }
  apply bool_decide_eq_true in Hlevel.
  destruct (filed_under patterns "source" files) as [|f fs] eqn:Hfs.
  { eexists _, _. split; [reflexivity|]. split; [constructor|].
    split; [auto|]. split; [intros [_ H]; congruence|].
    intros _ t Ht. apply elem_of_nil in Ht. destruct Ht. }
  rewrite <- Hfs.
  set (g := DependencyAnalyzer.build_dependency_graph (analyze_file w)
              (dependency_graph self) (filed_under patterns "source" files)).
  destruct (affected_tests_characterised g files)
    as (tests & am & -> & -> & Ham & Htests).
  eexists _, _. split; [reflexivity|]. split; [apply NoDup_elements|].
  split; [intros Hno; destruct Hno; split; [exact Hlevel|congruence]|].
  split.
  - intros _ t Ht Htest. apply elem_of_elements, Htests. auto.
  - intros Hnew t Ht. apply elem_of_elements, Htests in Ht.
    assert (Hnode : ∀ p node, g !! p = Some node →
              DependencyAnalyzer.is_test node = true →
              p ∈ files ∧ DependencyAnalyzer._is_test_file p = true).
    { intros p node Hp Htest. subst g. rewrite Hnew in Hp.
      destruct (built_graph_nodes (analyze_file w)
                  (filed_under patterns "source" files) p) as [Hdom Hfields].
      unfold built_graph in Hdom, Hfields.
      destruct (proj1 Hdom (mk_is_Some _ _ Hp)) as (Hin & _).
      apply filed_under_subset in Hin as [Hin _].
      destruct (Hfields node Hp) as [_ <-]. auto. }
    destruct Ht as [H|[(m & _ & Ht)|(node & i & Hn & Htest & _)]].
    + exact H.
    + assert (Htm : tests_module g t m).
      { subst g. rewrite Hnew in Ht |- *.
        apply (built_graph_test_files (analyze_file w)
                 (filed_under patterns "source" files) m t), Ht. }
      destruct Htm as (nt & _ & Hnt & Htest & _). exact (Hnode t nt Hnt Htest).
    + exact (Hnode t node Hn Htest).
Qed.

(** The paths [execute] takes. *)
Lemma execute_paths :
  ∃ cls tests impact,
    FilePatternMatcher.classify_files patterns changed = Some cls
    ∧ filed patterns changed cls
    ∧ dependency_analysis self w cls changed = Some (tests, impact)
    ∧ execute self w
      = Some (match changed with
              | [] => _create_empty_result self
              | _ =>
                  match monorepo_analysis self w changed with
                  | inr e => no_recommendation self false (Some e)
                  | inl packages =>
                      match reports_fault w with
                      | Some msg =>
                          no_recommendation self false (Some (Raised msg))
                      | None =>
                          create_result self changed cls packages tests impact
                      end
                  end
              end).
Proof.
  destruct (classify_files_filed patterns
              (init_extension_categories (custom_patterns self)) changed)
    as (cls & Hcls & Hfiled).
  destruct (dependency_analysis_spec cls changed Hfiled)
    as (tests & impact & Hdep & _).
  exists cls, tests, impact.
  split; [exact Hcls|]. split; [exact Hfiled|]. split; [exact Hdep|].
  unfold execute. destruct changed as [|f fs] eqn:Hchanged; [reflexivity|].
  unfold analyse. rewrite Hcls, Hdep.
  destruct (monorepo_analysis self w (f :: fs)); [|reflexivity].
  destruct (reports_fault w); reflexivity.
Qed.

Lemma monorepo_analysis_raises files e :
  monorepo_analysis self w files = inr e
  ↔ monorepo_mode self = true ∧ ∃ msg, detect_packages w = inl msg ∧ e = Raised msg.
Proof.
  unfold monorepo_analysis. destruct (monorepo_mode self).
  - destruct (detect_packages w) as [msg|packages]; split.
    + intros [= <-]. eauto.
    + intros (_ & msg' & [= <-] & ->). reflexivity.
    + discriminate.
    + intros (_ & msg' & ? & _). discriminate.
  - split; [discriminate|]. intros [? _]. discriminate.
Qed.
End ExecuteFacts.

Section ExecuteFlags.
Import ChangeDetectionAction OptimizationEngine Statements.

Lemma total_files_from (values : list (list string)) : ∀ acc,
  fold_left (fun acc files => (acc + List.length files)%nat) values acc
  = (acc + fold_left (fun acc files => (acc + List.length files)%nat) values O)%nat.
Proof.
  induction values as [|v values IH]; intros acc; simpl; [lia|].
  rewrite (IH (acc + length v)%nat), (IH (length v)). lia.
Qed.

Lemma total_files_positive (cls : dict (list string)) k x xs :
  dict_get cls k = Some (x :: xs) → total_files cls ≠ O.
Proof.
  unfold total_files, dict_values.
  induction cls as [|[k0 v0] cls IH]; simpl; [discriminate|].
  rewrite total_files_from.
  destruct (String.eqb k0 k).
  - intros [= ->]. simpl. lia.
  - intros H. specialize (IH H). lia.
Qed.

Lemma has_files (cls : dict (list string)) k :
  (0 <? dict_len_at cls k)%nat
  = match Vocabulary.files_of cls k with [] => false | _ => true end.
Proof.
  unfold dict_len_at, Vocabulary.files_of.
  destruct (dict_get cls k) as [[|x xs]|]; reflexivity.
Qed.

(** A source or dependency change keeps tests, security and lint; a
    test change keeps the tests. *)
Lemma stages_kept (engine : OptimizationEngine.t) (cls : dict (list string))
    (tests : list string) :
  (Vocabulary.files_of cls "source" ≠ []
   ∨ Vocabulary.files_of cls "dependencies" ≠ [] →
   skip_tests (calculate_optimization engine cls tests) = false
   ∧ skip_security (calculate_optimization engine cls tests) = false
   ∧ skip_lint (calculate_optimization engine cls tests) = false)
  ∧ (Vocabulary.files_of cls "tests" ≠ [] →
     skip_tests (calculate_optimization engine cls tests) = false).
Proof.
  unfold calculate_optimization.
  destruct (total_files cls =? 0)%nat; [split; intros _; repeat split|].
  unfold _analyze_change_patterns. rewrite !has_files.
  destruct engine as [t j].
  destruct (Vocabulary.files_of cls "source"),
           (Vocabulary.files_of cls "tests"),
           (Vocabulary.files_of cls "docs"),
           (Vocabulary.files_of cls "config"),
           (Vocabulary.files_of cls "dependencies"),
           (Vocabulary.files_of cls "build");
    destruct t, j; split; intros H; try (destruct H as [H|H]);
    try congruence; vm_compute; repeat split.
Qed.

(** The flags of a change that only touches documentation. *)
Lemma docs_only_flags (engine : OptimizationEngine.t)
    (cls : dict (list string)) (tests : list string) :
  Vocabulary.files_of cls "docs" ≠ [] →
  (∀ k, k ≠ "docs" → Vocabulary.files_of cls k = []) →
  skip_tests (calculate_optimization engine cls tests)
  = enable_test_optimization engine
  ∧ skip_security (calculate_optimization engine cls tests)
    = enable_job_skipping engine
  ∧ skip_lint (calculate_optimization engine cls tests)
    = enable_job_skipping engine
  ∧ skip_docs (calculate_optimization engine cls tests) = false
  ∧ (engine = default_engine →
     optimization_score (calculate_optimization engine cls tests) = 75%Z
     ∧ time_savings (calculate_optimization engine cls tests) = 330%Z).
Proof.
  intros Hdocs Hother.
  assert (Htotal : total_files cls ≠ O).
  { unfold Vocabulary.files_of in Hdocs.
    destruct (dict_get cls "docs") as [[|x xs]|] eqn:Hget;
      [simpl in Hdocs; congruence| |simpl in Hdocs; congruence].
    exact (total_files_positive cls "docs" x xs Hget). }
  rewrite calculate_optimization_nonempty by exact Htotal.
  unfold _analyze_change_patterns. rewrite !has_files.
  rewrite (Hother "source"), (Hother "tests"), (Hother "config"),
    (Hother "dependencies"), (Hother "ci"), (Hother "build") by discriminate.
  destruct (Vocabulary.files_of cls "docs"); [congruence|].
  destruct engine as [t j]. destruct t, j; simpl;
    repeat split; intros; try discriminate; vm_compute; reflexivity.
Qed.
End ExecuteFlags.


Section ExecuteRuns.
Import ChangeDetectionAction Statements.

Variable self : t.
Variable w : World.

Lemma analysis_runs_dec files :
  analysis_runs self files ∨ ¬ analysis_runs self files.
Proof.
  unfold analysis_runs.
  destruct (decide (detection_level self ∈ ["standard"; "comprehensive"]))
    as [Hlevel|Hlevel]; [|right; intros [H _]; contradiction].
  destruct (filed_under _ "source" files); [right|left].
  - intros [_ H]. congruence.
  - split; [exact Hlevel|discriminate].
Qed.

(** A run without input/output fault returns the result built from the
    classification and the dependency analysis. *)
Lemma execute_succeeds :
  _get_changed_files w ≠ [] → ¬ io_fault self w →
  ∃ cls tests impact packages,
    filed (FilePatternMatcher.init (custom_patterns self))
      (_get_changed_files w) cls
    ∧ dependency_analysis self w cls (_get_changed_files w)
      = Some (tests, impact)
    ∧ execute self w
      = Some (create_result self (_get_changed_files w) cls packages tests
                impact).
Proof.
  intros Hchanged Hfault.
  destruct (execute_paths self w)
    as (cls & tests & impact & _ & Hfiled & Hdep & Hrun).
  destruct (_get_changed_files w) as [|f fs] eqn:Hfiles; [congruence|].
  destruct (monorepo_analysis self w (f :: fs)) as [packages|e] eqn:Hmono.
  2:{ apply monorepo_analysis_raises in Hmono as (Hmode & msg & Hmsg & _).
      destruct Hfault. left. eauto. }
  destruct (reports_fault w) as [msg|] eqn:Hreports;
    [destruct Hfault; right; eauto|].
  exists cls, tests, impact, packages. auto.
Qed.
End ExecuteRuns.

(** X25: a change that only touches documentation, through the whole
    action.  When every changed file is filed under "docs" and nothing
    raises, [execute] succeeds, files the whole change under "docs",
    skips tests (if test optimization is enabled), security and lint (if
    job skipping is enabled) but never the documentation build, runs no
    dependency analysis, and with the default toggles scores 75 and saves
    330 seconds. *)
Theorem X25_documentation_change_end_to_end
    (self : ChangeDetectionAction.t) (w : ChangeDetectionAction.World) :
  ChangeDetectionAction._get_changed_files w ≠ [] →
  (∀ f, f ∈ ChangeDetectionAction._get_changed_files w →
        Vocabulary.assigned
          (FilePatternMatcher.init (ChangeDetectionAction.custom_patterns self))
          f = Some "docs") →
  ¬ Statements.io_fault self w →
  ∃ r,
    ChangeDetectionAction.execute self w = Some r
    ∧ ChangeDetectionAction.success r = true
    ∧ ChangeDetectionAction.changed_files r
      = ChangeDetectionAction._get_changed_files w
    ∧ Vocabulary.files_of (ChangeDetectionAction.classifications r) "docs"
      = ChangeDetectionAction._get_changed_files w
    ∧ ChangeDetectionAction.skip_tests r
      = OptimizationEngine.enable_test_optimization
          (ChangeDetectionAction.optimization_engine self)
    ∧ ChangeDetectionAction.skip_security r
      = OptimizationEngine.enable_job_skipping
          (ChangeDetectionAction.optimization_engine self)
    ∧ ChangeDetectionAction.skip_lint r
      = OptimizationEngine.enable_job_skipping
          (ChangeDetectionAction.optimization_engine self)
    ∧ ChangeDetectionAction.skip_docs r = false
    ∧ ChangeDetectionAction.affected_tests r = []
    ∧ ChangeDetectionAction.dependency_impact r = 0%Z
    ∧ (ChangeDetectionAction.optimization_engine self
       = OptimizationEngine.default_engine →
       ChangeDetectionAction.optimization_score r = 75%Z
       ∧ ChangeDetectionAction.time_savings r = 330%Z).
Proof.
  intros Hchanged Hdocs Hfault.
  destruct (execute_succeeds self w Hchanged Hfault)
    as (cls & tests & impact & packages & Hfiled & Hdep & Hrun).
  set (files := ChangeDetectionAction._get_changed_files w) in *.
  set (patterns := FilePatternMatcher.init
                     (ChangeDetectionAction.custom_patterns self)) in *.
  assert (Hunder : ∀ k, Vocabulary.files_of cls k
                        = Statements.filed_under patterns k files)
    by (intros k; apply files_of_filed, Hfiled).
  assert (Hall : Statements.filed_under patterns "docs" files = files).
  { unfold Statements.filed_under. apply forallb_filter_id, forallb_forall.
    intros f Hf. apply bool_decide_eq_true, Hdocs, list_elem_of_In, Hf. }
  assert (Hnone : ∀ k, k ≠ "docs" → Vocabulary.files_of cls k = []).
  { intros k Hk. rewrite Hunder.
    destruct (Statements.filed_under patterns k files) as [|f fs] eqn:Hf;
      [reflexivity|].
    assert (Hin : f ∈ Statements.filed_under patterns k files)
      by (rewrite Hf; apply list_elem_of_here).
    apply filed_under_subset in Hin as [Hin Ha].
    pose proof (Hdocs f Hin) as Hd. unfold patterns in Hd. congruence. }
  destruct (dependency_analysis_spec self w cls files Hfiled)
    as (tests' & impact' & Hdep' & _ & Hidle & _).
  rewrite Hdep in Hdep'. injection Hdep' as <- <-.
  destruct Hidle as [-> ->].
  { intros [_ Hsrc]. apply Hsrc. rewrite <- Hunder. apply Hnone. discriminate. }
  destruct (docs_only_flags (ChangeDetectionAction.optimization_engine self)
              cls []) as (Ht & Hs & Hl & Hd & Hscore).
  { rewrite Hunder, Hall. exact Hchanged. }
  { exact Hnone. }
  eexists. split; [exact Hrun|]. simpl.
  rewrite Hunder, Hall. repeat split; try assumption; apply Hscore; assumption.
Qed.

(** A new action on a change to the README and a guide. *)
Lemma X25_witness :
  ∃ r,
    ChangeDetectionAction.execute Statements.new_action
      (Statements.git_prints ["README.md"; "docs/guide.rst"]) = Some r
    ∧ ChangeDetectionAction.success r = true
    ∧ ChangeDetectionAction.changed_files r = ["README.md"; "docs/guide.rst"]
    ∧ Vocabulary.files_of (ChangeDetectionAction.classifications r) "docs"
      = ["README.md"; "docs/guide.rst"]
    ∧ ChangeDetectionAction.skip_tests r = true
    ∧ ChangeDetectionAction.skip_security r = true
    ∧ ChangeDetectionAction.skip_lint r = true
    ∧ ChangeDetectionAction.skip_docs r = false
    ∧ ChangeDetectionAction.affected_tests r = []
    ∧ ChangeDetectionAction.dependency_impact r = 0%Z
    ∧ (OptimizationEngine.default_engine = OptimizationEngine.default_engine →
       ChangeDetectionAction.optimization_score r = 75%Z
       ∧ ChangeDetectionAction.time_savings r = 330%Z).
Proof.
  apply (X25_documentation_change_end_to_end Statements.new_action
           (Statements.git_prints ["README.md"; "docs/guide.rst"])).
  - vm_compute. discriminate.
  - intros f Hf.
    change (f ∈ ["README.md"; "docs/guide.rst"]) in Hf.
    repeat (apply elem_of_cons in Hf as [->|Hf]; [vm_compute; reflexivity|]).
    apply elem_of_nil in Hf. destruct Hf.
  - intros [[Hmode _]|[msg Hmsg]]; discriminate.
Defined.

(** X26: through the whole action, a change that contains a file filed
    under "source" or "dependencies" never skips tests, security
    scanning or linting, and a change that contains a file filed under
    "tests" never skips the tests: whatever else changed, whatever the
    level, the toggles and the custom patterns are, and whether or not
    the run succeeds. *)
Theorem X26_code_change_keeps_its_stages
    (self : ChangeDetectionAction.t) (w : ChangeDetectionAction.World)
    (f : string) :
  f ∈ ChangeDetectionAction._get_changed_files w →
  ∃ r,
    ChangeDetectionAction.execute self w = Some r
    ∧ (Vocabulary.assigned
         (FilePatternMatcher.init (ChangeDetectionAction.custom_patterns self))
         f = Some "source"
       ∨ Vocabulary.assigned
           (FilePatternMatcher.init
              (ChangeDetectionAction.custom_patterns self))
           f = Some "dependencies" →
       ChangeDetectionAction.skip_tests r = false
       ∧ ChangeDetectionAction.skip_security r = false
       ∧ ChangeDetectionAction.skip_lint r = false)
    ∧ (Vocabulary.assigned
         (FilePatternMatcher.init (ChangeDetectionAction.custom_patterns self))
         f = Some "tests" →
       ChangeDetectionAction.skip_tests r = false).
Proof.
  intros Hf.
  destruct (execute_paths self w)
    as (cls & tests & impact & _ & Hfiled & _ & Hrun).
  eexists. split; [exact Hrun|]. clear Hrun.
  assert (Hunder : ∀ k,
            Vocabulary.assigned
              (FilePatternMatcher.init
                 (ChangeDetectionAction.custom_patterns self)) f = Some k →
            Vocabulary.files_of cls k ≠ []).
  { intros k Hk. rewrite (files_of_filed self _ cls k Hfiled).
    intros Hempty.
    assert (Hin : f ∈ Statements.filed_under
                        (FilePatternMatcher.init
                           (ChangeDetectionAction.custom_patterns self))
                        k (ChangeDetectionAction._get_changed_files w))
      by (apply filed_under_subset; auto).
    rewrite Hempty in Hin. apply elem_of_nil in Hin. exact Hin. }
  destruct (ChangeDetectionAction._get_changed_files w) as [|f0 fs];
    [simpl; auto|].
  destruct (ChangeDetectionAction.monorepo_analysis self w (f0 :: fs));
    [|simpl; auto].
  destruct (ChangeDetectionAction.reports_fault w); [simpl; auto|].
  destruct (stages_kept (ChangeDetectionAction.optimization_engine self)
              cls tests) as [Hcode Htests].
  simpl. split.
  - intros [H|H]; apply Hcode; [left|right]; apply Hunder, H.
  - intros H. apply Htests, Hunder, H.
Qed.

(** A change to a module and the README. *)
Lemma X26_witness :
  ∃ r,
    ChangeDetectionAction.execute Statements.new_action
      (Statements.git_prints ["src/app.py"; "README.md"]) = Some r
    ∧ (Vocabulary.assigned (FilePatternMatcher.init None) "src/app.py"
       = Some "source"
       ∨ Vocabulary.assigned (FilePatternMatcher.init None) "src/app.py"
         = Some "dependencies" →
       ChangeDetectionAction.skip_tests r = false
       ∧ ChangeDetectionAction.skip_security r = false
       ∧ ChangeDetectionAction.skip_lint r = false)
    ∧ (Vocabulary.assigned (FilePatternMatcher.init None) "src/app.py"
       = Some "tests" →
       ChangeDetectionAction.skip_tests r = false).
Proof.
  apply (X26_code_change_keeps_its_stages Statements.new_action
           (Statements.git_prints ["src/app.py"; "README.md"]) "src/app.py").
  change ("src/app.py" ∈ ["src/app.py"; "README.md"]).
  apply list_elem_of_here.
Defined.

(** X27: on a new action the dependency analysis selects changed test
    files and nothing else.  The graph is built from the changed files
    filed under "source", so every test [execute] reports is itself a
    changed file that is a test file by its name; and when the analysis
    runs (standard or comprehensive level, at least one changed file filed
    under "source") and the run succeeds, every changed test file is
    reported.  No test is reported twice, and none at all when the analysis
    does not run or the run fails. *)
Theorem X27_new_action_reports_only_changed_tests
    (self : ChangeDetectionAction.t) (w : ChangeDetectionAction.World) :
  ChangeDetectionAction.dependency_graph self = ∅ →
  ∃ r,
    ChangeDetectionAction.execute self w = Some r
    ∧ NoDup (ChangeDetectionAction.affected_tests r)
    ∧ ∀ t,
        t ∈ ChangeDetectionAction.affected_tests r
        ↔ ChangeDetectionAction.success r = true
          ∧ Statements.analysis_runs self
              (ChangeDetectionAction._get_changed_files w)
          ∧ t ∈ ChangeDetectionAction._get_changed_files w
          ∧ DependencyAnalyzer._is_test_file t = true.
Proof.
  intros Hnew.
  destruct (execute_paths self w)
    as (cls & tests & impact & _ & Hfiled & Hdep & Hrun).
  eexists. split; [exact Hrun|]. clear Hrun.
  destruct (dependency_analysis_spec self w cls _ Hfiled)
    as (tests' & impact' & Hdep' & Hnodup & Hidle & Hall & Honly).
  rewrite Hdep in Hdep'. injection Hdep' as <- <-.
  specialize (Honly Hnew).
  assert (Hnone : ∀ (ok : bool) e,
    NoDup (ChangeDetectionAction.affected_tests
             (ChangeDetectionAction.no_recommendation self ok e))
    ∧ ∀ t, t ∈ ChangeDetectionAction.affected_tests
                 (ChangeDetectionAction.no_recommendation self ok e)
           ↔ ChangeDetectionAction.success
               (ChangeDetectionAction.no_recommendation self ok e) = true
             ∧ Statements.analysis_runs self [] ∧ t ∈ @nil string
             ∧ DependencyAnalyzer._is_test_file t = true).
  { intros ok e. simpl. split; [constructor|]. intros t. split.
    - intros H. apply elem_of_nil in H. destruct H.
    - intros (_ & _ & H & _). exact H. }
  destruct (ChangeDetectionAction._get_changed_files w) as [|f fs] eqn:Hfiles.
  { exact (Hnone true None). }
  assert (Hfail : ∀ e,
    NoDup (ChangeDetectionAction.affected_tests
             (ChangeDetectionAction.no_recommendation self false e))
    ∧ ∀ t, t ∈ ChangeDetectionAction.affected_tests
                 (ChangeDetectionAction.no_recommendation self false e)
           ↔ ChangeDetectionAction.success
               (ChangeDetectionAction.no_recommendation self false e) = true
             ∧ Statements.analysis_runs self (f :: fs) ∧ t ∈ f :: fs
             ∧ DependencyAnalyzer._is_test_file t = true).
  { intros e. simpl. split; [constructor|]. intros t. split.
    - intros H. apply elem_of_nil in H. destruct H.
    - intros (H & _). discriminate. }
  destruct (ChangeDetectionAction.monorepo_analysis self w (f :: fs));
    [|apply Hfail].
  destruct (ChangeDetectionAction.reports_fault w); [apply Hfail|].
  simpl. split; [exact Hnodup|]. intros t. split.
  - intros Ht. destruct (Honly t Ht) as [Hin Htest].
    split; [reflexivity|]. split; [|auto].
    destruct (analysis_runs_dec self (f :: fs)) as [Hruns|Hruns];
      [exact Hruns|].
    destruct (Hidle Hruns) as [-> _]. apply elem_of_nil in Ht. destruct Ht.
  - intros (_ & Hruns & Hin & Htest). exact (Hall Hruns t Hin Htest).
Qed.

(** A change to a module and two test files: only the module is filed
    under "source", and both test files are reported. *)
Lemma X27_witness :
  ∃ r,
    ChangeDetectionAction.execute Statements.new_action
      (Statements.git_prints
         ["src/app.py"; "src/test_app.py"; "tests/test_cli.py"]) = Some r
    ∧ NoDup (ChangeDetectionAction.affected_tests r)
    ∧ ∀ t,
        t ∈ ChangeDetectionAction.affected_tests r
        ↔ ChangeDetectionAction.success r = true
          ∧ Statements.analysis_runs Statements.new_action
              (ChangeDetectionAction._get_changed_files
                 (Statements.git_prints
                    ["src/app.py"; "src/test_app.py"; "tests/test_cli.py"]))
          ∧ t ∈ ChangeDetectionAction._get_changed_files
                  (Statements.git_prints
                     ["src/app.py"; "src/test_app.py"; "tests/test_cli.py"])
          ∧ DependencyAnalyzer._is_test_file t = true.
Proof.
  apply (X27_new_action_reports_only_changed_tests Statements.new_action
           (Statements.git_prints
              ["src/app.py"; "src/test_app.py"; "tests/test_cli.py"])).
  reflexivity.
Defined.
